(** * A shallow embedding of [logging_system.py]

    The module wraps Python's [logging] package: an [AdvancedLogger] owns a
    console handler and two rotating file handlers, keeps a per-thread
    [LogContext], attaches caller keyword fields to each record with
    [setattr] and renders records as JSON.

    Modelling conventions.
    - Python objects are values of [pyval]; a record's [__dict__] and a
      [dict] literal are association lists in insertion order.
    - Effects are threaded through [World] by the monad [M]; an exception
      leaves the state changes made before it in place.
    - One thread is modelled: [contexts] holds the calling thread's slot of
      every instance's [threading.local()].
    - Library calls ([logging], [json], [dataclasses]) follow CPython 3.11.
      Text-level formatting that the claims never inspect (JSON text, ISO
      timestamps, [repr] of floats and containers, uuid4 strings) is taken
      from a [Runtime] record.
    - Floats are rationals: floating-point rounding and overflow are not
      modelled, and there is no NaN or infinity.
    - Every call of [time.time()] or [datetime.utcnow()] takes the next
      reading of the clock, so two renderings of one record may carry
      different timestamps.
    - Interpreter limits: an int of more than 4300 decimal digits cannot be
      converted to text, and the JSON encoder can enter only so many levels
      of nesting. The call chain of the handlers and the two levels the
      formatter itself creates are taken to fit; [nesting_spare] is what is
      left beyond them.
    - Records propagate only to the logger's own handlers: the root logger
      and dotted parents are taken to have none. *)

From Stdlib Require Import ZArith QArith Ascii.
From stdpp Require Import base gmap strings list pretty.

Local Open Scope string_scope.
Local Open Scope Z_scope.

(** ** Exceptions and Python values *)

(** Where the class of an exception stands among the classes that the
    [except] clauses of [logging] and of the module name: outside
    [Exception] (KeyboardInterrupt, SystemExit), within [RecursionError],
    or elsewhere within [Exception]. *)
Inductive ExcClass := OutsideException | WithinException | WithinRecursionError.

(** An exception instance, seen through what the code reads from it. *)
Record Exc := {
  exc_type : string;          (* type(e).__name__ *)
  exc_str : string;           (* str(e) *)
  exc_tb : option string;     (* str(e.__traceback__); None when never raised *)
  exc_trace : string;         (* logging.Formatter.formatException of its exc_info *)
  exc_class : ExcClass
}.

(** [isinstance(e, Exception)]. *)
Definition exc_is_Exception (e : Exc) : bool :=
  match exc_class e with
  | OutsideException => false
  | WithinException | WithinRecursionError => true
  end.

(** [isinstance(e, RecursionError)]. *)
Definition exc_is_RecursionError (e : Exc) : bool :=
  match exc_class e with
  | WithinRecursionError => true
  | OutsideException | WithinException => false
  end.

Arguments exc_is_Exception : simpl never.
Arguments exc_is_RecursionError : simpl never.

Definition builtin_exc (ty msg : string) : Exc :=
  {| exc_type := ty; exc_str := msg; exc_tb := None;
     exc_trace := ty ++ ": " ++ msg; exc_class := WithinException |}.

Definition TypeError := builtin_exc "TypeError".
Definition AttributeError := builtin_exc "AttributeError".
Definition ValueError := builtin_exc "ValueError".
Definition IndexError := builtin_exc "IndexError".

Definition RecursionError (msg : string) : Exc :=
  {| exc_type := "RecursionError"; exc_str := msg; exc_tb := None;
     exc_trace := "RecursionError: " ++ msg; exc_class := WithinRecursionError |}.

Inductive result (A : Type) : Type :=
| Ok (a : A)
| Raise (e : Exc).
Arguments Ok {A} a.
Arguments Raise {A} e.

#[export] Instance result_ret : MRet result := fun _ a => Ok a.
#[export] Instance result_bind : MBind result := fun _ _ f r =>
  match r with
  | Ok a => f a
  | Raise e => Raise e
  end.

(** [@dataclass class LogContext] with its annotated field types. *)
Record LogContext := {
  correlation_id : string;
  user_id : option string;
  session_id : option string;
  request_id : option string;
  service_name : string;
  version : string
}.

(** Keys of a [dict]: [KOther] stands for any hashable that is not a str,
    int, float, bool or None (a tuple, say). *)
Inductive pykey :=
| KStr (s : string)
| KInt (z : Z)
| KFloat (q : Q)
| KBool (b : bool)
| KNone
| KOther.

#[warnings="-register-all"]
Inductive pyval :=
| VNone
| VBool (b : bool)
| VInt (z : Z)
| VFloat (q : Q)
| VStr (s : string)
| VList (l : list pyval)
| VTuple (l : list pyval)
| VDict (kvs : list (pykey * pyval))
| VContext (c : LogContext)       (* a LogContext instance *)
| VType (name : string)           (* a class object *)
| VExc (e : Exc)                  (* an exception instance *)
| VObj (shown : result string).   (* any other object, of a class that customises
                                     at most __str__, with what str() does on it *)

(** The tree that [json.dumps] prints. *)
#[warnings="-register-all"]
Inductive json :=
| JNull
| JBool (b : bool)
| JInt (z : Z)
| JFloat (q : Q)
| JStr (s : string)
| JArr (l : list json)
| JObj (kvs : list (string * json)).

(** What the model takes from the interpreter as given: the sources of
    uuids and clock readings, the room of the JSON encoder, the text-level
    services, and the identity of the process. *)
Record Runtime := {
  uuid4 : nat -> string;          (* str(uuid.uuid4()) at the n-th draw *)
  clock : nat -> Q;               (* the system clock at its n-th reading *)
  nesting_spare : nat;            (* levels of nesting the JSON encoder can enter
                                     beyond the two the formatter creates *)
  isoformat : Q -> string;        (* datetime.isoformat() of a clock reading *)
  strftime : Q -> string;         (* strftime('%Y-%m-%d %H:%M:%S') *)
  format_2f : Q -> string;        (* format(x, '.2f') *)
  repr_text : pyval -> string;    (* repr() of floats, containers, dataclasses *)
  json_text : json -> string;     (* the text json.dumps prints for a tree *)
  percent_format : string -> pyval -> result string;   (* msg % args *)
  rollover_skips_empty : bool;    (* gh-116263: CPython 3.12.3 and later never
                                     roll over an empty file; 3.11 does *)
  thread_ident : Z;
  thread_name : string;
  process_name : string;
  process_id : Z;
  start_time : Q                  (* logging._startTime *)
}.

(** A runtime used to evaluate the model on concrete inputs. *)
Definition demo_runtime : Runtime :=
  {| uuid4 := fun n => "uuid-" ++ pretty n;
     clock := fun n => inject_Z (Z.of_nat n);
     nesting_spare := 2;
     isoformat := fun _ => "2024-01-01T00:00:00";
     strftime := fun _ => "2024-01-01 00:00:00";
     format_2f := fun _ => "0.00";
     repr_text := fun _ => "<repr>";
     json_text := fun _ => "{json}";
     percent_format := fun s _ => Ok s;
     rollover_skips_empty := false;
     thread_ident := 1;
     thread_name := "MainThread";
     process_name := "MainProcess";
     process_id := 1;
     start_time := 0%Q |}.

(** ** Dictionaries in insertion order *)

Section Dict.
Context {V : Type}.

Fixpoint dict_get (k : string) (d : list (string * V)) : option V :=
  match d with
  | [] => None
  | (k', v) :: d' => if decide (k' = k) then Some v else dict_get k d'
  end.

(** [d[k] = v]: an existing key keeps its position. *)
Fixpoint dict_set (k : string) (v : V) (d : list (string * V)) : list (string * V) :=
  match d with
  | [] => [(k, v)]
  | (k', v') :: d' =>
      if decide (k' = k) then (k, v) :: d' else (k', v') :: dict_set k v d'
  end.

Fixpoint dict_del (k : string) (d : list (string * V)) : list (string * V) :=
  match d with
  | [] => []
  | (k', v') :: d' =>
      if decide (k' = k) then d' else (k', v') :: dict_del k d'
  end.

Definition dict_has (k : string) (d : list (string * V)) : bool :=
  bool_decide (is_Some (dict_get k d)).

Definition dict_keys (d : list (string * V)) : list string := d.*1.
End Dict.

(** ** The logger objects *)

Inductive Formatter := ConsoleFormatter | StructuredFormatter.

(** Where a handler writes: [sys.stdout], or the file set of a
    [RotatingFileHandler]. *)
Inductive Stream :=
| Stdout
| RotatingFile (baseFilename : string) (maxBytes backupCount : Z).

Record Handler := {
  h_level : Z;
  h_formatter : Formatter;
  h_stream : Stream
}.

(** [logging.Logger], as far as the module uses it. *)
Record PyLogger := {
  lg_name : string;
  lg_level : Z;
  lg_handlers : list Handler
}.

Record AdvancedLogger := {
  self_id : nat;                 (* identity of the instance *)
  name : string;
  log_level : Z;
  log_dir : string;
  logger : PyLogger
}.

(** ** The world and the monad of effects *)

Record World := {
  fs : gmap string string;            (* regular files: path to contents *)
  stdout : list string;               (* writes to sys.stdout, oldest first *)
  stderr : list Exc;                  (* Handler.handleError reports *)
  ticks : nat;                        (* readings of the system clock so far *)
  isatty : bool;                      (* sys.stdout.isatty() *)
  uuids : nat;                        (* uuid4() draws so far *)
  contexts : gmap nat LogContext;     (* self._context.current, by instance *)
  next_id : nat;                      (* instances allocated so far *)
  _default_logger : option AdvancedLogger
}.

Definition set_fs (f : gmap string string -> gmap string string) (w : World) : World :=
  {| fs := f (fs w); stdout := stdout w; stderr := stderr w; ticks := ticks w;
     isatty := isatty w; uuids := uuids w; contexts := contexts w;
     next_id := next_id w; _default_logger := _default_logger w |}.

Definition set_stdout (f : list string -> list string) (w : World) : World :=
  {| fs := fs w; stdout := f (stdout w); stderr := stderr w; ticks := ticks w;
     isatty := isatty w; uuids := uuids w; contexts := contexts w;
     next_id := next_id w; _default_logger := _default_logger w |}.

Definition set_stderr (f : list Exc -> list Exc) (w : World) : World :=
  {| fs := fs w; stdout := stdout w; stderr := f (stderr w); ticks := ticks w;
     isatty := isatty w; uuids := uuids w; contexts := contexts w;
     next_id := next_id w; _default_logger := _default_logger w |}.

Definition set_uuids (n : nat) (w : World) : World :=
  {| fs := fs w; stdout := stdout w; stderr := stderr w; ticks := ticks w;
     isatty := isatty w; uuids := n; contexts := contexts w;
     next_id := next_id w; _default_logger := _default_logger w |}.

Definition set_ticks (n : nat) (w : World) : World :=
  {| fs := fs w; stdout := stdout w; stderr := stderr w; ticks := n;
     isatty := isatty w; uuids := uuids w; contexts := contexts w;
     next_id := next_id w; _default_logger := _default_logger w |}.

Definition set_contexts (f : gmap nat LogContext -> gmap nat LogContext) (w : World) : World :=
  {| fs := fs w; stdout := stdout w; stderr := stderr w; ticks := ticks w;
     isatty := isatty w; uuids := uuids w; contexts := f (contexts w);
     next_id := next_id w; _default_logger := _default_logger w |}.

Definition set_next_id (n : nat) (w : World) : World :=
  {| fs := fs w; stdout := stdout w; stderr := stderr w; ticks := ticks w;
     isatty := isatty w; uuids := uuids w; contexts := contexts w;
     next_id := n; _default_logger := _default_logger w |}.

Definition set_default_logger (d : option AdvancedLogger) (w : World) : World :=
  {| fs := fs w; stdout := stdout w; stderr := stderr w; ticks := ticks w;
     isatty := isatty w; uuids := uuids w; contexts := contexts w;
     next_id := next_id w; _default_logger := d |}.

Definition M (A : Type) : Type := World -> World * result A.

Definition ret {A} (a : A) : M A := fun w => (w, Ok a).

Definition raise {A} (e : Exc) : M A := fun w => (w, Raise e).

Definition bind {A B} (m : M A) (f : A -> M B) : M B :=
  fun w =>
    match m w with
    | (w', Ok a) => f a w'
    | (w', Raise e) => (w', Raise e)
    end.

Definition lift {A} (r : result A) : M A := fun w => (w, r).

Definition modify (f : World -> World) : M unit := fun w => (f w, Ok tt).

Definition gets {A} (f : World -> A) : M A := fun w => (w, Ok (f w)).

Declare Scope py_scope.
Delimit Scope py_scope with py.
Notation "x <- m ;; k" := (bind m (fun x => k))
  (at level 100, m at next level, right associativity) : py_scope.
Notation "m ;;; k" := (bind m (fun _ => k))
  (at level 100, right associativity) : py_scope.
Local Open Scope py_scope.

(** [try: body finally: fin]. The finaliser runs on both exits; if it
    raises, its exception replaces the outcome of the body. *)
Definition try_finally {A} (body : M A) (fin : M unit) : M A :=
  fun w =>
    let '(w1, r) := body w in
    match fin w1 with
    | (w2, Ok _) => (w2, r)
    | (w2, Raise e) => (w2, Raise e)
    end.

(** [try: body except Exception as e: handler(e) else: orelse]. Only
    instances of [Exception] are caught; the [else] suite is not guarded. *)
Definition try_except_else {A B} (body : M A) (handler : Exc -> M B)
    (orelse : A -> M B) : M B :=
  fun w =>
    match body w with
    | (w1, Ok a) => orelse a w1
    | (w1, Raise e) =>
        if exc_is_Exception e then handler e w1 else (w1, Raise e)
    end.

(** [try: body except Exception as e: handler(e)]. *)
Definition try_except {A} (body : M A) (handler : Exc -> M A) : M A :=
  try_except_else body handler ret.

(** ** The context store *)

Definition set_context (self : AdvancedLogger) (context : LogContext) : M unit :=
  modify (set_contexts <[self_id self := context]>).

Definition get_context (self : AdvancedLogger) : M (option LogContext) :=
  gets (fun w => contexts w !! self_id self).

Definition clear_context (self : AdvancedLogger) : M unit :=
  modify (fun w =>
    if bool_decide (is_Some (contexts w !! self_id self))
    then set_contexts (delete (self_id self)) w
    else w).

Definition LogContext_fields : list string :=
  ["correlation_id"; "user_id"; "session_id"; "request_id"; "service_name"; "version"].

(** The generated [LogContext.__init__], called with keyword arguments only. *)
Definition LogContext_init (kwargs : gmap string string) : result LogContext :=
  if bool_decide (Forall (fun k => k ∈ LogContext_fields) (elements (dom kwargs)))
  then
    match kwargs !! "correlation_id" with
    | None => Raise (TypeError "__init__() missing 1 required positional argument: 'correlation_id'")
    | Some cid =>
        Ok {| correlation_id := cid;
              user_id := kwargs !! "user_id";
              session_id := kwargs !! "session_id";
              request_id := kwargs !! "request_id";
              service_name := default "logging-service" (kwargs !! "service_name");
              version := default "1.0.0" (kwargs !! "version") |}
    end
  else Raise (TypeError "__init__() got an unexpected keyword argument").

Section Facade.
Variable rt : Runtime.

Definition uuid_uuid4 : M string :=
  fun w => (set_uuids (S (uuids w)) w, Ok (uuid4 rt (uuids w))).

(** The world after one more reading of the clock. *)
Definition tick (w : World) : World := set_ticks (S (ticks w)) w.

(** [time.time()]: the next reading of the system clock. *)
Definition time_time : M Q :=
  fun w => (tick w, Ok (clock rt (ticks w))).

(** [datetime.utcnow()], a reading of the same clock. *)
Definition datetime_utcnow : M Q := time_time.

(** [with self.context(...) as cid: body(cid)], [kwargs] being the keyword
    arguments of the call. *)
Definition context {A} (self : AdvancedLogger) (kwargs : gmap string string)
    (body : string -> M A) : M A :=
  (if bool_decide ("self" ∈ dom kwargs)
   then raise (TypeError "context() got multiple values for argument 'self'")
   else ret tt) ;;;
  kwargs <- match kwargs !! "correlation_id" with
            | None => cid <- uuid_uuid4 ;; ret (<["correlation_id" := cid]> kwargs)
            | Some _ => ret kwargs
            end ;;
  old_context <- get_context self ;;
  new_context <- lift (LogContext_init kwargs) ;;
  try_finally
    (set_context self new_context ;;;
     body (correlation_id new_context))
    (match old_context with
     | Some c => set_context self c
     | None => clear_context self
     end).

(** ** Builtins on values *)

Definition py_truthy (v : pyval) : bool :=
  match v with
  | VNone => false
  | VBool b => b
  | VInt z => negb (z =? 0)
  | VFloat q => negb (Qeq_bool q 0)
  | VStr s => negb (bool_decide (s = ""))
  | VList l | VTuple l => negb (bool_decide (l = []))
  | VDict kvs => match kvs with [] => false | _ => true end
  | VContext _ | VType _ | VExc _ | VObj _ => true
  end.

(** The smallest int with more than 4300 decimal digits;
    [sys.get_int_max_str_digits()] is left at its default. *)
Definition int_str_bound : Z := Eval vm_compute in 10 ^ 4300.

Definition int_fits (z : Z) : bool := Z.abs z <? int_str_bound.

Arguments int_fits : simpl never.

(** [int.__repr__(z)], the decimal text of an int. *)
Definition int_repr (z : Z) : result string :=
  if int_fits z then Ok (pretty z)
  else Raise (ValueError "Exceeds the limit (4300 digits) for integer string conversion").

(** [str(v)]. *)
Definition py_str (v : pyval) : result string :=
  match v with
  | VNone => Ok "None"
  | VBool true => Ok "True"
  | VBool false => Ok "False"
  | VInt z => int_repr z
  | VStr s => Ok s
  | VType n => Ok ("<class '" ++ n ++ "'>")
  | VExc e => Ok (exc_str e)
  | VObj r => r
  | VFloat _ | VList _ | VTuple _ | VDict _ | VContext _ => Ok (repr_text rt v)
  end.

(** [v[i]] for a constant index. *)
Definition py_index (v : pyval) (i : nat) : result pyval :=
  match v with
  | VList l | VTuple l =>
      match l !! i with
      | Some x => Ok x
      | None => Raise (IndexError "index out of range")
      end
  | VStr s =>
      match String.get i s with
      | Some c => Ok (VStr (String c ""))
      | None => Raise (IndexError "string index out of range")
      end
  | _ => Raise (TypeError "object is not subscriptable")
  end.

(** [v[:n]]. *)
Definition py_slice_to (v : pyval) (n : nat) : result pyval :=
  match v with
  | VStr s => Ok (VStr (String.substring 0 n s))
  | VList l => Ok (VList (take n l))
  | VTuple l => Ok (VTuple (take n l))
  | _ => Raise (TypeError "object is not subscriptable")
  end.

(** [v.__name__]. *)
Definition py_dunder_name (v : pyval) : result pyval :=
  match v with
  | VType n => Ok (VStr n)
  | _ => Raise (AttributeError "object has no attribute '__name__'")
  end.

(** The number a value compares as, if it is one. *)
Definition py_number (v : pyval) : option Q :=
  match v with
  | VInt z => Some (inject_Z z)
  | VBool b => Some (inject_Z (if b then 1 else 0))
  | VFloat q => Some q
  | _ => None
  end.

(** [v >= n] for an int [n]. *)
Definition py_ge_int (v : pyval) (n : Z) : result bool :=
  match py_number v with
  | Some q => Ok (Qle_bool (inject_Z n) q)
  | None => Raise (TypeError "'>=' not supported between these instances")
  end.

Definition py_opt (o : option string) : pyval :=
  match o with Some s => VStr s | None => VNone end.

(** [dataclasses.asdict(v)]. *)
Definition asdict (v : pyval) : result pyval :=
  match v with
  | VContext c =>
      Ok (VDict [(KStr "correlation_id", VStr (correlation_id c));
                 (KStr "user_id", py_opt (user_id c));
                 (KStr "session_id", py_opt (session_id c));
                 (KStr "request_id", py_opt (request_id c));
                 (KStr "service_name", VStr (service_name c));
                 (KStr "version", VStr (version c))])
  | _ => Raise (TypeError "asdict() should be called on dataclass instances")
  end.

(** ** json.dumps(obj, default=str), up to the printed tree *)

(** A dict key as the encoder writes it; [skipkeys] is off. *)
Definition json_key (k : pykey) : result string :=
  match k with
  | KStr s => Ok s
  | KInt z => int_repr z
  | KFloat q => Ok (repr_text rt (VFloat q))
  | KBool true => Ok "true"
  | KBool false => Ok "false"
  | KNone => Ok "null"
  | KOther => Raise (TypeError "keys must be str, int, float, bool or None")
  end.

Definition nesting_error : Exc :=
  RecursionError "maximum recursion depth exceeded while encoding a JSON object".

(** The encoder on one value, with [room] levels of nesting left to enter:
    a list, tuple or dict takes one level for its items, and so does the
    string that [default=str] gives for any other object. *)
Fixpoint to_json (room : nat) (v : pyval) {struct v} : result json :=
  match v with
  | VNone => Ok JNull
  | VBool b => Ok (JBool b)
  | VInt z =>
      match int_repr z with
      | Ok _ => Ok (JInt z)
      | Raise e => Raise e
      end
  | VFloat q => Ok (JFloat q)
  | VStr s => Ok (JStr s)
  | VList l | VTuple l =>
      match room with
      | O => Raise nesting_error
      | S room' =>
          match (fix items (l : list pyval) : result (list json) :=
                   match l with
                   | [] => Ok []
                   | x :: l' =>
                       match to_json room' x with
                       | Raise e => Raise e
                       | Ok j =>
                           match items l' with
                           | Raise e => Raise e
                           | Ok js => Ok (j :: js)
                           end
                       end
                   end) l with
          | Ok js => Ok (JArr js)
          | Raise e => Raise e
          end
      end
  | VDict kvs =>
      match room with
      | O => Raise nesting_error
      | S room' =>
          match (fix members (kvs : list (pykey * pyval))
                   : result (list (string * json)) :=
                   match kvs with
                   | [] => Ok []
                   | (k, x) :: kvs' =>
                       match json_key k with
                       | Raise e => Raise e
                       | Ok ks =>
                           match to_json room' x with
                           | Raise e => Raise e
                           | Ok j =>
                               match members kvs' with
                               | Raise e => Raise e
                               | Ok js => Ok ((ks, j) :: js)
                               end
                           end
                       end
                   end) kvs with
          | Ok js => Ok (JObj js)
          | Raise e => Raise e
          end
      end
  | VContext _ | VType _ | VExc _ | VObj _ =>
      (* default=str: the hook's answer, a str, is what gets encoded *)
      match py_str v with
      | Ok s =>
          match room with
          | O => Raise nesting_error
          | S _ => Ok (JStr s)
          end
      | Raise e => Raise e
      end
  end.

(** The members of a dict whose keys are attribute names. *)
Fixpoint to_json_members (room : nat) (d : list (string * pyval))
    : result (list (string * json)) :=
  match d with
  | [] => Ok []
  | (k, x) :: d' =>
      match to_json room x with
      | Raise e => Raise e
      | Ok j =>
          match to_json_members room d' with
          | Raise e => Raise e
          | Ok js => Ok ((k, j) :: js)
          end
      end
  end.

(** The nesting that the members of the dict handed to [json.dumps] can
    still enter. *)
Definition members_room : nat := S (nesting_spare rt).

Definition json_dumps (d : list (string * pyval)) : result string :=
  match to_json_members members_room d with
  | Ok js => Ok (json_text rt (JObj js))
  | Raise e => Raise e
  end.

(** ** Log records *)

(** A [logging.LogRecord], as its [__dict__]. *)
Definition LogRecord : Type := list (string * pyval).

Definition setattr (record : LogRecord) (key : string) (value : pyval) : LogRecord :=
  dict_set key value record.

Definition hasattr (record : LogRecord) (key : string) : bool :=
  dict_has key record.

Definition getattr (record : LogRecord) (key : string) : result pyval :=
  match dict_get key record with
  | Some v => Ok v
  | None => Raise (AttributeError ("'LogRecord' object has no attribute '" ++ key ++ "'"))
  end.

Definition DEBUG : Z := 10.
Definition INFO : Z := 20.
Definition WARNING : Z := 30.
Definition ERROR : Z := 40.
Definition CRITICAL : Z := 50.

Definition getLevelName (level : Z) : string :=
  if level =? CRITICAL then "CRITICAL"
  else if level =? ERROR then "ERROR"
  else if level =? WARNING then "WARNING"
  else if level =? INFO then "INFO"
  else if level =? DEBUG then "DEBUG"
  else if level =? 0 then "NOTSET"
  else "Level " ++ pretty level.

(** [int(q)]: truncation towards zero. *)
Definition Qtrunc (q : Q) : Z := Z.quot (Qnum q) (Z.pos (Qden q)).

(** [self.logger.makeRecord(name, level, fn="", lno=0, msg, args=(),
    exc_info)]: the attributes [LogRecord.__init__] sets, in its order;
    an empty [fn] gives an empty [filename] and [module]. *)
Definition makeRecord (name : string) (level : Z) (msg : string)
    (exc_info : pyval) : M LogRecord :=
  ct <- time_time ;;
  ret [("name", VStr name);
       ("msg", VStr msg);
       ("args", VTuple []);
       ("levelname", VStr (getLevelName level));
       ("levelno", VInt level);
       ("pathname", VStr "");
       ("filename", VStr "");
       ("module", VStr "");
       ("exc_info", exc_info);
       ("exc_text", VNone);
       ("stack_info", VNone);
       ("lineno", VInt 0);
       ("funcName", VNone);
       ("created", VFloat ct);
       ("msecs", VFloat (inject_Z (Qtrunc ((ct - inject_Z (Qtrunc ct)) * 1000))));
       ("relativeCreated", VFloat ((ct - start_time rt) * 1000));
       ("thread", VInt (thread_ident rt));
       ("threadName", VStr (thread_name rt));
       ("processName", VStr (process_name rt));
       ("process", VInt (process_id rt))].

(** [record.getMessage()]. *)
Definition getMessage (record : LogRecord) : result string :=
  msg ← getattr record "msg";
  msg ← py_str msg;
  args ← getattr record "args";
  if py_truthy args then percent_format rt msg args else Ok msg.

(** [logging.Formatter.formatException(ei)]. *)
Definition formatException (ei : pyval) : result string :=
  match ei with
  | VTuple [_; VExc e; _] => Ok (exc_trace e)
  | _ => Raise (TypeError "exc_info is not an exception triple")
  end.

(** ** StructuredFormatter *)

Definition excluded_keys : list string :=
  ["name"; "msg"; "args"; "levelname"; "levelno"; "pathname";
   "filename"; "module"; "lineno"; "funcName"; "created";
   "msecs"; "relativeCreated"; "thread"; "threadName";
   "processName"; "process"; "exc_info"; "exc_text";
   "stack_info"; "context"; "correlation_id"; "duration"].

(** The loop over [record.__dict__.items()]. *)
Definition add_extra_fields (record : LogRecord) (log_entry : list (string * pyval))
    : list (string * pyval) :=
  foldl (fun entry kv =>
           if bool_decide (kv.1 ∈ excluded_keys) then entry
           else dict_set kv.1 kv.2 entry)
        log_entry record.

(** [StructuredFormatter.format] once [datetime.utcnow()] has given [now],
    up to the call of [json.dumps]: the dict [log_entry]. *)
Definition StructuredFormatter_log_entry (now : Q) (record : LogRecord)
    : result (list (string * pyval)) :=
  levelname ← getattr record "levelname";
  name ← getattr record "name";
  message ← getMessage record;
  module ← getattr record "module";
  funcName ← getattr record "funcName";
  lineno ← getattr record "lineno";
  let log_entry :=
    [("timestamp", VStr (isoformat rt now ++ "Z"));
     ("level", levelname);
     ("logger", name);
     ("message", VStr message);
     ("module", module);
     ("function", funcName);
     ("line", lineno)] in
  log_entry ←
    (if hasattr record "context" then
       c ← getattr record "context";
       d ← asdict c;
       Ok (dict_set "context" d log_entry)
     else Ok log_entry);
  log_entry ←
    (if hasattr record "correlation_id" then
       c ← getattr record "correlation_id";
       Ok (dict_set "correlation_id" c log_entry)
     else Ok log_entry);
  log_entry ←
    (if hasattr record "duration" then
       d ← getattr record "duration";
       Ok (dict_set "duration_ms" d log_entry)
     else Ok log_entry);
  exc_info ← getattr record "exc_info";
  log_entry ←
    (if py_truthy exc_info then
       ty ← py_index exc_info 0;
       ty ← py_dunder_name ty;
       ev ← py_index exc_info 1;
       msg ← py_str ev;
       tb ← formatException exc_info;
       Ok (dict_set "exception"
             (VDict [(KStr "type", ty);
                     (KStr "message", VStr msg);
                     (KStr "traceback", VStr tb)])
             log_entry)
     else Ok log_entry);
  Ok (add_extra_fields record log_entry).

(** The rest of [StructuredFormatter.format]. *)
Definition StructuredFormatter_format_at (now : Q) (record : LogRecord) : result string :=
  log_entry ← StructuredFormatter_log_entry now record;
  json_dumps log_entry.

(** [StructuredFormatter.format]: the clock is read first, for the
    [timestamp] entry. *)
Definition StructuredFormatter_format (record : LogRecord) : M string :=
  now <- datetime_utcnow ;;
  lift (StructuredFormatter_format_at now record).

(** ** ConsoleFormatter *)

Definition ESC : string := String (Ascii.ascii_of_nat 27) "".

Definition COLORS : list (string * string) :=
  [("DEBUG", ESC ++ "[36m");
   ("INFO", ESC ++ "[32m");
   ("WARNING", ESC ++ "[33m");
   ("ERROR", ESC ++ "[31m");
   ("CRITICAL", ESC ++ "[35m")].

Definition RESET : string := ESC ++ "[0m".

Fixpoint spaces (n : nat) : string :=
  match n with
  | O => ""
  | S n' => " " ++ spaces n'
  end.

(** [format(v, '8')]. *)
Definition format_8 (v : pyval) : result string :=
  match v with
  | VStr s => Ok (s ++ spaces (8 - String.length s))
  | VInt _ | VBool _ | VFloat _ =>
      s ← match v with
          | VInt z => int_repr z
          | VBool b => Ok (if b then "1" else "0")
          | _ => Ok (repr_text rt v)
          end;
      Ok (spaces (8 - String.length s) ++ s)
  | _ => Raise (TypeError "unsupported format string passed to __format__")
  end.

(** [format(v, '.2f')]: a number is converted to a float and printed
    with two decimals; [object.__format__] rejects the format string. *)
Definition format_dot2f (v : pyval) : result string :=
  match v with
  | VStr _ => Raise (ValueError "Unknown format code 'f' for object of type 'str'")
  | _ =>
      match py_number v with
      | Some q => Ok (format_2f rt q)
      | None => Raise (TypeError "unsupported format string passed to __format__")
      end
  end.

Definition ConsoleFormatter_format (w : World) (record : LogRecord) : result string :=
  levelname ← getattr record "levelname";
  '(color, reset) ←
    (if isatty w then
       match levelname with
       | VStr s => Ok (default "" (dict_get s COLORS), RESET)
       | VList _ | VDict _ => Raise (TypeError "unhashable type")
       | _ => Ok ("", RESET)
       end
     else Ok ("", ""));
  created ← getattr record "created";
  timestamp ←
    match py_number created with
    | Some q => Ok (strftime rt q)
    | None => Raise (TypeError "a number is required for a timestamp")
    end;
  padded ← format_8 levelname;
  name ← getattr record "name";
  name ← py_str name;
  message ← getMessage record;
  let formatted :=
    color ++ "[" ++ timestamp ++ "] " ++ padded ++ " " ++ name ++ ": "
          ++ message ++ reset in
  formatted ←
    (if hasattr record "correlation_id" then
       cid ← getattr record "correlation_id";
       cid ← py_slice_to cid 8;
       cid ← py_str cid;
       Ok (formatted ++ " [ID: " ++ cid ++ "]")
     else Ok formatted);
  formatted ←
    (if hasattr record "duration" then
       d ← getattr record "duration";
       d ← format_dot2f d;
       Ok (formatted ++ " [" ++ d ++ "ms]")
     else Ok formatted);
  Ok formatted.

(** [Handler.format]: the formatter of the handler renders the record.
    The console formatter reads the terminal flag, the structured one the
    clock. *)
Definition Formatter_format (f : Formatter) (record : LogRecord) : M string :=
  match f with
  | ConsoleFormatter => fun w => (w, ConsoleFormatter_format w record)
  | StructuredFormatter => StructuredFormatter_format record
  end.

(** ** Files and the rotating handler *)

(** The line terminator, a single newline character. *)
Definition NL : string := String (Ascii.ascii_of_nat 10) "".

Definition os_path_exists (p : string) (f : gmap string string) : bool :=
  bool_decide (is_Some (f !! p)).

Definition os_remove (p : string) (f : gmap string string) : gmap string string :=
  delete p f.

(** [os.rename(src, dst)]; every call below is guarded by an existence
    test on [src]. *)
Definition os_rename (src dst : string) (f : gmap string string) : gmap string string :=
  match f !! src with
  | Some c => <[dst := c]> (delete src f)
  | None => f
  end.

(** [open(base, 'a')]: the file is created when missing. *)
Definition _open (base : string) (f : gmap string string) : gmap string string :=
  match f !! base with
  | Some _ => f
  | None => <[base := ""]> f
  end.

(** [stream.tell()] after seeking to the end. *)
Definition stream_tell (base : string) (f : gmap string string) : Z :=
  Z.of_nat (String.length (default "" (f !! base))).

Definition stream_write (base s : string) (f : gmap string string) : gmap string string :=
  <[base := default "" (f !! base) ++ s]> f.

(** ["%s.%d" % (base, i)]. *)
Definition backup_name (base : string) (i : Z) : string :=
  base ++ "." ++ pretty i.

(** [range(hi, 0, -1)]. *)
Definition range_down (hi : Z) : list Z :=
  reverse (Z.of_nat <$> seq 1 (Z.to_nat hi)).

Definition shift_backup (base : string) (f : gmap string string) (i : Z)
    : gmap string string :=
  let sfn := backup_name base i in
  let dfn := backup_name base (i + 1) in
  if os_path_exists sfn f then
    os_rename sfn dfn (if os_path_exists dfn f then os_remove dfn f else f)
  else f.

(** [RotatingFileHandler.doRollover]. *)
Definition doRollover (base : string) (backupCount : Z) (f : gmap string string)
    : gmap string string :=
  let f :=
    if 0 <? backupCount then
      let f := foldl (shift_backup base) f (range_down (backupCount - 1)) in
      let dfn := base ++ ".1" in
      let f := if os_path_exists dfn f then os_remove dfn f else f in
      if os_path_exists base f then os_rename base dfn f else f
    else f in
  _open base f.

(** [RotatingFileHandler.shouldRollover]: the record is rendered to
    measure the line. *)
Definition shouldRollover (fmt : Formatter) (base : string) (maxBytes : Z)
    (record : LogRecord) : M bool :=
  if 0 <? maxBytes then
    pos <- gets (fun w => stream_tell base (fs w)) ;;
    if rollover_skips_empty rt && (pos =? 0) then ret false
    else
      s <- Formatter_format fmt record ;;
      let msg := s ++ NL in
      ret (maxBytes <=? pos + Z.of_nat (String.length msg))
  else ret false.

(** [Handler.handleError]: the report goes to [sys.stderr]. *)
Definition handleError (e : Exc) : M unit :=
  modify (set_stderr (fun l => (l ++ [e])%list)).

(** [StreamHandler.emit], writing with [write]: the record is rendered
    and written; a [RecursionError] is raised again, any other instance of
    [Exception] is reported. *)
Definition StreamHandler_emit (fmt : Formatter) (write : string -> World -> World)
    (record : LogRecord) : M unit :=
  fun w =>
    match Formatter_format fmt record w with
    | (w1, Ok msg) => (write (msg ++ NL) w1, Ok tt)
    | (w1, Raise e) =>
        if exc_is_RecursionError e then (w1, Raise e)
        else if exc_is_Exception e then handleError e w1
        else (w1, Raise e)
    end.

(** [BaseRotatingHandler.emit]: the rollover test, the rollover and the
    emission of [FileHandler] are guarded together by [except Exception]. *)
Definition RotatingFileHandler_emit (fmt : Formatter) (base : string)
    (maxBytes backupCount : Z) (record : LogRecord) : M unit :=
  try_except
    (rollover <- shouldRollover fmt base maxBytes record ;;
     (if rollover : bool
      then modify (set_fs (doRollover base backupCount))
      else ret tt) ;;;
     StreamHandler_emit fmt (fun s => set_fs (stream_write base s)) record)
    handleError.

(** [Handler.handle]: no filter is installed. *)
Definition Handler_handle (hdlr : Handler) (record : LogRecord) : M unit :=
  match h_stream hdlr with
  | Stdout =>
      StreamHandler_emit (h_formatter hdlr)
        (fun s => set_stdout (fun l => (l ++ [s])%list)) record
  | RotatingFile base maxBytes backupCount =>
      RotatingFileHandler_emit (h_formatter hdlr) base maxBytes backupCount record
  end.

(** [Logger.callHandlers] over the logger's own handlers. *)
Fixpoint callHandlers (handlers : list Handler) (record : LogRecord) : M unit :=
  match handlers with
  | [] => ret tt
  | hdlr :: rest =>
      levelno <- lift (getattr record "levelno") ;;
      admitted <- lift (py_ge_int levelno (h_level hdlr)) ;;
      (if admitted : bool then Handler_handle hdlr record else ret tt) ;;;
      callHandlers rest record
  end.

(** [Logger.handle]: the logger is enabled and has no filter. The level
    of the logger is not consulted here; [Logger.debug] and its siblings
    do that before they build a record. *)
Definition Logger_handle (lg : PyLogger) (record : LogRecord) : M unit :=
  callHandlers (lg_handlers lg) record.

(** ** AdvancedLogger: emission *)

(** Binding of keyword arguments: a keyword that names a positional
    parameter of the callee is a [TypeError]. *)
Definition bind_kwargs (params : list string) (kwargs : list (string * pyval)) : M unit :=
  if bool_decide (Exists (fun k => k ∈ params) (dict_keys kwargs))
  then raise (TypeError "got multiple values for argument")
  else ret tt.

Definition attach_context (self : AdvancedLogger) (record : LogRecord) : M LogRecord :=
  context <- get_context self ;;
  match context with
  | Some c =>
      ret (setattr (setattr record "context" (VContext c))
             "correlation_id" (VStr (correlation_id c)))
  | None => ret record
  end.

(** [for key, value in kwargs.items(): setattr(record, key, value)]. *)
Definition attach_fields (record : LogRecord) (kwargs : list (string * pyval)) : LogRecord :=
  foldl (fun r kv => setattr r kv.1 kv.2) record kwargs.

Definition _log_with_context (self : AdvancedLogger) (level : Z) (message : string)
    (kwargs : list (string * pyval)) : M unit :=
  bind_kwargs ["self"; "level"; "message"] kwargs ;;;
  record <- makeRecord (lg_name (logger self)) level message VNone ;;
  record <- attach_context self record ;;
  let record := attach_fields record kwargs in
  Logger_handle (logger self) record.

Definition debug (self : AdvancedLogger) (message : string) (kwargs : list (string * pyval)) : M unit :=
  _log_with_context self DEBUG message kwargs.

Definition info (self : AdvancedLogger) (message : string) (kwargs : list (string * pyval)) : M unit :=
  _log_with_context self INFO message kwargs.

Definition warning (self : AdvancedLogger) (message : string) (kwargs : list (string * pyval)) : M unit :=
  _log_with_context self WARNING message kwargs.

Definition critical (self : AdvancedLogger) (message : string) (kwargs : list (string * pyval)) : M unit :=
  _log_with_context self CRITICAL message kwargs.

(** [(type(e), e, e.__traceback__)] for an exception instance. *)
Definition exc_info_tuple (e : Exc) : pyval :=
  VTuple [VType (exc_type e); VExc e;
          match exc_tb e with
          | Some s => VObj (Ok s)
          | None => VNone
          end].

(** The [exc_info] argument [error] passes to [makeRecord]. *)
Definition exc_info_slot (exception : option Exc) : pyval :=
  match exception with
  | Some e => exc_info_tuple e
  | None => VNone
  end.

(** [(type(exception), exception, exception.__traceback__)]. *)
Definition exc_info_of (exception : pyval) : result pyval :=
  match exception with
  | VExc e => Ok (exc_info_tuple e)
  | _ => Raise (AttributeError "object has no attribute '__traceback__'")
  end.

(** [error(message, exception=None, ...)]; [exception] is the value bound
    to the parameter of that name, [VNone] when it is left out. *)
Definition error (self : AdvancedLogger) (message : string) (exception : pyval)
    (kwargs : list (string * pyval)) : M unit :=
  bind_kwargs ["self"; "message"; "exception"] kwargs ;;;
  record <-
    (if py_truthy exception then
       exc_info <- lift (exc_info_of exception) ;;
       makeRecord (lg_name (logger self)) ERROR message exc_info
     else
       makeRecord (lg_name (logger self)) ERROR message VNone) ;;
  record <- attach_context self record ;;
  let record := attach_fields record kwargs in
  Logger_handle (logger self) record.

(** [with self.timer(operation_name): body]. *)
Definition timer {A} (self : AdvancedLogger) (operation_name : string)
    (body : M A) : M A :=
  start_time <- time_time ;;
  try_except_else
    (context <- get_context self ;;
     let correlation_id :=
       match context with Some c => Some (correlation_id c) | None => None end in
     info self ("Starting " ++ operation_name) [("operation", VStr operation_name)] ;;;
     body)
    (fun e =>
       t <- time_time ;;
       let duration := ((t - start_time) * 1000)%Q in
       error self ("Failed " ++ operation_name) (VExc e)
         [("operation", VStr operation_name); ("duration", VFloat duration)] ;;;
       raise e)
    (fun a =>
       t <- time_time ;;
       let duration := ((t - start_time) * 1000)%Q in
       info self ("Completed " ++ operation_name)
         [("operation", VStr operation_name); ("duration", VFloat duration)] ;;;
       ret a).


(** The fields [timer] passes to its records: the operation, and the
    duration once it is known. *)
Definition timer_fields (op : string) (duration : option Q) : list (string * pyval) :=
  ("operation", VStr op) ::
  match duration with Some d => [("duration", VFloat d)] | None => [] end.

(** ** AdvancedLogger: construction *)

Definition ascii_upper (c : Ascii.ascii) : Ascii.ascii :=
  let n := Ascii.nat_of_ascii c in
  if (97 <=? n)%nat && (n <=? 122)%nat then Ascii.ascii_of_nat (n - 32) else c.

(** [s.upper()]. *)
Fixpoint upper (s : string) : string :=
  match s with
  | EmptyString => EmptyString
  | String c s' => String (ascii_upper c) (upper s')
  end.

(** [getattr(logging, attr)] followed by [Logger.setLevel]: the upper-case
    attributes of the [logging] module are the level names and
    [BASIC_FORMAT], a format string that [setLevel] rejects. *)
Definition logging_level (attr : string) : result Z :=
  if decide (attr = "CRITICAL") then Ok 50
  else if decide (attr = "FATAL") then Ok 50
  else if decide (attr = "ERROR") then Ok 40
  else if decide (attr = "WARNING") then Ok 30
  else if decide (attr = "WARN") then Ok 30
  else if decide (attr = "INFO") then Ok 20
  else if decide (attr = "DEBUG") then Ok 10
  else if decide (attr = "NOTSET") then Ok 0
  else if decide (attr = "BASIC_FORMAT") then Raise (ValueError "Unknown level")
  else Raise (AttributeError ("module 'logging' has no attribute '" ++ attr ++ "'")).

Definition starts_with_slash (s : string) : bool :=
  match s with
  | String c _ => bool_decide (c = "/"%char)
  | EmptyString => false
  end.

Fixpoint ends_with_slash (s : string) : bool :=
  match s with
  | EmptyString => false
  | String c EmptyString => bool_decide (c = "/"%char)
  | String _ s' => ends_with_slash s'
  end.

(** [os.path.join(a, b)] on POSIX. *)
Definition os_path_join (a b : string) : string :=
  if starts_with_slash b then b
  else if bool_decide (a = "") || ends_with_slash a then a ++ b
  else a ++ "/" ++ b.

(** The handlers [_setup_handlers] installs, in order. *)
Definition handlers_of (name : string) (log_level : Z) (log_dir : string)
    (max_file_size backup_count : Z) : list Handler :=
  [ {| h_level := log_level; h_formatter := ConsoleFormatter; h_stream := Stdout |};
    {| h_level := DEBUG; h_formatter := StructuredFormatter;
       h_stream := RotatingFile (os_path_join log_dir (name ++ ".log"))
                     max_file_size backup_count |};
    {| h_level := ERROR; h_formatter := StructuredFormatter;
       h_stream := RotatingFile (os_path_join log_dir (name ++ "_errors.log"))
                     max_file_size backup_count |} ].

(** [_setup_handlers]: the handler list is replaced and both files are
    opened for appending. *)
Definition _setup_handlers (name : string) (log_level : Z) (log_dir : string)
    (max_file_size backup_count : Z) : M (list Handler) :=
  modify (set_fs (_open (os_path_join log_dir (name ++ ".log")))) ;;;
  modify (set_fs (_open (os_path_join log_dir (name ++ "_errors.log")))) ;;;
  ret (handlers_of name log_level log_dir max_file_size backup_count).

(** [AdvancedLogger(name, log_level, log_dir, max_file_size,
    backup_count)]. [logging.getLogger("")] is the root logger, whose name
    is "root"; [os.makedirs] and the opening of the files are taken to
    succeed. *)
Definition AdvancedLogger_init (name log_level log_dir : string)
    (max_file_size backup_count : Z) : M AdvancedLogger :=
  id <- gets next_id ;;
  modify (set_next_id (S id)) ;;;
  level <- lift (logging_level (upper log_level)) ;;
  handlers <- _setup_handlers name level log_dir max_file_size backup_count ;;
  ret {| self_id := id;
         name := name;
         log_level := level;
         log_dir := log_dir;
         logger := {| lg_name := if decide (name = "") then "root" else name;
                      lg_level := level;
                      lg_handlers := handlers |} |}.

Definition init_params : list string :=
  ["log_level"; "log_dir"; "max_file_size"; "backup_count"].

Definition kw_str (key dflt : string) (kwargs : list (string * pyval)) : result string :=
  match dict_get key kwargs with
  | None => Ok dflt
  | Some (VStr s) => Ok s
  | Some _ =>
      if decide (key = "log_level")
      then Raise (AttributeError "object has no attribute 'upper'")
      else Raise (TypeError "expected str, bytes or os.PathLike object")
  end.

Definition kw_int (key : string) (dflt : Z) (kwargs : list (string * pyval)) : result Z :=
  match dict_get key kwargs with
  | None => Ok dflt
  | Some (VInt z) => Ok z
  | Some (VBool b) => Ok (if b then 1 else 0)
  | Some _ => Raise (TypeError "'>' not supported between these instances and 'int'")
  end.

(** Binding of the keyword arguments of [AdvancedLogger(name, ...)] to
    [log_level], [log_dir], [max_file_size] and [backup_count], defaults
    filled in. *)
Definition bind_init_kwargs (kwargs : list (string * pyval))
    : result (string * string * Z * Z) :=
  if bool_decide (Forall (fun k => k ∈ init_params) (dict_keys kwargs)) then
    log_level ← kw_str "log_level" "INFO" kwargs;
    log_dir ← kw_str "log_dir" "logs" kwargs;
    max_file_size ← kw_int "max_file_size" 10485760 kwargs;
    backup_count ← kw_int "backup_count" 5 kwargs;
    Ok (log_level, log_dir, max_file_size, backup_count)
  else Raise (TypeError "__init__() got an unexpected keyword argument").

(** [AdvancedLogger(name, ...)] with the remaining arguments given by
    keyword. *)
Definition AdvancedLogger_new (name : string) (kwargs : list (string * pyval))
    : M AdvancedLogger :=
  args <- lift (bind_init_kwargs kwargs) ;;
  let '(log_level, log_dir, max_file_size, backup_count) := args in
  AdvancedLogger_init name log_level log_dir max_file_size backup_count.

(** [get_logger(name, ...)]. *)
Definition get_logger (name' : string) (kwargs : list (string * pyval))
    : M AdvancedLogger :=
  cached <- gets _default_logger ;;
  match cached with
  | Some l =>
      if decide (name l = name') then ret l
      else
        l' <- AdvancedLogger_new name' kwargs ;;
        modify (set_default_logger (Some l')) ;;;
        ret l'
  | None =>
      l' <- AdvancedLogger_new name' kwargs ;;
      modify (set_default_logger (Some l')) ;;;
      ret l'
  end.

(** ** The record an emission hands to the handlers *)

(** The record that [_log_with_context] and [error] have built when they
    call [self.logger.handle]: created, given the ambient context, then
    given the caller's fields. *)
Definition ambient_record (self : AdvancedLogger) (level : Z) (message : string)
    (exc_info : pyval) (w : World) : LogRecord :=
  match (record <- makeRecord (lg_name (logger self)) level message exc_info ;;
         attach_context self record) w with
  | (_, Ok record) => record
  | (_, Raise _) => []
  end.

Definition record_of (self : AdvancedLogger) (level : Z) (message : string)
    (exc_info : pyval) (kwargs : list (string * pyval)) (w : World) : LogRecord :=
  attach_fields (ambient_record self level message exc_info w) kwargs.

(** The dict [log_entry] of [StructuredFormatter.format] just before the
    loop over the record's attributes, for a record whose own slots are
    as [ambient_record] leaves them and whose [duration], if any, is the
    caller's: [now] is the reading [datetime.utcnow()] gave. *)
Definition slot_entries (self : AdvancedLogger) (level : Z) (message : string)
    (exception : option Exc) (duration : option pyval) (now : Q) (w : World)
    : list (string * pyval) :=
  let log_entry :=
    [("timestamp", VStr (isoformat rt now ++ "Z"));
     ("level", VStr (getLevelName level));
     ("logger", VStr (lg_name (logger self)));
     ("message", VStr message);
     ("module", VStr "");
     ("function", VNone);
     ("line", VInt 0)] in
  let log_entry :=
    match contexts w !! self_id self with
    | Some c =>
        match asdict (VContext c) with
        | Ok d =>
            (log_entry ++
               [("context", d); ("correlation_id", VStr (correlation_id c))])%list
        | Raise _ => log_entry
        end
    | None => log_entry
    end in
  let log_entry :=
    match duration with
    | Some d => (log_entry ++ [("duration_ms", d)])%list
    | None => log_entry
    end in
  match exception with
  | Some e =>
      (log_entry ++
         [("exception", VDict [(KStr "type", VStr (exc_type e));
                               (KStr "message", VStr (exc_str e));
                               (KStr "traceback", VStr (exc_trace e))])])%list
  | None => log_entry
  end.

(** The names the specification reserves for the record's own slots. *)
Definition reserved_names : list string :=
  ["context"; "correlation_id"; "duration"; "timestamp"; "level"; "logger";
   "message"; "module"; "function"; "line"].

(** The attributes [LogRecord.__init__] sets. *)
Definition record_attributes : list string :=
  ["name"; "msg"; "args"; "levelname"; "levelno"; "pathname"; "filename";
   "module"; "exc_info"; "exc_text"; "stack_info"; "lineno"; "funcName";
   "created"; "msecs"; "relativeCreated"; "thread"; "threadName";
   "processName"; "process"].

(** Field names that collide with nothing: not reserved, not an attribute
    of the record, not a parameter of the logging methods. *)
Definition plain_key (k : string) : Prop :=
  (k ∉ reserved_names) /\ (k ∉ record_attributes) /\
  (k ∉ ["self"; "level"; "message"; "exception"]).

(** Field names that are attributes like any other: not [getMessage], the
    method of the record that the formatters call, and not a
    double-underscore name, which [setattr] may refuse or treat specially
    ([__class__], [__dict__], [__weakref__]). *)
Definition ordinary_name (k : string) : bool :=
  negb (String.prefix "__" k) && negb (bool_decide (k = "getMessage")).

(** The field names a caller can use freely: plain and ordinary. *)
Definition field_key (k : string) : Prop :=
  plain_key k /\ ordinary_name k = true.

(** Field names that replace nothing: ordinary names other than the
    attributes [LogRecord.__init__] and [_log_with_context] have set on
    the record. Reserved names that are no attributes ([duration],
    [timestamp], [level], ...) are among them. *)
Definition fresh_key (k : string) : Prop :=
  (k ∉ record_attributes) /\ (k ∉ ["context"; "correlation_id"]) /\
  ordinary_name k = true.

(** Dict keys that the encoder can write. *)
Definition encodable_key (k : pykey) : bool :=
  match k with
  | KOther => false
  | KInt z => int_fits z
  | _ => true
  end.

(** Values that the encoder can write with [room] levels of nesting left
    to enter. *)
Fixpoint encodable_within (room : nat) (v : pyval) {struct v} : bool :=
  match v with
  | VNone | VBool _ | VFloat _ | VStr _ => true
  | VInt z => int_fits z
  | VList l | VTuple l =>
      match room with
      | O => false
      | S room' => forallb (encodable_within room') l
      end
  | VDict kvs =>
      match room with
      | O => false
      | S room' =>
          forallb (fun kv => encodable_key kv.1 && encodable_within room' kv.2) kvs
      end
  | VContext _ | VType _ | VExc _ | VObj (Ok _) =>
      match room with
      | O => false
      | S _ => true
      end
  | VObj (Raise _) => false
  end.

(** Values that [json.dumps(..., default=str)] can encode as a member of
    [log_entry]: ints of at most 4300 digits; lists, tuples and dicts of
    such values, nested no deeper than the encoder can enter, with str,
    int, float, bool or None keys; any other object whose [str()]
    returns. *)
Definition encodable (v : pyval) : bool := encodable_within members_room v.

Definition primitive (v : pyval) : bool :=
  match v with
  | VNone | VBool _ | VInt _ | VFloat _ | VStr _ => true
  | _ => false
  end.

(** Lists, tuples and dicts, which the encoder writes as arrays and
    objects. *)
Definition container (v : pyval) : bool :=
  match v with
  | VList _ | VTuple _ | VDict _ => true
  | _ => false
  end.


End Facade.

(** The state of a fresh interpreter: no files, no logger. *)
Definition empty_world : World :=
  {| fs := ∅; stdout := []; stderr := []; ticks := 0; isatty := false;
     uuids := 0; contexts := ∅; next_id := 0; _default_logger := None |}.

(** The states of the file set of one rotating handler that are reachable
    from [f] by appending to the current file and rolling over, with the
    number of rollovers. *)
Inductive rotated (base : string) (backupCount : Z) (f : gmap string string)
    : nat -> gmap string string -> Prop :=
| rotated_start : rotated base backupCount f 0 f
| rotated_write k g s :
    rotated base backupCount f k g ->
    rotated base backupCount f k (stream_write base s g)
| rotated_rollover k g :
    rotated base backupCount f k g ->
    rotated base backupCount f (S k) (doRollover base backupCount g).

(** The finaliser installed by [context] for a prior context [old]. *)
Definition restore (self : AdvancedLogger) (old : option LogContext) : M unit :=
  match old with
  | Some c => set_context self c
  | None => clear_context self
  end.

(** ** Fixtures for concrete runs *)

(** The same runtime on an interpreter that never rolls over an empty
    file. *)
Definition demo_runtime_guarded : Runtime :=
  {| uuid4 := uuid4 demo_runtime;
     clock := clock demo_runtime;
     nesting_spare := nesting_spare demo_runtime;
     isoformat := isoformat demo_runtime;
     strftime := strftime demo_runtime;
     format_2f := format_2f demo_runtime;
     repr_text := repr_text demo_runtime;
     json_text := json_text demo_runtime;
     percent_format := percent_format demo_runtime;
     rollover_skips_empty := true;
     thread_ident := thread_ident demo_runtime;
     thread_name := thread_name demo_runtime;
     process_name := process_name demo_runtime;
     process_id := process_id demo_runtime;
     start_time := start_time demo_runtime |}.

(** [AdvancedLogger("app", log_level="INFO", log_dir="logs",
    max_file_size=100, backup_count=2)] in a fresh interpreter. *)
Definition demo_logger : AdvancedLogger :=
  {| self_id := 0; name := "app"; log_level := 20; log_dir := "logs";
     logger := {| lg_name := "app"; lg_level := 20;
                  lg_handlers := handlers_of "app" 20 "logs" 100 2 |} |}.

Definition demo_world : World :=
  (AdvancedLogger_init "app" "INFO" "logs" 100 2 empty_world).1.

(** [ValueError("boom")], raised once. *)
Definition demo_error : Exc :=
  {| exc_type := "ValueError"; exc_str := "boom";
     exc_tb := Some "<traceback object>";
     exc_trace := "Traceback (most recent call last): ValueError: boom";
     exc_class := WithinException |}.

(** [KeyboardInterrupt()], which is not an [Exception]. *)
Definition demo_interrupt : Exc :=
  {| exc_type := "KeyboardInterrupt"; exc_str := "";
     exc_tb := Some "<traceback object>";
     exc_trace := "Traceback (most recent call last): KeyboardInterrupt";
     exc_class := OutsideException |}.

(** [demo_world] with eight bytes already in the all-levels file. *)
Definition demo_world_filled : World :=
  set_fs <["logs/app.log" := "12345678"]> demo_world.

(** An INFO record of [demo_logger] without fields. *)
Definition demo_record : LogRecord :=
  record_of demo_runtime demo_logger INFO "hello" VNone [] demo_world.

(** What logging leaves alone: the terminal, the context slots, the uuid
    and instance counters and the cached logger. The clock is read, and
    never set back. *)
Definition same_env (w w' : World) : Prop :=
  (ticks w <= ticks w')%nat /\ isatty w' = isatty w /\ contexts w' = contexts w /\
  uuids w' = uuids w /\ next_id w' = next_id w /\
  _default_logger w' = _default_logger w.


(** The retention invariant of one rotating handler: the current file
    exists, no numbered file lies outside [1..backupCount], and the backups
    [1..m] are all there. *)
Definition retained (base : string) (backupCount m : Z) (f : gmap string string) : Prop :=
  is_Some (f !! base) /\
  (forall j, ~ (1 <= j <= backupCount) -> f !! backup_name base j = None) /\
  (forall j, 1 <= j <= m -> is_Some (f !! backup_name base j)).

(** ** Vocabulary of the further properties *)

(** A [LogContext] used in concrete runs. *)
Definition demo_context : LogContext :=
  {| correlation_id := "req-0001-abcdef"; user_id := Some "user123";
     session_id := None; request_id := None;
     service_name := "logging-service"; version := "1.0.0" |}.

(** [demo_world] with [demo_context] active for [demo_logger]. *)
Definition demo_world_scoped : World :=
  (set_context demo_logger demo_context demo_world).1.

(** A second instance, as [AdvancedLogger("jobs")] built after
    [demo_logger] would be. *)
Definition demo_other : AdvancedLogger :=
  {| self_id := 1; name := "jobs"; log_level := 20; log_dir := "logs";
     logger := {| lg_name := "jobs"; lg_level := 20;
                  lg_handlers := handlers_of "jobs" 20 "logs" 100 2 |} |}.

(** An outcome that [except Exception] absorbs, with a condition on the
    value when there is one. *)
Definition tame {A} (P : A -> Prop) (r : result A) : Prop :=
  match r with
  | Ok a => P a
  | Raise e => exc_is_Exception e = true
  end.

(** Values on which [str()], wherever a formatter calls it, raises at
    worst an instance of [Exception]. *)
Fixpoint calm (v : pyval) : bool :=
  match v with
  | VList l | VTuple l => forallb calm l
  | VDict kvs => forallb (fun kv => calm kv.2) kvs
  | VObj (Raise e) => exc_is_Exception e
  | _ => true
  end.

Definition json_opt (o : option string) : json :=
  match o with Some s => JStr s | None => JNull end.

(** The object [asdict] and [json.dumps] make of a [LogContext]. *)
Definition context_object (c : LogContext) : json :=
  JObj [("correlation_id", JStr (correlation_id c));
        ("user_id", json_opt (user_id c));
        ("session_id", json_opt (session_id c));
        ("request_id", json_opt (request_id c));
        ("service_name", JStr (service_name c));
        ("version", JStr (version c))].

(** The keys [StructuredFormatter.format] writes on its own account. *)
Definition entry_slots : list string :=
  ["timestamp"; "level"; "logger"; "message"; "module"; "function"; "line";
   "context"; "correlation_id"; "duration_ms"; "exception"].

(** The attributes of the [logging] module whose names are upper case:
    what [getattr(logging, log_level.upper())] can find. *)
Definition logging_upper_names : list string :=
  ["CRITICAL"; "FATAL"; "ERROR"; "WARNING"; "WARN"; "INFO"; "DEBUG"; "NOTSET";
   "BASIC_FORMAT"; "_STYLES"].

(** Strings of 7-bit characters, on which [upper] is [str.upper]. *)
Fixpoint ascii_only (s : string) : bool :=
  match s with
  | EmptyString => true
  | String c s' => (Ascii.nat_of_ascii c <? 128)%nat && ascii_only s'
  end.


(** Two entries of a dict that differ at most in the text of a string. *)
Definition akin (a b : string * pyval) : Prop :=
  a.1 = b.1 /\ (a.2 = b.2 \/ exists s s', a.2 = VStr s /\ b.2 = VStr s').

(** Two outcomes of the same kind: two values related by [R], or the same
    exception. *)
Definition alike {A} (R : A -> A -> Prop) (r r' : result A) : Prop :=
  match r, r' with
  | Ok a, Ok a' => R a a'
  | Raise e, Raise e' => e = e'
  | _, _ => False
  end.

(** * Properties *)

(** Closed membership facts about literal lists, by evaluation. *)
Ltac by_eval := compute_done.

Section ContextStore.
Variable rt : Runtime.

Lemma LogContext_init_unknown (kwargs : gmap string string) (k : string) :
  k ∈ dom kwargs -> k ∉ LogContext_fields ->
  LogContext_init kwargs =
    Raise (TypeError "__init__() got an unexpected keyword argument").
Proof.
  intros Hin Hout. unfold LogContext_init.
  rewrite bool_decide_eq_false_2; [done|].
  intros HF. apply Hout.
  rewrite Forall_forall in HF. apply HF. by apply elem_of_elements.
Qed.

Lemma LogContext_init_known (kwargs : gmap string string) (cid : string) :
  (forall k, k ∈ dom kwargs -> k ∈ LogContext_fields) ->
  kwargs !! "correlation_id" = Some cid ->
  exists c, LogContext_init kwargs = Ok c /\ correlation_id c = cid.
Proof.
  intros Hdom Hcid. unfold LogContext_init.
  rewrite bool_decide_eq_true_2.
  - rewrite Hcid. eexists. split; [reflexivity|done].
  - apply Forall_forall. intros k Hk. apply Hdom. by apply elem_of_elements in Hk.
Qed.

(** The finaliser of [context]: it never raises, and afterwards the slot
    of [self] holds exactly [old]. *)
Lemma restore_slot (self : AdvancedLogger) (old : option LogContext) (w : World) :
  exists w',
    (match old with
     | Some c => set_context self c
     | None => clear_context self
     end) w = (w', Ok tt) /\
    contexts w' !! self_id self = old.
Proof.
  destruct old as [c|]; simpl.
  - eexists. split; [reflexivity|]. simpl. apply lookup_insert_eq.
  - unfold clear_context, modify. case_bool_decide as Hs.
    + eexists. split; [reflexivity|]. simpl. apply lookup_delete_eq.
    + eexists. split; [reflexivity|].
      destruct (contexts w !! self_id self) eqn:E; [|done].
      exfalso. apply Hs. eauto.
Qed.

Lemma try_finally_post {A} (body : M A) (fin : M unit) (P : World -> Prop) (w : World) :
  (forall w1, exists w2, fin w1 = (w2, Ok tt) /\ P w2) ->
  P (try_finally body fin w).1.
Proof.
  intros Hfin. unfold try_finally.
  destruct (body w) as [w1 r].
  destruct (Hfin w1) as (w2 & -> & HP). done.
Qed.

(** C1. Whatever the keyword arguments and whatever the body does (nested
    scopes, [set_context], [clear_context], logging, raising), when the
    scoped context manager is left the ambient context read by
    [get_context] is the one that was there before entry: the prior
    [LogContext], or none. *)
Theorem context_restores_ambient {A} (self : AdvancedLogger)
    (kwargs : gmap string string) (body : string -> M A) (w : World) :
  (get_context self (context rt self kwargs body w).1).2 = (get_context self w).2.
Proof.
  unfold get_context, gets. simpl. f_equal.
  unfold context, bind, raise, ret, lift, uuid_uuid4, get_context, gets.
  case_bool_decide; [done|].
  destruct (kwargs !! "correlation_id") as [cid|] eqn:Hcid; simpl.
  - destruct (LogContext_init kwargs) as [c|e]; [|done].
    apply (try_finally_post _ _
             (fun w' => contexts w' !! self_id self = contexts w !! self_id self)).
    intros w1. apply restore_slot.
  - destruct (LogContext_init _) as [c|e]; [|done].
    apply (try_finally_post _ _
             (fun w' => contexts w' !! self_id self = contexts w !! self_id self)).
    intros w1. apply (restore_slot self (contexts w !! self_id self)).
Qed.

(** C7. On entry with field names of [LogContext] only: the body runs in
    a world whose ambient context is the new [LogContext], and the value
    it receives is the [correlation_id] of that context. When the caller
    gave no [correlation_id], that id is the next draw of the uuid4
    generator, which (the generator never repeating itself) differs from
    every id drawn before; when the caller gave one, it is the caller's. *)
Theorem context_yields_active_id {A} (self : AdvancedLogger)
    (kwargs : gmap string string) (body : string -> M A) (w : World) :
  Inj (=) (=) (uuid4 rt) ->
  (forall k, k ∈ dom kwargs -> k ∈ LogContext_fields) ->
  exists (new_context : LogContext) (w1 : World),
    context rt self kwargs body w =
      try_finally (body (correlation_id new_context))
        (restore self (contexts w !! self_id self)) w1 /\
    (get_context self w1).2 = Ok (Some new_context) /\
    match kwargs !! "correlation_id" with
    | Some cid => correlation_id new_context = cid /\ uuids w1 = uuids w
    | None =>
        correlation_id new_context = uuid4 rt (uuids w) /\
        uuids w1 = S (uuids w) /\
        forall n, (n < uuids w)%nat -> uuid4 rt n <> correlation_id new_context
    end.
Proof.
  intros Hinj Hdom.
  assert (Hself : "self" ∉ dom kwargs).
  { intros Hs. apply Hdom in Hs. revert Hs.
    change ("self" ∉ LogContext_fields). by_eval. }
  unfold context, bind, raise, ret, lift, uuid_uuid4, get_context, gets.
  rewrite bool_decide_eq_false_2 by done.
  destruct (kwargs !! "correlation_id") as [cid|] eqn:Hcid; simpl.
  - destruct (LogContext_init_known kwargs cid Hdom Hcid) as (c & -> & Hc).
    exists c, (set_contexts <[self_id self := c]> w). simpl.
    split; [reflexivity|]. split; [by rewrite lookup_insert_eq|]. done.
  - destruct (LogContext_init_known
                (<["correlation_id" := uuid4 rt (uuids w)]> kwargs)
                (uuid4 rt (uuids w))) as (c & -> & Hc).
    + intros k Hk. apply elem_of_dom in Hk.
      destruct (decide (k = "correlation_id")) as [->|Hne].
      * by_eval.
      * rewrite lookup_insert_ne in Hk by done. apply Hdom. by apply elem_of_dom.
    + apply lookup_insert_eq.
    + exists c, (set_contexts <[self_id self := c]> (set_uuids (S (uuids w)) w)).
      simpl. split; [reflexivity|]. split; [by rewrite lookup_insert_eq|].
      split; [done|]. split; [done|].
      intros n Hn Heq. rewrite Hc in Heq. apply Hinj in Heq. lia.
Qed.

(** C9. A keyword that is not a field of [LogContext] makes the entry
    fail with a [TypeError] before any context is installed: the body is
    not run, every context slot is as before, and the world differs from
    the initial one at most by the uuid4 draw made for a missing
    [correlation_id]. *)
Theorem context_rejects_unknown_field {A} (self : AdvancedLogger)
    (kwargs : gmap string string) (body : string -> M A) (w : World) (k : string) :
  k ∈ dom kwargs -> k ∉ LogContext_fields ->
  exists (w' : World) (msg : string),
    context rt self kwargs body w = (w', Raise (TypeError msg)) /\
    (w' = w \/ w' = set_uuids (S (uuids w)) w) /\
    (get_context self w').2 = (get_context self w).2.
Proof.
  intros Hin Hout.
  unfold context, bind, raise, ret, lift, uuid_uuid4, get_context, gets.
  case_bool_decide.
  { eexists _, _. split; [reflexivity|]. split; [by left|done]. }
  destruct (kwargs !! "correlation_id") as [cid|] eqn:Hcid; simpl.
  - rewrite (LogContext_init_unknown kwargs k Hin Hout).
    eexists _, _. split; [reflexivity|]. split; [by left|done].
  - rewrite (LogContext_init_unknown _ k).
    + eexists _, _. split; [reflexivity|]. split; [by right|done].
    + apply elem_of_dom. apply elem_of_dom in Hin.
      rewrite lookup_insert_ne; [done|]. intros <-. apply Hout.
      by_eval.
    + done.
Qed.
End ContextStore.

Section Rotation.
Variable base : string.

Lemma string_app_nil_r (s : string) : s ++ "" = s.
Proof.
  induction s as [|c s IH]; [done|].
  change (String c (s ++ "") = String c s). by rewrite IH.
Qed.

Lemma backup_name_inj (i j : Z) :
  backup_name base i = backup_name base j -> i = j.
Proof.
  unfold backup_name. intros H.
  apply (inj (String.append base)) in H.
  apply (inj (String.append ".")) in H.
  by apply (inj pretty) in H.
Qed.

Lemma backup_name_ne_base (i : Z) : backup_name base i <> base.
Proof.
  unfold backup_name. intros H.
  rewrite <- (string_app_nil_r base) in H at 2.
  apply (inj (String.append base)) in H. discriminate H.
Qed.

Lemma range_down_S (n : nat) :
  range_down (Z.of_nat (S n)) = Z.of_nat (S n) :: range_down (Z.of_nat n).
Proof.
  unfold range_down. rewrite !Nat2Z.id, seq_S, fmap_app, reverse_app.
  reflexivity.
Qed.

Lemma os_path_exists_true (p : string) (f : gmap string string) :
  os_path_exists p f = true <-> is_Some (f !! p).
Proof. unfold os_path_exists. apply bool_decide_eq_true. Qed.

Lemma os_path_exists_None (p : string) (f : gmap string string) :
  f !! p = None -> os_path_exists p f = false.
Proof.
  intros H. unfold os_path_exists. apply bool_decide_eq_false.
  rewrite H. by intros [? ?].
Qed.

Lemma os_path_exists_Some (p c : string) (f : gmap string string) :
  f !! p = Some c -> os_path_exists p f = true.
Proof. intros H. apply os_path_exists_true. eauto. Qed.

(** One step of the shifting loop, read through lookups. *)
Lemma shift_backup_lookup (f : gmap string string) (i : Z) (p : string) :
  shift_backup base f i !! p =
    if decide (p = backup_name base (i + 1)) then
      match f !! backup_name base i with
      | Some c => Some c
      | None => f !! p
      end
    else if decide (p = backup_name base i) then None
    else f !! p.
Proof.
  unfold shift_backup.
  assert (Hne : backup_name base i <> backup_name base (i + 1)).
  { intros H. apply backup_name_inj in H. lia. }
  destruct (f !! backup_name base i) as [c|] eqn:Hs.
  - rewrite (os_path_exists_Some _ c) by done.
    unfold os_rename.
    assert (Hs' : (if os_path_exists (backup_name base (i + 1)) f
                   then os_remove (backup_name base (i + 1)) f else f)
                  !! backup_name base i = Some c).
    { destruct (os_path_exists _ f); [|done].
      unfold os_remove. by rewrite lookup_delete_ne. }
    rewrite Hs'.
    destruct (decide (p = backup_name base (i + 1))) as [->|Hd].
    + by rewrite lookup_insert_eq.
    + rewrite lookup_insert_ne by done.
      destruct (decide (p = backup_name base i)) as [->|Hs2].
      * by rewrite lookup_delete_eq.
      * rewrite lookup_delete_ne by done.
        destruct (os_path_exists _ f); [|done].
        unfold os_remove. by rewrite lookup_delete_ne.
  - rewrite os_path_exists_None by done.
    destruct (decide (p = backup_name base (i + 1))) as [->|Hd]; [done|].
    destruct (decide (p = backup_name base i)) as [->|Hs2]; done.
Qed.

(** The whole loop [for i in range(n, 0, -1)]. *)
Lemma shift_loop_lookup (n : nat) :
  forall f : gmap string string,
    let g := foldl (shift_backup base) f (range_down (Z.of_nat n)) in
    (forall j, 2 <= j <= Z.of_nat n + 1 ->
       g !! backup_name base j =
         match f !! backup_name base (j - 1) with
         | Some c => Some c
         | None => if decide (j = Z.of_nat n + 1) then f !! backup_name base j else None
         end) /\
    ((1 <= n)%nat -> g !! backup_name base 1 = None) /\
    (forall p, (forall j, 1 <= j <= Z.of_nat n + 1 -> p <> backup_name base j) ->
       g !! p = f !! p).
Proof.
  induction n as [|m IH]; intros f g.
  - subst g. simpl. split; [intros j Hj; lia|]. split; [lia|done].
  - subst g. rewrite range_down_S. cbn [foldl].
    set (f' := shift_backup base f (Z.of_nat (S m))).
    destruct (IH f') as (Ha & Hb & Hc).
    assert (Hf' : forall p, f' !! p = _) by (intros p; apply shift_backup_lookup).
    split; [|split].
    + intros j Hj.
      destruct (decide (j = Z.of_nat (S m) + 1)) as [->|Hlast].
      * rewrite Hc.
        2:{ intros j' Hj' E. apply backup_name_inj in E. lia. }
        rewrite Hf'. rewrite decide_True by done.
        replace (Z.of_nat (S m) + 1 - 1) with (Z.of_nat (S m)) by lia.
        done.
      * rewrite Ha by lia.
        rewrite (Hf' (backup_name base (j - 1))).
        rewrite decide_False.
        2:{ intros E. apply backup_name_inj in E. lia. }
        destruct (decide (j - 1 = Z.of_nat (S m))) as [E|NE]; [lia|].
        rewrite decide_False.
        2:{ intros E. apply backup_name_inj in E. lia. }
        destruct (f !! backup_name base (j - 1)); [done|].
        destruct (decide (j = Z.of_nat m + 1)) as [->|]; [|done].
        rewrite Hf'. rewrite decide_False.
        2:{ intros E. apply backup_name_inj in E. lia. }
        rewrite decide_True; [done|]. f_equal. lia.
    + intros _. destruct m as [|m'].
      * simpl. rewrite Hf'. rewrite decide_False.
        2:{ intros E. apply backup_name_inj in E. lia. }
        by rewrite decide_True.
      * apply Hb. lia.
    + intros p Hp. rewrite Hc.
      2:{ intros j Hj. apply Hp. lia. }
      rewrite Hf'. rewrite decide_False by (apply Hp; lia).
      rewrite decide_False by (apply Hp; lia). done.
Qed.

Lemma range_down_to_nat (hi : Z) :
  range_down hi = range_down (Z.of_nat (Z.to_nat hi)).
Proof. unfold range_down. by rewrite Nat2Z.id. Qed.

(** [doRollover] with a positive [backupCount] and an existing current
    file, read through lookups. *)
Lemma doRollover_lookup (bc : Z) (f : gmap string string) (c0 : string) :
  0 < bc -> f !! base = Some c0 ->
  let g := doRollover base bc f in
  g !! base = Some "" /\
  g !! backup_name base 1 = Some c0 /\
  (forall j, 2 <= j <= bc ->
     g !! backup_name base j =
       match f !! backup_name base (j - 1) with
       | Some c => Some c
       | None => if decide (j = bc) then f !! backup_name base j else None
       end) /\
  (forall p, p <> base -> (forall j, 1 <= j <= bc -> p <> backup_name base j) ->
     g !! p = f !! p).
Proof.
  intros Hbc Hbase g. subst g. unfold doRollover.
  replace (0 <? bc) with true by (symmetry; by apply Z.ltb_lt).
  rewrite range_down_to_nat.
  set (n := Z.to_nat (bc - 1)).
  assert (Hn : Z.of_nat n + 1 = bc) by lia.
  destruct (shift_loop_lookup n f) as (Ha & Hb & Hc).
  set (f1 := foldl (shift_backup base) f (range_down (Z.of_nat n))) in *.
  change (base ++ ".1") with (backup_name base 1).
  set (dfn := backup_name base 1).
  assert (Hd : dfn <> base) by apply backup_name_ne_base.
  assert (Hb1 : f1 !! base = Some c0).
  { rewrite Hc; [done|]. intros j _ E. symmetry in E.
    by apply backup_name_ne_base in E. }
  set (f2 := if os_path_exists dfn f1 then os_remove dfn f1 else f1).
  assert (H2d : f2 !! dfn = None).
  { subst f2. destruct (os_path_exists dfn f1) eqn:E.
    - apply lookup_delete_eq.
    - unfold os_path_exists in E. apply bool_decide_eq_false in E.
      destruct (f1 !! dfn); [|done]. exfalso. apply E. eauto. }
  assert (H2o : forall p, p <> dfn -> f2 !! p = f1 !! p).
  { intros p Hp. subst f2. destruct (os_path_exists dfn f1); [|done].
    unfold os_remove. by rewrite lookup_delete_ne. }
  rewrite (os_path_exists_Some base c0) by (rewrite H2o; done).
  unfold os_rename. rewrite H2o by done. rewrite Hb1.
  unfold _open. rewrite lookup_insert_ne by done. rewrite lookup_delete_eq.
  split; [apply lookup_insert_eq|].
  split.
  { rewrite lookup_insert_ne by done. apply lookup_insert_eq. }
  split.
  - intros j Hj.
    assert (Hjd : backup_name base j <> dfn).
    { intros E. apply backup_name_inj in E. lia. }
    rewrite lookup_insert_ne by (intros E; symmetry in E; by apply backup_name_ne_base in E).
    rewrite lookup_insert_ne by done.
    rewrite lookup_delete_ne by (intros E; symmetry in E; by apply backup_name_ne_base in E).
    rewrite H2o by done. rewrite Ha by lia.
    destruct (f !! backup_name base (j - 1)); [done|].
    destruct (decide (j = Z.of_nat n + 1)), (decide (j = bc)); try done; lia.
  - intros p Hp Hslots.
    rewrite lookup_insert_ne by done.
    rewrite lookup_insert_ne by (intros E; apply (Hslots 1); [lia|done]).
    rewrite lookup_delete_ne by done.
    rewrite H2o by (apply Hslots; lia).
    apply Hc. intros j Hj. apply Hslots. lia.
Qed.

(** With [backupCount <= 0] a rollover only reopens the file. *)
Lemma doRollover_nonpositive (bc : Z) (f : gmap string string) :
  bc <= 0 -> doRollover base bc f = _open base f.
Proof.
  intros Hbc. unfold doRollover.
  replace (0 <? bc) with false by (symmetry; by apply Z.ltb_ge). done.
Qed.

Lemma retained_write (bc m : Z) (s : string) (f : gmap string string) :
  retained base bc m f -> retained base bc m (stream_write base s f).
Proof.
  intros (HB & HQ & HP). unfold stream_write. split; [|split].
  - rewrite lookup_insert_eq. eauto.
  - intros j Hj. rewrite lookup_insert_ne by (intros E; symmetry in E; by apply backup_name_ne_base in E).
    by apply HQ.
  - intros j Hj. rewrite lookup_insert_ne by (intros E; symmetry in E; by apply backup_name_ne_base in E).
    by apply HP.
Qed.

Lemma retained_rollover (bc m : Z) (f : gmap string string) :
  0 <= m <= bc ->
  retained base bc m f -> retained base bc (Z.min (m + 1) bc) (doRollover base bc f).
Proof.
  intros Hm (HB & HQ & HP).
  destruct (decide (0 < bc)) as [Hbc|Hbc].
  - destruct HB as [c0 Hc0].
    destruct (doRollover_lookup bc f c0 Hbc Hc0) as (G0 & G1 & Gj & Go).
    split; [|split].
    + rewrite G0. eauto.
    + intros j Hj. rewrite Go.
      * by apply HQ.
      * apply backup_name_ne_base.
      * intros j' Hj' E. apply backup_name_inj in E. lia.
    + intros j Hj.
      destruct (decide (j = 1)) as [->|Hj1]; [rewrite G1; eauto|].
      rewrite Gj by lia.
      destruct (HP (j - 1)) as [c Hc]; [lia|]. rewrite Hc. eauto.
  - rewrite doRollover_nonpositive by lia.
    unfold _open. destruct HB as [c0 Hc0]. rewrite Hc0.
    split; [eauto|]. split; [done|]. intros j Hj. lia.
Qed.

(** After any run of writes and rollovers that starts from a directory
    without stray numbered files and rolls over [k] times, the backups
    [1..min k backupCount] exist and nothing beyond [backupCount] does. *)
Lemma rotated_retained (bc : Z) (k : nat) (f g : gmap string string) :
  0 <= bc ->
  rotated base bc f k g ->
  retained base bc 0 f ->
  retained base bc (Z.min (Z.of_nat k) bc) g.
Proof.
  intros Hbc Hrot Hf. induction Hrot as [| k g s Hrot IH | k g Hrot IH].
  - replace (Z.min (Z.of_nat 0) bc) with 0 by lia. done.
  - by apply retained_write.
  - replace (Z.min (Z.of_nat (S k)) bc)
      with (Z.min (Z.min (Z.of_nat k) bc + 1) bc) by lia.
    apply retained_rollover; [lia|done].
Qed.
End Rotation.

Section DictFacts.
Context {V : Type}.
Implicit Types (d : list (string * V)) (k : string) (v : V).

Lemma dict_get_set_eq d k v : dict_get k (dict_set k v d) = Some v.
Proof.
  induction d as [|[k' v'] d IH]; simpl.
  - by rewrite decide_True.
  - destruct (decide (k' = k)) as [->|Hne]; simpl.
    + by rewrite decide_True.
    + by rewrite decide_False.
Qed.

Lemma dict_get_set_ne d k k' v : k' <> k -> dict_get k (dict_set k' v d) = dict_get k d.
Proof.
  intros Hne. induction d as [|[k0 v0] d IH]; simpl.
  - by rewrite decide_False.
  - destruct (decide (k0 = k')) as [->|Hne0]; simpl.
    + by rewrite !decide_False.
    + destruct (decide (k0 = k)); [done|apply IH].
Qed.

Lemma dict_get_None d k : k ∉ d.*1 -> dict_get k d = None.
Proof.
  induction d as [|[k0 v0] d IH]; simpl; [done|].
  intros Hk. apply not_elem_of_cons in Hk as [Hne Hk].
  rewrite decide_False by done. by apply IH.
Qed.

Lemma dict_get_Some_elem d k v : dict_get k d = Some v -> (k, v) ∈ d.
Proof.
  induction d as [|[k0 v0] d IH]; simpl; [done|].
  destruct (decide (k0 = k)) as [->|Hne].
  - intros [= ->]. left.
  - intros H. right. by apply IH.
Qed.

Lemma dict_get_NoDup d k v : NoDup d.*1 -> (k, v) ∈ d -> dict_get k d = Some v.
Proof.
  induction d as [|[k0 v0] d IH]; simpl.
  - intros _ H. by apply elem_of_nil in H.
  - intros Hnd Hin. apply NoDup_cons in Hnd as [Hk0 Hnd].
    apply elem_of_cons in Hin as [[= -> ->]|Hin].
    + by rewrite decide_True.
    + rewrite decide_False; [by apply IH|].
      intros ->. apply Hk0. apply list_elem_of_fmap. by exists (k, v).
Qed.

Lemma dict_set_elem d k v k' v' :
  (k', v') ∈ dict_set k v d -> (k', v') = (k, v) \/ (k', v') ∈ d.
Proof.
  induction d as [|[k0 v0] d IH]; simpl.
  - intros H. apply list_elem_of_singleton in H. by left.
  - destruct (decide (k0 = k)) as [->|Hne].
    + intros H. apply elem_of_cons in H as [H|H]; [by left|]. right. by right.
    + intros H. apply elem_of_cons in H as [H|H].
      * right. rewrite H. left.
      * destruct (IH H) as [E|E]; [by left|]. right. by right.
Qed.

Lemma dict_set_keys d k v :
  (dict_set k v d).*1 = if bool_decide (k ∈ d.*1) then d.*1 else (d.*1 ++ [k])%list.
Proof.
  induction d as [|[k0 v0] d IH]; [done|].
  cbn [dict_set]. destruct (decide (k0 = k)) as [->|Hne]; rewrite !fmap_cons; cbn [fst].
  - rewrite bool_decide_eq_true_2; [done|left].
  - rewrite IH. case_bool_decide as Hin.
    + rewrite bool_decide_eq_true_2; [done|by right].
    + rewrite bool_decide_eq_false_2; [done|].
      intros H. apply elem_of_cons in H as [H|H]; [by subst|done].
Qed.

Lemma dict_set_NoDup d k v : NoDup d.*1 -> NoDup (dict_set k v d).*1.
Proof.
  intros Hnd. rewrite dict_set_keys. case_bool_decide as Hin; [done|].
  apply NoDup_app. split; [done|]. split.
  - intros x Hx Hx'. apply list_elem_of_singleton in Hx'. by subst.
  - apply NoDup_singleton.
Qed.

Lemma dict_set_Forall (P : V -> Prop) d k v :
  P v -> Forall P d.*2 -> Forall P (dict_set k v d).*2.
Proof.
  intros Hv. induction d as [|[k0 v0] d IH]; simpl.
  - intros _. by constructor.
  - intros Hd. apply Forall_cons in Hd as [H0 Hd].
    destruct (decide (k0 = k)); simpl; constructor; auto.
Qed.
End DictFacts.

Section Records.
Variable rt : Runtime.
Implicit Types (record : LogRecord) (kwargs : list (string * pyval)).

Lemma attach_fields_get_other record kwargs (k : string) :
  k ∉ kwargs.*1 ->
  dict_get k (attach_fields record kwargs) = dict_get k record.
Proof.
  revert record. induction kwargs as [|[k0 v0] kwargs IH]; intros record Hk; [done|].
  apply not_elem_of_cons in Hk as [Hne Hk].
  unfold attach_fields in *. cbn [foldl]. rewrite IH by done.
  unfold setattr. by apply dict_get_set_ne.
Qed.

Lemma attach_fields_get record kwargs (k : string) (v : pyval) :
  NoDup kwargs.*1 -> (k, v) ∈ kwargs ->
  dict_get k (attach_fields record kwargs) = Some v.
Proof.
  revert record. induction kwargs as [|[k0 v0] kwargs IH]; intros record Hnd Hin.
  - by apply elem_of_nil in Hin.
  - apply NoDup_cons in Hnd as [Hk0 Hnd].
    unfold attach_fields in *. cbn [foldl].
    apply elem_of_cons in Hin as [[= -> ->]|Hin].
    + fold (attach_fields (setattr record k0 v0) kwargs).
      rewrite attach_fields_get_other by done. apply dict_get_set_eq.
    + by apply IH.
Qed.

Lemma attach_fields_NoDup record kwargs :
  NoDup record.*1 -> NoDup (attach_fields record kwargs).*1.
Proof.
  revert record. induction kwargs as [|[k0 v0] kwargs IH]; intros record Hnd; [done|].
  unfold attach_fields in *. cbn [foldl]. apply IH. by apply dict_set_NoDup.
Qed.

Lemma attach_fields_elem record kwargs (k : string) (v : pyval) :
  (k, v) ∈ attach_fields record kwargs -> (k, v) ∈ kwargs \/ (k, v) ∈ record.
Proof.
  revert record. induction kwargs as [|[k0 v0] kwargs IH]; intros record Hin.
  - by right.
  - unfold attach_fields in *. cbn [foldl] in Hin.
    destruct (IH _ Hin) as [H|H].
    + left. by right.
    + apply dict_set_elem in H as [[= -> ->]|H]; [left; left|by right].
Qed.

(** The loop over [record.__dict__.items()], read through lookups. *)
Lemma add_extra_fields_get record (log_entry : list (string * pyval)) (k : string) :
  NoDup record.*1 ->
  dict_get k (add_extra_fields record log_entry) =
    if bool_decide (k ∈ excluded_keys) then dict_get k log_entry
    else match dict_get k record with
         | Some v => Some v
         | None => dict_get k log_entry
         end.
Proof.
  revert log_entry.
  induction record as [|[k0 v0] record IH]; intros log_entry Hnd.
  - simpl. by destruct (bool_decide _).
  - apply NoDup_cons in Hnd as [Hk0 Hnd].
    unfold add_extra_fields in *. cbn [foldl fst snd]. rewrite IH by done.
    cbn [dict_get].
    destruct (decide (k0 = k)) as [->|Hne].
    + rewrite (dict_get_None record k) by done.
      case_bool_decide; [done|]. apply dict_get_set_eq.
    + case_bool_decide; case_bool_decide; try done;
        destruct (dict_get k record); try done; by apply dict_get_set_ne.
Qed.

Lemma add_extra_fields_Forall (P : pyval -> Prop) record (log_entry : list (string * pyval)) :
  Forall P log_entry.*2 ->
  (forall k v, (k, v) ∈ record -> k ∉ excluded_keys -> P v) ->
  Forall P (add_extra_fields record log_entry).*2.
Proof.
  revert log_entry.
  induction record as [|[k0 v0] record IH]; intros log_entry He Hr; [done|].
  unfold add_extra_fields in *. cbn [foldl fst snd]. apply IH.
  - case_bool_decide; [done|]. apply dict_set_Forall; [|done].
    apply (Hr k0); [left|done].
  - intros k v Hin. apply Hr. by right.
Qed.

Lemma not_plain_notin (k : string) (ks : list string) :
  ~ plain_key k -> Forall plain_key ks -> k ∉ ks.
Proof.
  intros Hk Hks Hin. rewrite Forall_forall in Hks. by apply Hk, Hks.
Qed.
End Records.

(** A literal name that is reserved, an attribute or a parameter does not
    occur among plain keys. *)
Ltac not_plain :=
  let H := fresh in
  intros (H & ? & ?); first [ apply H; compute_done | idtac ];
  match goal with
  | H' : _ ∉ _ |- _ => apply H'; compute_done
  end.

Ltac notin_plain Hplain :=
  apply not_plain_notin with (2 := Hplain); not_plain.

Section Renderings.
Variable rt : Runtime.

Lemma alike_bind {A B} (R : A -> A -> Prop) (S : B -> B -> Prop)
    (r r' : result A) (f f' : A -> result B) :
  alike R r r' ->
  (forall a a', R a a' -> alike S (f a) (f' a')) ->
  alike S (r ≫= f) (r' ≫= f').
Proof.
  intros Hr Hf. destruct r as [a|e], r' as [a'|e']; try done.
  by apply Hf.
Qed.

Lemma alike_refl {A} (R : A -> A -> Prop) (r : result A) :
  (forall a, R a a) -> alike R r r.
Proof. intros HR. destruct r; [apply HR|done]. Qed.

Lemma akin_refl (l : list (string * pyval)) : Forall2 akin l l.
Proof. induction l; constructor; [by split; [|left]|done]. Qed.

Lemma akin_dict_set (k : string) (v : pyval) (l l' : list (string * pyval)) :
  Forall2 akin l l' -> Forall2 akin (dict_set k v l) (dict_set k v l').
Proof.
  induction 1 as [|[k1 v1] [k2 v2] l l' [Hk Hv] Hl IH]; cbn [dict_set].
  - constructor; [by split; [|left]|constructor].
  - cbn in Hk. subst k2. destruct (decide (k1 = k)).
    + constructor; [by split; [|left]|done].
    + constructor; [by split|done].
Qed.

Lemma akin_add_extra_fields (record : LogRecord) (l l' : list (string * pyval)) :
  Forall2 akin l l' ->
  Forall2 akin (add_extra_fields record l) (add_extra_fields record l').
Proof.
  revert l l'. induction record as [|[k v] record IH]; intros l l' Hl; [done|].
  unfold add_extra_fields in *. cbn [foldl fst snd]. apply IH.
  case_bool_decide; [done|]. by apply akin_dict_set.
Qed.

Lemma akin_to_json_members (room : nat) (l l' : list (string * pyval)) :
  Forall2 akin l l' ->
  alike (fun _ _ => True) (to_json_members rt room l) (to_json_members rt room l').
Proof.
  induction 1 as [|[k1 v1] [k2 v2] l l' [Hk Hv] Hl IH]; [done|].
  cbn [to_json_members]. cbn in Hk, Hv.
  destruct Hv as [->|(s & s' & -> & ->)].
  - destruct (to_json rt room v2); [|done].
    destruct (to_json_members rt room l), (to_json_members rt room l'); done.
  - cbn [to_json].
    destruct (to_json_members rt room l), (to_json_members rt room l'); done.
Qed.

(** The reading of the clock decides the [timestamp] entry and nothing
    else: whether the formatter returns, and which exception it raises if
    it does not, is the same at every reading. *)
Lemma log_entry_akin (t t' : Q) (record : LogRecord) :
  alike (Forall2 akin) (StructuredFormatter_log_entry rt t record)
    (StructuredFormatter_log_entry rt t' record).
Proof.
  unfold StructuredFormatter_log_entry.
  repeat (apply alike_bind with (R := eq); [by apply alike_refl|intros ? ? <-]).
  cbv zeta.
  apply alike_bind with (R := Forall2 akin).
  { destruct (hasattr record "context"); cbn [alike].
    - apply alike_bind with (R := eq); [by apply alike_refl|intros c ? <-].
      apply alike_bind with (R := eq); [by apply alike_refl|intros d ? <-].
      cbn [alike]. apply akin_dict_set.
      constructor; [split; [done|right; eauto]|apply akin_refl].
    - constructor; [split; [done|right; eauto]|apply akin_refl]. }
  intros l1 l1' H1.
  apply alike_bind with (R := Forall2 akin).
  { destruct (hasattr record "correlation_id"); cbn [alike]; [|done].
    apply alike_bind with (R := eq); [by apply alike_refl|intros c ? <-].
    cbn [alike]. by apply akin_dict_set. }
  intros l2 l2' H2.
  apply alike_bind with (R := Forall2 akin).
  { destruct (hasattr record "duration"); cbn [alike]; [|done].
    apply alike_bind with (R := eq); [by apply alike_refl|intros c ? <-].
    cbn [alike]. by apply akin_dict_set. }
  intros l3 l3' H3.
  apply alike_bind with (R := eq); [by apply alike_refl|intros ei ? <-].
  apply alike_bind with (R := Forall2 akin).
  { destruct (py_truthy ei); cbn [alike]; [|done].
    repeat (apply alike_bind with (R := eq); [by apply alike_refl|intros ? ? <-]).
    cbn [alike]. by apply akin_dict_set. }
  intros l4 l4' H4. cbn [alike]. by apply akin_add_extra_fields.
Qed.

Lemma format_at_alike (t t' : Q) (record : LogRecord) :
  alike (fun _ _ => True) (StructuredFormatter_format_at rt t record)
    (StructuredFormatter_format_at rt t' record).
Proof.
  unfold StructuredFormatter_format_at.
  apply alike_bind with (R := Forall2 akin); [apply log_entry_akin|].
  intros l l' Hl. unfold json_dumps.
  pose proof (akin_to_json_members (members_room rt) l l' Hl) as H.
  destruct (to_json_members rt _ l), (to_json_members rt _ l'); done.
Qed.


Lemma format_at_Raise (t t' : Q) (record : LogRecord) (e : Exc) :
  StructuredFormatter_format_at rt t record = Raise e ->
  StructuredFormatter_format_at rt t' record = Raise e.
Proof.
  intros H. pose proof (format_at_alike t t' record) as Ha. rewrite H in Ha.
  destruct (StructuredFormatter_format_at rt t' record); cbn in Ha; [done|by subst].
Qed.

(** What a call of a formatter does to the world: the structured one has
    read the clock. *)
Lemma Formatter_format_world (fmt : Formatter) (record : LogRecord) (w : World) :
  (Formatter_format rt fmt record w).1 =
    match fmt with ConsoleFormatter => w | StructuredFormatter => tick w end.
Proof. destruct fmt; reflexivity. Qed.

Lemma Formatter_format_env (fmt : Formatter) (record : LogRecord) (w : World) :
  same_env w (Formatter_format rt fmt record w).1.
Proof.
  rewrite Formatter_format_world. destruct fmt; repeat split; cbn; lia.
Qed.

Lemma Formatter_format_streams (fmt : Formatter) (record : LogRecord) (w : World) :
  let w' := (Formatter_format rt fmt record w).1 in
  fs w' = fs w /\ stdout w' = stdout w /\ stderr w' = stderr w.
Proof. rewrite Formatter_format_world. by destruct fmt. Qed.

(** A formatter called again, in a world with the same terminal, returns
    if it returned before and raises what it raised before. *)
Lemma Formatter_format_again (fmt : Formatter) (record : LogRecord) (w w' : World) :
  isatty w' = isatty w ->
  alike (fun _ _ => True) (Formatter_format rt fmt record w).2
    (Formatter_format rt fmt record w').2.
Proof.
  intros Htty. destruct fmt; cbn.
  - unfold ConsoleFormatter_format. rewrite Htty. by apply alike_refl.
  - apply format_at_alike.
Qed.

Lemma Formatter_format_set_fs (fmt : Formatter) (g : gmap string string -> gmap string string)
    (record : LogRecord) (w : World) :
  Formatter_format rt fmt record (set_fs g w) =
    (set_fs g (Formatter_format rt fmt record w).1, (Formatter_format rt fmt record w).2).
Proof. destruct fmt; reflexivity. Qed.
End Renderings.

Section RotatingSink.
Variable rt : Runtime.

Lemma same_env_refl (w : World) : same_env w w.
Proof. by repeat split. Qed.

Lemma same_env_trans (w1 w2 w3 : World) :
  same_env w1 w2 -> same_env w2 w3 -> same_env w1 w3.
Proof.
  unfold same_env. intros (?&?&?&?&?&?) (?&?&?&?&?&?).
  repeat split; [lia|congruence..].
Qed.

Lemma same_env_set_fs (g : gmap string string -> gmap string string) (w : World) :
  same_env w (set_fs g w).
Proof. by repeat split. Qed.

(** The rollover test on a record that renders: the line is measured
    unless the size limit is off or, on interpreters that never roll over
    an empty file, the file is empty. *)
Lemma shouldRollover_Ok (fmt : Formatter) (base : string) (maxBytes : Z)
    (record : LogRecord) (w : World) (s : string) :
  (Formatter_format rt fmt record w).2 = Ok s ->
  let pos := stream_tell base (fs w) in
  let measured := (0 <? maxBytes) && negb (rollover_skips_empty rt && (pos =? 0)) in
  shouldRollover rt fmt base maxBytes record w =
    (if measured then (Formatter_format rt fmt record w).1 else w,
     Ok (measured && (maxBytes <=? pos + Z.of_nat (String.length (s ++ NL))))).
Proof.
  intros Hs pos measured. subst pos measured.
  unfold shouldRollover, bind, gets, ret.
  destruct (0 <? maxBytes); [|done].
  destruct (rollover_skips_empty rt && _); [done|].
  destruct (Formatter_format rt fmt record w) as [w1 [s1|e]]; [|done].
  cbn in Hs. by injection Hs as ->.
Qed.

Lemma shouldRollover_Raise (fmt : Formatter) (base : string) (maxBytes : Z)
    (record : LogRecord) (w : World) (e : Exc) :
  (Formatter_format rt fmt record w).2 = Raise e ->
  let pos := stream_tell base (fs w) in
  let measured := (0 <? maxBytes) && negb (rollover_skips_empty rt && (pos =? 0)) in
  shouldRollover rt fmt base maxBytes record w =
    if measured then ((Formatter_format rt fmt record w).1, Raise e) else (w, Ok false).
Proof.
  intros He pos measured. subst pos measured.
  unfold shouldRollover, bind, gets, ret.
  destruct (0 <? maxBytes); [|done].
  destruct (rollover_skips_empty rt && _); [done|].
  destruct (Formatter_format rt fmt record w) as [w1 [s1|e1]]; [done|].
  cbn in He. by injection He as ->.
Qed.

(** A rotating handler on a record that renders. The line is rendered once
    to be measured (when it is measured) and once more to be written; the
    file is rolled over in between when the measured line would take it to
    [maxBytes]. *)
Lemma rotating_emit_Ok (fmt : Formatter) (base : string) (maxBytes backupCount : Z)
    (record : LogRecord) (w : World) (s : string) :
  (Formatter_format rt fmt record w).2 = Ok s ->
  let pos := stream_tell base (fs w) in
  let measured := (0 <? maxBytes) && negb (rollover_skips_empty rt && (pos =? 0)) in
  let rollover := measured && (maxBytes <=? pos + Z.of_nat (String.length (s ++ NL))) in
  let w1 := if measured then (Formatter_format rt fmt record w).1 else w in
  exists s',
    (Formatter_format rt fmt record w1).2 = Ok s' /\
    RotatingFileHandler_emit rt fmt base maxBytes backupCount record w =
      (set_fs (fun f => stream_write base (s' ++ NL)
                          (if rollover then doRollover base backupCount f else f))
         (Formatter_format rt fmt record w1).1, Ok tt).
Proof.
  intros Hs pos measured rollover w1.
  assert (Htty : isatty w1 = isatty w).
  { subst w1. destruct measured; [|done]. apply Formatter_format_env. }
  pose proof (Formatter_format_again rt fmt record w w1 Htty) as Ha.
  rewrite Hs in Ha.
  destruct (Formatter_format rt fmt record w1) as [w2 [s'|e]] eqn:E2; [|done].
  exists s'. split; [done|].
  unfold RotatingFileHandler_emit, try_except, try_except_else, bind.
  rewrite (shouldRollover_Ok fmt base maxBytes record w s Hs).
  fold pos measured rollover w1.
  unfold StreamHandler_emit, modify, ret.
  destruct rollover.
  - rewrite Formatter_format_set_fs, E2. reflexivity.
  - rewrite E2. reflexivity.
Qed.

(** A rotating handler on a record whose rendering raises: nothing is
    written and nothing rolled over; an instance of [Exception] is
    reported, anything else is raised. *)
Lemma rotating_emit_Raise (fmt : Formatter) (base : string) (maxBytes backupCount : Z)
    (record : LogRecord) (w : World) (e : Exc) :
  (Formatter_format rt fmt record w).2 = Raise e ->
  exists w0,
    same_env w w0 /\ fs w0 = fs w /\ stdout w0 = stdout w /\ stderr w0 = stderr w /\
    RotatingFileHandler_emit rt fmt base maxBytes backupCount record w =
      if exc_is_Exception e then (set_stderr (fun l => (l ++ [e])%list) w0, Ok tt)
      else (w0, Raise e).
Proof.
  intros He.
  unfold RotatingFileHandler_emit, try_except, try_except_else, bind.
  rewrite (shouldRollover_Raise fmt base maxBytes record w e He).
  destruct ((0 <? maxBytes) && _).
  - exists (Formatter_format rt fmt record w).1.
    split; [apply Formatter_format_env|].
    destruct (Formatter_format_streams rt fmt record w) as (? & ? & ?).
    do 3 (split; [done|]). unfold handleError, modify.
    by destruct (exc_is_Exception e).
  - exists (Formatter_format rt fmt record w).1.
    split; [apply Formatter_format_env|].
    destruct (Formatter_format_streams rt fmt record w) as (? & ? & ?).
    do 3 (split; [done|]).
    unfold ret, StreamHandler_emit.
    destruct (Formatter_format rt fmt record w) as [w1 [s1|e1]]; [done|].
    cbn in He. injection He as ->. cbn [fst].
    unfold handleError, modify.
    destruct (exc_is_RecursionError e) eqn:Er; destruct (exc_is_Exception e) eqn:Ee;
      cbn; rewrite ?Ee; reflexivity.
Qed.

(** C4 (amended). For a rotating handler with [maxBytes > 0] whose current
    file exists (and is non-empty on interpreters that never roll over an
    empty file): a record whose line, as measured, would take the file
    past [maxBytes] causes exactly one rollover, after which the whole
    line, rendered anew, is appended to the current file; with
    [backupCount > 0] the new current file holds that line only, the old
    contents are backup 1 and each existing backup [j-1] has become backup
    [j]. From a directory without stray numbered files, once
    [backupCount + 1] or more rollovers have happened the current file and
    exactly the backups [1..backupCount] exist. *)
Theorem rotating_sink_rolls_once_and_retains (fmt : Formatter) (base : string)
    (maxBytes backupCount : Z) (record : LogRecord) (w : World) (s c0 : string) :
  (Formatter_format rt fmt record w).2 = Ok s ->
  fs w !! base = Some c0 ->
  0 < maxBytes ->
  (rollover_skips_empty rt = true -> c0 <> "") ->
  maxBytes < Z.of_nat (String.length c0) + Z.of_nat (String.length (s ++ NL)) ->
  let w1 := (Formatter_format rt fmt record w).1 in
  let w2 := (Formatter_format rt fmt record w1).1 in
  let w' := (RotatingFileHandler_emit rt fmt base maxBytes backupCount record w).1 in
  exists s',
    (Formatter_format rt fmt record w1).2 = Ok s' /\
    RotatingFileHandler_emit rt fmt base maxBytes backupCount record w =
      (set_fs (stream_write base (s' ++ NL)) (set_fs (doRollover base backupCount) w2),
       Ok tt) /\
    (0 < backupCount ->
       fs w' !! base = Some (s' ++ NL) /\
       fs w' !! backup_name base 1 = Some c0 /\
       forall j c, 2 <= j <= backupCount ->
         fs w !! backup_name base (j - 1) = Some c ->
         fs w' !! backup_name base j = Some c) /\
    (forall (k : nat) (f g : gmap string string),
       0 <= backupCount ->
       retained base backupCount 0 f ->
       rotated base backupCount f k g ->
       backupCount + 1 <= Z.of_nat k ->
       is_Some (g !! base) /\
       forall j, is_Some (g !! backup_name base j) <-> 1 <= j <= backupCount).
Proof.
  intros Hfmt Hbase Hmax Hempty Hover w1 w2 w'.
  destruct (rotating_emit_Ok fmt base maxBytes backupCount record w s Hfmt)
    as (s' & Hs' & Hemit).
  assert (Hpos : stream_tell base (fs w) = Z.of_nat (String.length c0)).
  { unfold stream_tell. by rewrite Hbase. }
  assert (Hmeasured : (0 <? maxBytes)
            && negb (rollover_skips_empty rt && (stream_tell base (fs w) =? 0)) = true).
  { rewrite (proj2 (Z.ltb_lt 0 maxBytes)) by done. rewrite Hpos.
    destruct (rollover_skips_empty rt) eqn:E; [|done]. cbn.
    apply negb_true_iff, Z.eqb_neq. destruct c0; [by destruct Hempty|cbn; lia]. }
  rewrite Hmeasured in Hs', Hemit. rewrite Hpos in Hemit.
  rewrite (proj2 (Z.leb_le _ _)) in Hemit by lia. cbn [andb] in Hemit.
  fold w1 in Hs', Hemit. fold w2 in Hemit.
  assert (Hfs2 : fs w2 = fs w).
  { subst w2 w1.
    destruct (Formatter_format_streams rt fmt record (Formatter_format rt fmt record w).1)
      as (-> & _).
    by destruct (Formatter_format_streams rt fmt record w) as (-> & _). }
  exists s'. split; [done|]. split; [exact Hemit|]. split.
  - intros Hbc. subst w'. rewrite Hemit. cbn [fst fs set_fs]. rewrite Hfs2.
    destruct (doRollover_lookup base backupCount (fs w) c0 Hbc Hbase) as (G0 & G1 & Gj & Go).
    unfold stream_write. rewrite G0. cbn [default].
    split; [apply lookup_insert_eq|].
    split.
    + rewrite lookup_insert_ne by (intros E; symmetry in E; by apply backup_name_ne_base in E).
      done.
    + intros j c Hj Hc.
      rewrite lookup_insert_ne by (intros E; symmetry in E; by apply backup_name_ne_base in E).
      rewrite Gj by done. by rewrite Hc.
  - intros k f g Hbc Hf Hrot Hk.
    destruct (rotated_retained base backupCount k f g Hbc Hrot Hf) as (HB & HQ & HP).
    split; [done|]. intros j. split.
    + intros Hs. destruct (decide (1 <= j <= backupCount)) as [|Hn]; [done|].
      rewrite HQ in Hs by done. by destruct Hs.
    + intros Hj. apply HP. lia.
Qed.
End RotatingSink.

Section Fresh.
Lemma not_fresh_notin (k : string) (ks : list string) :
  ~ fresh_key k -> Forall fresh_key ks -> k ∉ ks.
Proof.
  intros Hk Hks Hin. rewrite Forall_forall in Hks. by apply Hk, Hks.
Qed.

Lemma field_key_fresh (k : string) : field_key k -> fresh_key k.
Proof.
  intros ((Hr & Ha & _) & Ho). split; [done|]. split; [|done].
  intros Hin. apply Hr. revert Hin. rewrite !elem_of_cons.
  intros [->|[->|H]]; [compute_done..|by apply elem_of_nil in H].
Qed.

Lemma Forall_field_key_fresh (ks : list string) :
  Forall field_key ks -> Forall fresh_key ks.
Proof. intros H. eapply Forall_impl; [exact H|apply field_key_fresh]. Qed.

Lemma Forall_field_key_plain (ks : list string) :
  Forall field_key ks -> Forall plain_key ks.
Proof. intros H. eapply Forall_impl; [exact H|]. by intros k [? _]. Qed.
End Fresh.

(** A literal name that is an attribute of the record does not occur among
    fresh keys. *)
Ltac not_fresh :=
  let H1 := fresh in
  let H2 := fresh in
  intros (H1 & H2 & _); first [ apply H1; compute_done | apply H2; compute_done ].

Ltac notin_fresh Hfresh :=
  apply not_fresh_notin with (2 := Hfresh); not_fresh.

Section LogEntry.
Variable rt : Runtime.

Lemma ambient_record_keys (self : AdvancedLogger) (level : Z) (message : string)
    (exc_info : pyval) (w : World) :
  let keys := (ambient_record rt self level message exc_info w).*1 in
  NoDup keys /\ Forall (fun k => k ∈ excluded_keys) keys.
Proof.
  unfold ambient_record, makeRecord, attach_context, get_context, time_time,
    bind, gets, ret.
  cbv beta. cbn [tick contexts set_ticks].
  destruct (contexts w !! self_id self) as [c|]; split; compute_done.
Qed.

Lemma record_of_NoDup (self : AdvancedLogger) (level : Z) (message : string)
    (exc_info : pyval) (kwargs : list (string * pyval)) (w : World) :
  NoDup (record_of rt self level message exc_info kwargs w).*1.
Proof. apply attach_fields_NoDup, ambient_record_keys. Qed.

(** Attributes outside the formatter's exclusion list come from the
    caller. *)
Lemma record_of_extra (self : AdvancedLogger) (level : Z) (message : string)
    (exc_info : pyval) (kwargs : list (string * pyval)) (w : World) (k : string) (v : pyval) :
  (k, v) ∈ record_of rt self level message exc_info kwargs w ->
  k ∉ excluded_keys -> (k, v) ∈ kwargs.
Proof.
  intros Hin Hk. apply attach_fields_elem in Hin as [H|H]; [done|].
  exfalso. apply Hk.
  destruct (ambient_record_keys self level message exc_info w) as [_ HF].
  rewrite Forall_forall in HF. apply HF. apply list_elem_of_fmap. by exists (k, v).
Qed.

Lemma ambient_record_get_unreserved (self : AdvancedLogger) (level : Z) (message : string)
    (exc_info : pyval) (w : World) (k : string) :
  k ∉ excluded_keys ->
  dict_get k (ambient_record rt self level message exc_info w) = None.
Proof.
  intros Hk. apply dict_get_None. intros Hin. apply Hk.
  destruct (ambient_record_keys self level message exc_info w) as [_ HF].
  rewrite Forall_forall in HF. by apply HF.
Qed.

(** The emission methods read the clock for the record and hand
    [record_of] to the logger. *)
Lemma _log_with_context_handles (self : AdvancedLogger) (level : Z) (message : string)
    (kwargs : list (string * pyval)) (w : World) :
  Forall (fun k => k ∉ ["self"; "level"; "message"]) kwargs.*1 ->
  _log_with_context rt self level message kwargs w =
    Logger_handle rt (logger self) (record_of rt self level message VNone kwargs w)
      (tick w).
Proof.
  intros Hb. unfold _log_with_context, bind_kwargs, dict_keys.
  rewrite bool_decide_eq_false_2.
  2:{ intros HE. apply Exists_exists in HE as (k & Hk & Hk').
      rewrite Forall_forall in Hb. by apply (Hb k). }
  unfold record_of, ambient_record, makeRecord, attach_context, get_context,
    time_time, bind, gets, ret.
  cbv beta. cbn [tick contexts set_ticks].
  destruct (contexts w !! self_id self); reflexivity.
Qed.

Lemma error_handles (self : AdvancedLogger) (message : string) (exception : option Exc)
    (kwargs : list (string * pyval)) (w : World) :
  Forall (fun k => k ∉ ["self"; "message"; "exception"]) kwargs.*1 ->
  error rt self message (match exception with Some e => VExc e | None => VNone end) kwargs w =
    Logger_handle rt (logger self)
      (record_of rt self ERROR message (exc_info_slot exception) kwargs w) (tick w).
Proof.
  intros Hb. unfold error, bind_kwargs, dict_keys.
  rewrite bool_decide_eq_false_2.
  2:{ intros HE. apply Exists_exists in HE as (k & Hk & Hk').
      rewrite Forall_forall in Hb. by apply (Hb k). }
  unfold record_of, ambient_record, makeRecord, attach_context, get_context,
    time_time, bind, gets, ret, lift.
  cbv beta. cbn [tick contexts set_ticks].
  destruct exception as [e|]; cbn [py_truthy exc_info_of];
    cbv beta iota; cbn [tick contexts set_ticks];
    destruct (contexts w !! self_id self); reflexivity.
Qed.

(** For fresh field names, [StructuredFormatter.format] builds the slot
    entries and then copies the record's other attributes over them. *)
Lemma log_entry_fresh (self : AdvancedLogger) (level : Z) (message : string)
    (exception : option Exc) (kwargs : list (string * pyval)) (w : World) (now : Q) :
  Forall fresh_key kwargs.*1 ->
  let record := record_of rt self level message (exc_info_slot exception) kwargs w in
  StructuredFormatter_log_entry rt now record =
    Ok (add_extra_fields record
          (slot_entries rt self level message exception
             (dict_get "duration" record) now w)).
Proof.
  intros Hfresh record. subst record.
  unfold record_of, StructuredFormatter_log_entry, getMessage, hasattr, dict_has, getattr.
  destruct (dict_get "duration" (attach_fields _ kwargs)) as [d|] eqn:Ed.
  all: rewrite !attach_fields_get_other by (notin_fresh Hfresh).
  all: unfold ambient_record, slot_entries, makeRecord, attach_context, get_context,
         time_time, bind, gets, ret.
  all: cbv beta; cbn [tick contexts set_ticks].
  all: destruct (contexts w !! self_id self) as [c|]; destruct exception as [e|];
         reflexivity.
Qed.

(** A field that is not called [duration] leaves the record without one. *)
Lemma record_of_duration (self : AdvancedLogger) (level : Z) (message : string)
    (exc_info : pyval) (kwargs : list (string * pyval)) (w : World) :
  dict_get "duration" (record_of rt self level message exc_info kwargs w)
    = dict_get "duration" (attach_fields [] kwargs).
Proof.
  unfold record_of.
  assert (H : dict_get "duration" (ambient_record rt self level message exc_info w)
              = dict_get "duration" ([] : LogRecord)).
  { unfold ambient_record, makeRecord, attach_context, get_context, time_time,
      bind, gets, ret.
    cbv beta. cbn [tick contexts set_ticks].
    by destruct (contexts w !! self_id self). }
  revert H. generalize (ambient_record rt self level message exc_info w).
  generalize ([] : LogRecord).
  induction kwargs as [|[k v] kwargs IH]; intros r0 r H; [done|].
  unfold attach_fields in *. cbn [foldl fst snd]. apply IH.
  unfold setattr. destruct (decide (k = "duration")) as [->|Hne].
  - by rewrite !dict_get_set_eq.
  - by rewrite !dict_get_set_ne.
Qed.

Lemma record_of_duration_None (self : AdvancedLogger) (level : Z) (message : string)
    (exc_info : pyval) (kwargs : list (string * pyval)) (w : World) :
  "duration" ∉ kwargs.*1 ->
  dict_get "duration" (record_of rt self level message exc_info kwargs w) = None.
Proof.
  intros H. rewrite record_of_duration. by rewrite attach_fields_get_other.
Qed.


(** C2 (amended). Caller fields with ordinary names are attached to the
    record verbatim and unfiltered, each under its own name, whatever that
    name is. When every caller field name is plain (not reserved, not an
    attribute of the record, not a parameter of the method), the reserved
    entries of the structured output are exactly those built from the
    record's own slots, and every caller field appears under its name. *)
Theorem caller_fields_attached_verbatim (self : AdvancedLogger) (level : Z)
    (message : string) (kwargs : list (string * pyval)) (w : World) :
  NoDup kwargs.*1 ->
  Forall (fun k => ordinary_name k = true) kwargs.*1 ->
  let record := record_of rt self level message VNone kwargs w in
  (Forall (fun k => k ∉ ["self"; "level"; "message"]) kwargs.*1 ->
     _log_with_context rt self level message kwargs w =
       Logger_handle rt (logger self) record (tick w)) /\
  (forall k v, (k, v) ∈ kwargs -> getattr record k = Ok v) /\
  (Forall plain_key kwargs.*1 ->
     forall now, exists log_entry,
       StructuredFormatter_log_entry rt now record = Ok log_entry /\
       (forall k, k ∈ reserved_names ->
          dict_get k log_entry =
            dict_get k (slot_entries rt self level message None None now w)) /\
       (forall k v, (k, v) ∈ kwargs -> dict_get k log_entry = Some v)).
Proof.
  intros Hnd Hord record. split; [apply _log_with_context_handles|]. split.
  - intros k v Hin. unfold getattr. subst record. unfold record_of.
    by rewrite (attach_fields_get _ _ k v).
  - intros Hplain now.
    assert (Hfresh : Forall fresh_key kwargs.*1).
    { apply Forall_field_key_fresh. rewrite Forall_forall in Hplain, Hord |- *.
      intros k Hk. split; auto. }
    assert (Hdur : dict_get "duration" record = None).
    { apply record_of_duration_None.
      apply not_plain_notin with (2 := Hplain). intros (H & _). apply H. compute_done. }
    pose proof (log_entry_fresh self level message None kwargs w now Hfresh) as Hle.
    change (exc_info_slot None) with VNone in Hle. cbv zeta in Hle.
    fold record in Hle. rewrite Hdur in Hle.
    eexists. split; [exact Hle|]. split.
    + intros k Hk. rewrite add_extra_fields_get by apply record_of_NoDup.
      case_bool_decide as Hex; [done|].
      subst record. unfold record_of.
      rewrite attach_fields_get_other.
      * by rewrite ambient_record_get_unreserved.
      * apply not_plain_notin with (2 := Hplain). by intros (H & _).
    + intros k v Hin. rewrite add_extra_fields_get by apply record_of_NoDup.
      assert (Hk : plain_key k).
      { rewrite Forall_forall in Hplain. apply Hplain.
        apply list_elem_of_fmap. by exists (k, v). }
      rewrite bool_decide_eq_false_2.
      * subst record. unfold record_of. by rewrite (attach_fields_get _ _ k v).
      * intros Hex. destruct Hk as (Hr & Ha & _).
        assert (k ∈ reserved_names \/ k ∈ record_attributes) as [|]; [|done|done].
        revert Hex. clear.
        unfold excluded_keys. rewrite !elem_of_cons.
        intros H. repeat destruct H as [->|H]; try (left; compute_done);
          try (right; compute_done). by apply elem_of_nil in H.
Qed.
End LogEntry.

Section Json.
Variable rt : Runtime.

Lemma int_fits_0 : int_fits 0 = true.
Proof. vm_compute. reflexivity. Qed.

Lemma int_repr_fits (z : Z) : int_fits z = true -> int_repr z = Ok (pretty z).
Proof. intros H. unfold int_repr. by rewrite H. Qed.

Lemma json_key_encodable (k : pykey) :
  encodable_key k = true -> exists ks, json_key rt k = Ok ks.
Proof.
  destruct k as [s|z|q|[]| |]; intros H; try (eexists; reflexivity).
  - cbn in H. cbn. rewrite int_repr_fits by done. eauto.
  - discriminate H.
Qed.

(** The encoder succeeds on every value that fits the room it has. *)
Lemma to_json_encodable (room : nat) (v : pyval) :
  encodable_within room v = true -> exists j, to_json rt room v = Ok j.
Proof.
  revert room v. fix IH 2. intros room v.
  destruct v as [| b | z | q | s | l | l | kvs | c | n | e | [s|e]]; intros Henc;
    try (eexists; reflexivity).
  - cbn in Henc. cbn [to_json]. rewrite int_repr_fits by done. eauto.
  - destruct room as [|room]; [discriminate Henc|].
    cbn [to_json]. cbn [encodable_within] in Henc.
    assert (Hl : exists js,
      (fix items (l : list pyval) : result (list json) :=
         match l with
         | [] => Ok []
         | x :: l' =>
             match to_json rt room x with
             | Raise e => Raise e
             | Ok j => match items l' with Raise e => Raise e | Ok js => Ok (j :: js) end
             end
         end) l = Ok js).
    { induction l as [|x l IHl]; [by eexists|].
      cbn [forallb] in Henc. apply andb_true_iff in Henc as [Hx Hl].
      destruct (IH room x Hx) as [j ->]. destruct (IHl Hl) as [js ->]. by eexists. }
    destruct Hl as [js ->]. by eexists.
  - destruct room as [|room]; [discriminate Henc|].
    cbn [to_json]. cbn [encodable_within] in Henc.
    assert (Hl : exists js,
      (fix items (l : list pyval) : result (list json) :=
         match l with
         | [] => Ok []
         | x :: l' =>
             match to_json rt room x with
             | Raise e => Raise e
             | Ok j => match items l' with Raise e => Raise e | Ok js => Ok (j :: js) end
             end
         end) l = Ok js).
    { induction l as [|x l IHl]; [by eexists|].
      cbn [forallb] in Henc. apply andb_true_iff in Henc as [Hx Hl].
      destruct (IH room x Hx) as [j ->]. destruct (IHl Hl) as [js ->]. by eexists. }
    destruct Hl as [js ->]. by eexists.
  - destruct room as [|room]; [discriminate Henc|].
    cbn [to_json]. cbn [encodable_within] in Henc.
    assert (Hl : exists js,
      (fix members (kvs : list (pykey * pyval)) : result (list (string * json)) :=
         match kvs with
         | [] => Ok []
         | (k, x) :: kvs' =>
             match json_key rt k with
             | Raise e => Raise e
             | Ok ks =>
                 match to_json rt room x with
                 | Raise e => Raise e
                 | Ok j =>
                     match members kvs' with
                     | Raise e => Raise e
                     | Ok js => Ok ((ks, j) :: js)
                     end
                 end
             end
         end) kvs = Ok js).
    { induction kvs as [|[k x] kvs IHl]; [by eexists|].
      cbn [forallb fst snd] in Henc. apply andb_true_iff in Henc as [Hkx Hl].
      apply andb_true_iff in Hkx as [Hk Hx].
      destruct (json_key_encodable k Hk) as [ks ->].
      destruct (IH room x Hx) as [j ->]. destruct (IHl Hl) as [js ->]. by eexists. }
    destruct Hl as [js ->]. by eexists.
  - destruct room; [discriminate Henc|]. eexists; reflexivity.
  - destruct room; [discriminate Henc|]. eexists; reflexivity.
  - destruct room; [discriminate Henc|]. eexists; reflexivity.
  - destruct room; [discriminate Henc|]. eexists; reflexivity.
  - discriminate Henc.
Qed.

Lemma to_json_members_total (room : nat) (d : list (string * pyval)) :
  Forall (fun v => encodable_within room v = true) d.*2 ->
  exists members, to_json_members rt room d = Ok members.
Proof.
  induction d as [|[k v] d IH]; intros HF; [by eexists|].
  apply Forall_cons in HF as [Hv HF]. cbn [to_json_members].
  destruct (to_json_encodable room v Hv) as [j ->].
  destruct (IH HF) as [ms ->]. by eexists.
Qed.

Lemma to_json_members_get (room : nat) (d : list (string * pyval))
    (members : list (string * json)) (k : string) (v : pyval) :
  to_json_members rt room d = Ok members ->
  dict_get k d = Some v ->
  exists j, to_json rt room v = Ok j /\ dict_get k members = Some j.
Proof.
  revert members. induction d as [|[k0 v0] d IH]; intros members Hms Hget; [done|].
  cbn [to_json_members] in Hms.
  destruct (to_json rt room v0) as [j0|] eqn:E0; [|done].
  destruct (to_json_members rt room d) as [ms|] eqn:Ems; [|done].
  injection Hms as <-. cbn [dict_get] in *.
  destruct (decide (k0 = k)) as [->|Hne].
  - injection Hget as <-. eauto.
  - by apply IH.
Qed.

Lemma to_json_members_get_None (room : nat) (d : list (string * pyval))
    (members : list (string * json)) (k : string) :
  to_json_members rt room d = Ok members ->
  dict_get k d = None -> dict_get k members = None.
Proof.
  revert members. induction d as [|[k0 v0] d IH]; intros members Hms Hget.
  - by injection Hms as <-.
  - cbn [to_json_members] in Hms.
    destruct (to_json rt room v0) as [j0|]; [|done].
    destruct (to_json_members rt room d) as [ms|]; [|done].
    injection Hms as <-. cbn [dict_get] in *.
    destruct (decide (k0 = k)); [done|]. by apply IH.
Qed.



Lemma plain_not_excluded (k : string) : plain_key k -> k ∉ excluded_keys.
Proof.
  intros (Hr & Ha & _) Hex.
  assert (k ∈ reserved_names \/ k ∈ record_attributes) as [|]; [|done|done].
  revert Hex. clear. unfold excluded_keys. rewrite !elem_of_cons.
  intros H. repeat destruct H as [->|H]; try (left; compute_done);
    try (right; compute_done). by apply elem_of_nil in H.
Qed.



Lemma slot_entries_encodable (self : AdvancedLogger) (level : Z) (message : string)
    (exception : option Exc) (duration : option pyval) (now : Q) (w : World) :
  (forall d, duration = Some d -> encodable rt d = true) ->
  Forall (fun v => encodable rt v = true)
    (slot_entries rt self level message exception duration now w).*2.
Proof.
  intros Hd. unfold slot_entries.
  assert (H0 : encodable rt (VInt 0) = true) by apply int_fits_0.
  destruct (contexts w !! self_id self) as [c|]; destruct exception as [e|];
    destruct duration as [d|]; cbn [asdict app fmap list_fmap snd];
    repeat (apply Forall_cons; split);
    try apply Forall_nil; try reflexivity; try exact H0; try (by apply Hd);
    by destruct (user_id c), (session_id c), (request_id c).
Qed.


(** The members of the object the structured formatter prints, for a
    record with fresh field names and encodable field values. *)
Lemma format_members (self : AdvancedLogger) (level : Z) (message : string)
    (exception : option Exc) (kwargs : list (string * pyval)) (w : World) (now : Q) :
  Forall fresh_key kwargs.*1 ->
  Forall (fun v => encodable rt v = true) kwargs.*2 ->
  let record := record_of rt self level message (exc_info_slot exception) kwargs w in
  exists members,
    to_json_members rt (members_room rt)
      (add_extra_fields record
         (slot_entries rt self level message exception
            (dict_get "duration" record) now w))
      = Ok members /\
    StructuredFormatter_format_at rt now record = Ok (json_text rt (JObj members)).
Proof.
  intros Hfresh Henc record.
  assert (Hval : forall k v, (k, v) ∈ record -> (k, v) ∈ kwargs -> encodable rt v = true).
  { intros k v _ Hin. rewrite Forall_forall in Henc. apply Henc.
    apply list_elem_of_fmap. by exists (k, v). }
  destruct (to_json_members_total (members_room rt)
              (add_extra_fields record
                 (slot_entries rt self level message exception
                    (dict_get "duration" record) now w)))
    as [members Hms].
  { apply add_extra_fields_Forall.
    - apply slot_entries_encodable. intros d Hd.
      apply dict_get_Some_elem in Hd.
      apply attach_fields_elem in Hd as [Hd|Hd].
      + rewrite Forall_forall in Henc. apply Henc.
        apply list_elem_of_fmap. by exists ("duration", d).
      + exfalso.
        assert (Hn : dict_get "duration"
                  (ambient_record rt self level message (exc_info_slot exception) w)
                  = None).
        { pose proof (record_of_duration_None rt self level message
                        (exc_info_slot exception) [] w) as H.
          apply H. apply not_elem_of_nil. }
        apply (dict_get_NoDup _ _ _ (proj1 (ambient_record_keys rt self level message
                 (exc_info_slot exception) w))) in Hd. congruence.
    - intros k v Hin Hk. apply record_of_extra in Hin; [|done].
      rewrite Forall_forall in Henc. apply Henc.
      apply list_elem_of_fmap. by exists (k, v). }
  exists members. split; [done|].
  unfold StructuredFormatter_format_at.
  pose proof (log_entry_fresh rt self level message exception kwargs w now Hfresh) as Hle.
  cbv zeta in Hle. fold record in Hle. rewrite Hle.
  cbn [mbind result_bind]. unfold json_dumps. by rewrite Hms.
Qed.

End Json.

Section Handlers.
Variable rt : Runtime.

Lemma Qle_bool_inject_Z (a b : Z) : Qle_bool (inject_Z a) (inject_Z b) = (a <=? b).
Proof. unfold Qle_bool. cbn. by rewrite !Z.mul_1_r. Qed.

Lemma fresh_key_literal (k : string) :
  bool_decide (k ∉ record_attributes) && bool_decide (k ∉ ["context"; "correlation_id"])
    && ordinary_name k = true ->
  fresh_key k.
Proof.
  intros H. apply andb_true_iff in H as [H H3]. apply andb_true_iff in H as [H1 H2].
  apply bool_decide_eq_true in H1, H2. by repeat split.
Qed.

(** A stream handler on a record that renders: one write of the line and
    its terminator. *)
Lemma stream_emit_Ok (fmt : Formatter) (write : string -> World -> World)
    (record : LogRecord) (w : World) (s : string) :
  (Formatter_format rt fmt record w).2 = Ok s ->
  StreamHandler_emit rt fmt write record w =
    (write (s ++ NL) (Formatter_format rt fmt record w).1, Ok tt).
Proof.
  intros H. unfold StreamHandler_emit.
  destruct (Formatter_format rt fmt record w) as [w1 [s1|e]]; [|done].
  cbn in H. by injection H as ->.
Qed.

(** A stream handler on a record whose rendering raises. *)
Lemma stream_emit_Raise (fmt : Formatter) (write : string -> World -> World)
    (record : LogRecord) (w : World) (e : Exc) :
  (Formatter_format rt fmt record w).2 = Raise e ->
  StreamHandler_emit rt fmt write record w =
    if exc_is_RecursionError e then ((Formatter_format rt fmt record w).1, Raise e)
    else if exc_is_Exception e
         then (set_stderr (fun l => (l ++ [e])%list) (Formatter_format rt fmt record w).1,
               Ok tt)
         else ((Formatter_format rt fmt record w).1, Raise e).
Proof.
  intros H. unfold StreamHandler_emit.
  destruct (Formatter_format rt fmt record w) as [w1 [s1|e1]]; [done|].
  cbn in H. by injection H as ->.
Qed.

(** The handlers of a record whose renderings all return: each handler
    returns, whatever it is. *)
Lemma Handler_handle_ok (hdlr : Handler) (record : LogRecord) (w : World) :
  (forall fmt, exists s, (Formatter_format rt fmt record w).2 = Ok s) ->
  exists w', Handler_handle rt hdlr record w = (w', Ok tt) /\ same_env w w'.
Proof.
  intros Hr. unfold Handler_handle.
  destruct (Hr (h_formatter hdlr)) as [s Hs].
  destruct (h_stream hdlr) as [|base maxBytes backupCount].
  - rewrite (stream_emit_Ok _ _ _ _ s Hs). eexists. split; [reflexivity|].
    eapply same_env_trans; [apply Formatter_format_env|]. by repeat split.
  - destruct (rotating_emit_Ok rt (h_formatter hdlr) base maxBytes backupCount
                record w s Hs) as (s' & _ & ->).
    eexists. split; [reflexivity|].
    eapply same_env_trans; [|apply same_env_set_fs].
    eapply same_env_trans; [|apply Formatter_format_env].
    destruct (_ && _); [apply Formatter_format_env|apply same_env_refl].
Qed.

(** Dispatch never raises on a record with an integer level whose
    renderings return. *)
Lemma callHandlers_ok (handlers : list Handler) (record : LogRecord) (lv : Z) (w : World) :
  getattr record "levelno" = Ok (VInt lv) ->
  (forall fmt, exists s, (Formatter_format rt fmt record w).2 = Ok s) ->
  exists w', callHandlers rt handlers record w = (w', Ok tt) /\ same_env w w'.
Proof.
  intros Hlv Hr. revert w Hr.
  induction handlers as [|hdlr rest IH]; intros w Hr.
  - eexists. split; [reflexivity|apply same_env_refl].
  - cbn [callHandlers]. unfold bind, lift. rewrite Hlv. cbn [py_ge_int py_number].
    destruct (Qle_bool (inject_Z (h_level hdlr)) (inject_Z lv)).
    + destruct (Handler_handle_ok hdlr record w Hr) as (w1 & -> & H1).
      destruct (IH w1) as (w2 & -> & H2).
      { intros fmt. destruct (Hr fmt) as [s Hs].
        pose proof (Formatter_format_again rt fmt record w w1) as Ha.
        rewrite Hs in Ha.
        destruct ((Formatter_format rt fmt record w1).2); [eauto|].
        exfalso. apply Ha. apply H1. }
      eexists. split; [reflexivity|]. by eapply same_env_trans.
    + unfold ret at 1. destruct (IH w Hr) as (w2 & -> & H2). eauto.
Qed.
End Handlers.

Section Timer.
Variable rt : Runtime.

Lemma timer_fields_fresh (op : string) (duration : option Q) :
  Forall fresh_key (timer_fields op duration).*1.
Proof.
  destruct duration; repeat constructor; by apply fresh_key_literal.
Qed.

(** The records [timer] emits render under both formatters. *)
Lemma timer_record_renders (fmt : Formatter) (self : AdvancedLogger) (level : Z)
    (message op : string) (exception : option Exc) (duration : option Q) (w w0 : World) :
  exists s,
    (Formatter_format rt fmt
       (record_of rt self level message (exc_info_slot exception)
          (timer_fields op duration) w) w0).2 = Ok s.
Proof.
  destruct fmt.
  - unfold timer_fields, Formatter_format, ConsoleFormatter_format, record_of,
      ambient_record, makeRecord, attach_context, get_context, time_time,
      bind, gets, ret.
    cbv beta. cbn [tick contexts set_ticks snd].
    destruct (contexts w !! self_id self) as [c|], exception as [e|],
      duration as [d|], (isatty w0); eexists; reflexivity.
  - destruct (format_members rt self level message exception
                (timer_fields op duration) w (clock rt (ticks w0)))
      as (members & _ & Hfmt).
    + apply timer_fields_fresh.
    + destruct duration; repeat constructor.
    + eexists. exact Hfmt.
Qed.

Lemma timer_record_levelno (self : AdvancedLogger) (level : Z)
    (message op : string) (exc_info : pyval) (duration : option Q) (w : World) :
  getattr (record_of rt self level message exc_info (timer_fields op duration) w)
    "levelno" = Ok (VInt level).
Proof.
  unfold timer_fields, record_of, ambient_record, makeRecord, attach_context,
    get_context, time_time, bind, gets, ret.
  cbv beta. cbn [tick contexts set_ticks].
  destruct (contexts w !! self_id self), duration; reflexivity.
Qed.

(** Emitting one of [timer]'s records never raises. *)
Lemma timer_record_emitted (self : AdvancedLogger) (level : Z)
    (message op : string) (exception : option Exc) (duration : option Q) (w w0 : World) :
  exists w',
    Logger_handle rt (logger self)
      (record_of rt self level message (exc_info_slot exception)
         (timer_fields op duration) w) w0 = (w', Ok tt) /\
    same_env w0 w'.
Proof.
  unfold Logger_handle. apply callHandlers_ok with (lv := level).
  - apply timer_record_levelno.
  - intros fmt. apply timer_record_renders.
Qed.

Lemma same_env_tick (w : World) : same_env w (tick w).
Proof. repeat split. cbn. lia. Qed.

Lemma timer_info (self : AdvancedLogger) (message op : string)
    (duration : option Q) (w : World) :
  exists w',
    info rt self message (timer_fields op duration) w = (w', Ok tt) /\ same_env w w'.
Proof.
  unfold info. rewrite _log_with_context_handles.
  - destruct (timer_record_emitted self INFO message op None duration w (tick w))
      as (w' & H & Henv).
    exists w'. split; [done|]. eapply same_env_trans; [apply same_env_tick|done].
  - destruct duration; repeat constructor; compute_done.
Qed.

Lemma timer_error (self : AdvancedLogger) (message op : string) (e : Exc)
    (d : Q) (w : World) :
  exists w',
    error rt self message (VExc e) (timer_fields op (Some d)) w = (w', Ok tt) /\
    same_env w w'.
Proof.
  rewrite (error_handles rt self message (Some e)).
  - destruct (timer_record_emitted self ERROR message op (Some e) (Some d) w (tick w))
      as (w' & H & Henv).
    exists w'. split; [done|]. eapply same_env_trans; [apply same_env_tick|done].
  - repeat constructor; compute_done.
Qed.

(** C5 (amended). [timer] reads the clock, emits one INFO "Starting"
    record, then runs the body. If the body returns, the clock is read
    again, one INFO "Completed" record with the elapsed milliseconds
    follows and the body's value is returned. If the body raises an
    instance [e] of [Exception], one ERROR "Failed" record is emitted with
    [e] as its exception and the elapsed milliseconds as its duration, and
    then [e] itself is raised. An exception outside [Exception]
    (KeyboardInterrupt, SystemExit) passes through with no further record.
    None of the emissions raises. *)
Theorem timer_logs_and_reraises {A} (self : AdvancedLogger) (op : string)
    (body : M A) (w : World) :
  exists w1,
    info rt self ("Starting " ++ op) (timer_fields op None) (tick w) = (w1, Ok tt) /\
    same_env w w1 /\
    match body w1 with
    | (w2, Ok a) =>
        exists w3,
          info rt self ("Completed " ++ op)
            (timer_fields op
               (Some ((clock rt (ticks w2) - clock rt (ticks w)) * 1000)%Q))
            (tick w2) = (w3, Ok tt) /\
          timer rt self op body w = (w3, Ok a)
    | (w2, Raise e) =>
        if exc_is_Exception e then
          exists w3,
            error rt self ("Failed " ++ op) (VExc e)
              (timer_fields op
                 (Some ((clock rt (ticks w2) - clock rt (ticks w)) * 1000)%Q))
              (tick w2) = (w3, Ok tt) /\
            timer rt self op body w = (w3, Raise e)
        else timer rt self op body w = (w2, Raise e)
    end.
Proof.
  destruct (timer_info self ("Starting " ++ op) op None (tick w)) as (w1 & Hstart & Henv).
  exists w1. split; [done|].
  split; [eapply same_env_trans; [apply same_env_tick|done]|].
  unfold timer, get_context, time_time, bind, gets, try_except_else. cbv beta.
  change [("operation", VStr op)] with (timer_fields op None).
  rewrite Hstart.
  destruct (body w1) as [w2 [a|e]].
  - destruct (timer_info self ("Completed " ++ op) op
                (Some ((clock rt (ticks w2) - clock rt (ticks w)) * 1000)%Q) (tick w2))
      as (w3 & Hend & _).
    exists w3. split; [done|].
    change [("operation", VStr op);
            ("duration", VFloat ((clock rt (ticks w2) - clock rt (ticks w)) * 1000))]
      with (timer_fields op (Some ((clock rt (ticks w2) - clock rt (ticks w)) * 1000)%Q)).
    by rewrite Hend.
  - destruct (exc_is_Exception e); [|done].
    destruct (timer_error self ("Failed " ++ op) op e
                ((clock rt (ticks w2) - clock rt (ticks w)) * 1000)%Q (tick w2))
      as (w3 & Herr & _).
    exists w3. split; [done|].
    change [("operation", VStr op);
            ("duration", VFloat ((clock rt (ticks w2) - clock rt (ticks w)) * 1000))]
      with (timer_fields op (Some ((clock rt (ticks w2) - clock rt (ticks w)) * 1000)%Q)).
    by rewrite Herr.
Qed.
End Timer.

Section Paths.
Lemma string_app_assoc (a b c : string) : (a ++ b) ++ c = a ++ b ++ c.
Proof.
  induction a as [|x a IH]; [done|].
  change (String x ((a ++ b) ++ c) = String x (a ++ b ++ c)). by rewrite IH.
Qed.

Lemma starts_with_slash_app (n s1 s2 : string) (c1 c2 : ascii) :
  c1 <> "/"%char -> c2 <> "/"%char ->
  starts_with_slash (n ++ String c1 s1) = starts_with_slash (n ++ String c2 s2).
Proof.
  intros H1 H2. destruct n as [|x n]; [|done].
  change (bool_decide (c1 = "/"%char) = bool_decide (c2 = "/"%char)).
  by rewrite !bool_decide_eq_false_2.
Qed.

(** The two files of one logger lie side by side: their paths are the
    same injective context around the two file names. *)
Lemma os_path_join_inj (a b b' : string) :
  starts_with_slash b = starts_with_slash b' ->
  os_path_join a b = os_path_join a b' -> b = b'.
Proof.
  unfold os_path_join. intros ->.
  destruct (starts_with_slash b'); [done|].
  destruct (bool_decide (a = "") || ends_with_slash a); intros H.
  - by apply (inj (String.append a)) in H.
  - apply (inj (String.append a)) in H. by apply (inj (String.append "/")) in H.
Qed.

Lemma os_path_join_app (a b t : string) :
  starts_with_slash (b ++ t) = starts_with_slash b ->
  os_path_join a b ++ t = os_path_join a (b ++ t).
Proof.
  unfold os_path_join. intros ->.
  destruct (starts_with_slash b); [done|].
  destruct (bool_decide (a = "") || ends_with_slash a).
  - apply string_app_assoc.
  - by rewrite !string_app_assoc.
Qed.

Lemma log_paths_distinct (dir name : string) :
  let all := os_path_join dir (name ++ ".log") in
  let err := os_path_join dir (name ++ "_errors.log") in
  all <> err /\
  (forall j, all <> backup_name err j) /\
  (forall j, err <> backup_name all j).
Proof.
  intros all err. subst all err. split; [|split].
  - intros H. apply os_path_join_inj in H.
    + apply (inj (String.append name)) in H. discriminate H.
    + by apply starts_with_slash_app.
  - intros j H. unfold backup_name in H.
    rewrite os_path_join_app in H.
    + apply os_path_join_inj in H.
      * rewrite string_app_assoc in H.
        apply (inj (String.append name)) in H. discriminate H.
      * rewrite string_app_assoc. by apply starts_with_slash_app.
    + rewrite string_app_assoc. by apply starts_with_slash_app.
  - intros j H. unfold backup_name in H.
    rewrite os_path_join_app in H.
    + apply os_path_join_inj in H.
      * rewrite string_app_assoc in H.
        apply (inj (String.append name)) in H. discriminate H.
      * rewrite string_app_assoc. by apply starts_with_slash_app.
    + rewrite string_app_assoc. by apply starts_with_slash_app.
Qed.
End Paths.

Section ErrorPath.
Variable rt : Runtime.

(** A rollover touches the current file and its numbered backups only. *)
Lemma doRollover_other (base : string) (bc : Z) (f : gmap string string) (p : string) :
  p <> base -> (forall j, p <> backup_name base j) ->
  doRollover base bc f !! p = f !! p.
Proof.
  intros Hp Hslots. unfold doRollover.
  assert (Ho : forall g, _open base g !! p = g !! p).
  { intros g. unfold _open. destruct (g !! base); [done|].
    by rewrite lookup_insert_ne. }
  rewrite Ho. destruct (0 <? bc); [|done].
  rewrite range_down_to_nat.
  destruct (shift_loop_lookup base (Z.to_nat (bc - 1)) f) as (_ & _ & Hc).
  set (f1 := foldl (shift_backup base) f _) in *.
  change (base ++ ".1") with (backup_name base 1).
  assert (H2 : (if os_path_exists (backup_name base 1) f1
                then os_remove (backup_name base 1) f1 else f1) !! p = f !! p).
  { destruct (os_path_exists _ f1).
    - unfold os_remove. rewrite lookup_delete_ne by (intros E; by apply (Hslots 1)).
      apply Hc. intros j _. apply Hslots.
    - apply Hc. intros j _. apply Hslots. }
  destruct (os_path_exists base _); [|done].
  unfold os_rename. destruct (_ !! base); [|done].
  rewrite lookup_insert_ne by (intros E; by apply (Hslots 1)).
  by rewrite lookup_delete_ne.
Qed.

(** The console handler of [_setup_handlers], behind its level test. *)
Lemma console_step (hl lv : Z) (record : LogRecord) (w : World) :
  (if Qle_bool (inject_Z hl) (inject_Z lv)
   then Handler_handle rt
          {| h_level := hl; h_formatter := ConsoleFormatter; h_stream := Stdout |} record
   else ret tt) w =
  if hl <=? lv then
    match ConsoleFormatter_format rt w record with
    | Ok s => (set_stdout (fun l => (l ++ [(s ++ NL)%string])%list) w, Ok tt)
    | Raise e =>
        if exc_is_RecursionError e then (w, Raise e)
        else if exc_is_Exception e then (set_stderr (fun l => (l ++ [e])%list) w, Ok tt)
        else (w, Raise e)
    end
  else (w, Ok tt).
Proof.
  rewrite Qle_bool_inject_Z. destruct (hl <=? lv); [|done].
  unfold Handler_handle, StreamHandler_emit. cbn.
  by destruct (ConsoleFormatter_format rt w record).
Qed.

(** One of the two file handlers of [_setup_handlers], behind its level
    test, on a record that renders: the line written is the rendering at
    a reading of the clock taken by this handler. *)
Lemma file_step_renders (hl : Z) (base : string) (max bc lv : Z)
    (record : LogRecord) (w : World) :
  (forall now, exists s, StructuredFormatter_format_at rt now record = Ok s) ->
  exists w',
    (if Qle_bool (inject_Z hl) (inject_Z lv)
     then Handler_handle rt
            {| h_level := hl; h_formatter := StructuredFormatter;
               h_stream := RotatingFile base max bc |} record
     else ret tt) w = (w', Ok tt) /\
    same_env w w' /\ stdout w' = stdout w /\ stderr w' = stderr w /\
    (if hl <=? lv
     then exists c n line,
            (ticks w <= n < ticks w')%nat /\
            StructuredFormatter_format_at rt (clock rt n) record = Ok line /\
            fs w' !! base = Some (c ++ line ++ NL)
     else w' = w) /\
    (forall p, p <> base -> (forall j, p <> backup_name base j) ->
       fs w' !! p = fs w !! p).
Proof.
  intros Hr. rewrite Qle_bool_inject_Z. destruct (hl <=? lv).
  - unfold Handler_handle. cbn [h_stream h_formatter].
    destruct (Hr (clock rt (ticks w))) as [s Hs].
    destruct (rotating_emit_Ok rt StructuredFormatter base max bc record w s Hs)
      as (s' & Hs' & ->).
    set (measured := (0 <? max) && _) in *.
    set (w1 := if measured then _ else w) in *.
    assert (Hw1 : same_env w w1 /\ fs w1 = fs w /\ stdout w1 = stdout w /\
                  stderr w1 = stderr w /\ (ticks w <= ticks w1)%nat).
    { subst w1. destruct measured; cbn; repeat split; try done; unfold tick; cbn; lia. }
    destruct Hw1 as (Henv1 & Hfs1 & Hout1 & Herr1 & Ht1).
    eexists. split; [reflexivity|].
    split.
    { eapply same_env_trans; [exact Henv1|].
      eapply same_env_trans; [apply (Formatter_format_env rt StructuredFormatter)|].
      apply same_env_set_fs. }
    split; [done|]. split; [done|]. split.
    + eexists _, (ticks w1), s'. split; [unfold tick; cbn; lia|]. split; [exact Hs'|].
      cbn [fst fs set_fs Formatter_format StructuredFormatter_format]. unfold stream_write.
      by rewrite lookup_insert_eq.
    + intros p Hp Hslots. cbn. unfold stream_write.
      rewrite lookup_insert_ne by done. rewrite Hfs1.
      destruct (measured && _); [by apply doRollover_other|done].
  - exists w. split; [done|]. split; [apply same_env_refl|]. done.
Qed.

(** The same handler on a record whose rendering raises an instance of
    [Exception]: one report, no write and no rollover. *)
Lemma file_step_fails (hl : Z) (base : string) (max bc lv : Z)
    (record : LogRecord) (w : World) (e : Exc) (now : Q) :
  StructuredFormatter_format_at rt now record = Raise e ->
  exc_is_Exception e = true ->
  exists w',
    (if Qle_bool (inject_Z hl) (inject_Z lv)
     then Handler_handle rt
            {| h_level := hl; h_formatter := StructuredFormatter;
               h_stream := RotatingFile base max bc |} record
     else ret tt) w = (w', Ok tt) /\
    same_env w w' /\ fs w' = fs w /\ stdout w' = stdout w /\
    stderr w' = (stderr w ++ if hl <=? lv then [e] else [])%list.
Proof.
  intros Hf He. rewrite Qle_bool_inject_Z. destruct (hl <=? lv).
  - unfold Handler_handle. cbn [h_stream h_formatter].
    destruct (rotating_emit_Raise rt StructuredFormatter base max bc record w e)
      as (w0 & Henv & Hfs & Hout & Herr & ->).
    { cbn. by apply (format_at_Raise rt now). }
    rewrite He. eexists. split; [reflexivity|].
    split; [eapply same_env_trans; [exact Henv|by repeat split]|].
    cbn. by rewrite Herr.
  - exists w. split; [done|]. split; [apply same_env_refl|].
    by rewrite app_nil_r.
Qed.

(** Dispatch by the three handlers of [_setup_handlers], one level test
    and one handler after the other. *)
Lemma callHandlers_handlers_of (name' : string) (lv : Z) (dir : string) (max bc : Z)
    (record : LogRecord) (level : Z) :
  getattr record "levelno" = Ok (VInt level) ->
  callHandlers rt (handlers_of name' lv dir max bc) record =
    ((if Qle_bool (inject_Z lv) (inject_Z level)
      then Handler_handle rt
             {| h_level := lv; h_formatter := ConsoleFormatter; h_stream := Stdout |}
             record
      else ret tt) ;;;
     (if Qle_bool (inject_Z DEBUG) (inject_Z level)
      then Handler_handle rt
             {| h_level := DEBUG; h_formatter := StructuredFormatter;
                h_stream := RotatingFile (os_path_join dir (name' ++ ".log")) max bc |}
             record
      else ret tt) ;;;
     (if Qle_bool (inject_Z ERROR) (inject_Z level)
      then Handler_handle rt
             {| h_level := ERROR; h_formatter := StructuredFormatter;
                h_stream := RotatingFile (os_path_join dir (name' ++ "_errors.log"))
                              max bc |}
             record
      else ret tt) ;;;
     ret tt).
Proof.
  intros Hlv. unfold handlers_of. cbn [callHandlers].
  unfold bind, lift. rewrite Hlv. reflexivity.
Qed.

Lemma record_levelno_fresh (self : AdvancedLogger) (level : Z) (message : string)
    (exc_info : pyval) (kwargs : list (string * pyval)) (w : World) :
  Forall fresh_key kwargs.*1 ->
  getattr (record_of rt self level message exc_info kwargs w) "levelno"
    = Ok (VInt level).
Proof.
  intros Hfresh. unfold record_of, getattr.
  rewrite attach_fields_get_other by (notin_fresh Hfresh).
  unfold ambient_record, makeRecord, attach_context, get_context, time_time,
    bind, gets, ret.
  cbv beta. cbn [tick contexts set_ticks].
  destruct (contexts w !! self_id self); reflexivity.
Qed.


Lemma slot_entries_level (self : AdvancedLogger) (level : Z) (message : string)
    (exception : option Exc) (duration : option pyval) (now : Q) (w : World) :
  dict_get "level" (slot_entries rt self level message exception duration now w)
    = Some (VStr (getLevelName level)).
Proof.
  unfold slot_entries.
  destruct (contexts w !! self_id self), exception, duration; reflexivity.
Qed.


End ErrorPath.

Section Singleton.

Lemma AdvancedLogger_init_ok (name' log_level' log_dir' : string)
    (max_file_size backup_count level : Z) (w : World) :
  logging_level (upper log_level') = Ok level ->
  exists l w',
    AdvancedLogger_init name' log_level' log_dir' max_file_size backup_count w
      = (w', Ok l) /\
    name l = name' /\ self_id l = next_id w /\ log_level l = level /\
    log_dir l = log_dir' /\
    lg_handlers (logger l) =
      handlers_of name' level log_dir' max_file_size backup_count /\
    next_id w' = S (next_id w) /\ _default_logger w' = _default_logger w.
Proof.
  intros Hlevel.
  unfold AdvancedLogger_init, _setup_handlers, bind, gets, modify, lift, ret.
  rewrite Hlevel. eexists _, _. split; [reflexivity|]. by repeat split.
Qed.

Lemma AdvancedLogger_new_name (name' : string) (kwargs : list (string * pyval))
    (w w' : World) (l : AdvancedLogger) :
  AdvancedLogger_new name' kwargs w = (w', Ok l) ->
  name l = name' /\ self_id l = next_id w /\ _default_logger w' = _default_logger w.
Proof.
  unfold AdvancedLogger_new, bind, lift.
  destruct (bind_init_kwargs kwargs) as [[[[ll d] m] b]|e]; [|done].
  unfold AdvancedLogger_init, _setup_handlers, bind, gets, modify, lift, ret.
  destruct (logging_level (upper ll)) as [z|e]; [|done].
  intros [= <- <-]. done.
Qed.

(** C10. A call whose name is that of the cached logger returns the
    cached instance and changes nothing, whatever its keyword arguments.
    Otherwise, when the keyword arguments bind and name a known level, a
    new instance is constructed under an identity not used before, with
    the requested name, and becomes the cached one. Whenever a call
    returns a logger, that logger has the requested name and is the cached
    one, and every later call with this name returns it again, unchanged
    world and all. *)
Theorem get_logger_caches_by_name (name' : string) (kwargs : list (string * pyval))
    (w : World) :
  (forall l, _default_logger w = Some l -> name l = name' ->
     get_logger name' kwargs w = (w, Ok l)) /\
  (forall log_level' log_dir' max_file_size backup_count level,
     (forall l, _default_logger w = Some l -> name l <> name') ->
     bind_init_kwargs kwargs = Ok (log_level', log_dir', max_file_size, backup_count) ->
     logging_level (upper log_level') = Ok level ->
     exists l w',
       get_logger name' kwargs w = (w', Ok l) /\
       name l = name' /\ self_id l = next_id w /\ next_id w' = S (next_id w) /\
       log_level l = level /\ log_dir l = log_dir' /\
       _default_logger w' = Some l) /\
  (forall l w',
     get_logger name' kwargs w = (w', Ok l) ->
     name l = name' /\ _default_logger w' = Some l /\
     forall kwargs', get_logger name' kwargs' w' = (w', Ok l)).
Proof.
  assert (Hhit : forall kw w0 l, _default_logger w0 = Some l -> name l = name' ->
            get_logger name' kw w0 = (w0, Ok l)).
  { intros kw w0 l Hc Hn. unfold get_logger, bind, gets. rewrite Hc.
    by rewrite decide_True. }
  split; [apply Hhit|]. split.
  - intros ll d m b level Hmiss Hbind Hlevel.
    destruct (AdvancedLogger_init_ok name' ll d m b level w Hlevel)
      as (l & w1 & Hinit & Hn & Hid & Hl & Hd & _ & Hnext & _).
    exists l, (set_default_logger (Some l) w1).
    split; [|by repeat split].
    assert (Hnew : AdvancedLogger_new name' kwargs w = (w1, Ok l)).
    { unfold AdvancedLogger_new, bind, lift. by rewrite Hbind. }
    unfold get_logger, bind, gets, modify, ret.
    destruct (_default_logger w) as [l0|] eqn:Hc.
    + rewrite decide_False by (by apply Hmiss). by rewrite Hnew.
    + by rewrite Hnew.
  - intros l w' Hget.
    assert (Hres : name l = name' /\ _default_logger w' = Some l).
    { unfold get_logger, bind, gets, modify, ret in Hget.
      destruct (_default_logger w) as [l0|] eqn:Hc.
      - destruct (decide (name l0 = name')) as [Hn|Hn].
        + by injection Hget as <- <-.
        + destruct (AdvancedLogger_new name' kwargs w) as [w1 [l1|e]] eqn:Hnew; [|done].
          injection Hget as <- <-. split; [|done].
          by apply AdvancedLogger_new_name in Hnew as [? _].
      - destruct (AdvancedLogger_new name' kwargs w) as [w1 [l1|e]] eqn:Hnew; [|done].
        injection Hget as <- <-. split; [|done].
        by apply AdvancedLogger_new_name in Hnew as [? _]. }
    destruct Hres as [Hn Hc]. split; [done|]. split; [done|].
    intros kw. by apply Hhit.
Qed.
End Singleton.

(** * Concrete runs *)

Lemma demo_logger_constructed :
  AdvancedLogger_init "app" "INFO" "logs" 100 2 empty_world = (demo_world, Ok demo_logger).
Proof. reflexivity. Qed.

(** C3. With [log_level="INFO"], [debug("x")] builds a DEBUG record and
    hands it to the handlers without consulting the level of the facade:
    the console handler, whose own level is INFO, drops it, but the
    all-levels file handler, whose own level is DEBUG, writes it. *)
Lemma debug_below_level_reaches_file :
  log_level demo_logger = INFO /\
  DEBUG < log_level demo_logger /\
  let w' := (debug demo_runtime demo_logger "x" [] demo_world).1 in
  fs demo_world !! "logs/app.log" = Some "" /\
  fs w' !! "logs/app.log" = Some ("{json}" ++ NL) /\
  fs w' !! "logs/app_errors.log" = Some "" /\
  stdout w' = [].
Proof. vm_compute. repeat split. Qed.

Lemma demo_uuid4_inj : Inj (=) (=) (uuid4 demo_runtime).
Proof.
  intros n m H. cbn in H.
  apply (inj (String.append "uuid-")) in H. by apply (inj pretty) in H.
Qed.

Lemma plain_key_literal (k : string) :
  bool_decide (k ∉ reserved_names) && bool_decide (k ∉ record_attributes)
    && bool_decide (k ∉ ["self"; "level"; "message"; "exception"]) = true ->
  plain_key k.
Proof.
  intros H. apply andb_true_iff in H as [H H3]. apply andb_true_iff in H as [H1 H2].
  apply bool_decide_eq_true in H1, H2, H3. by repeat split.
Qed.

(** Each handler renders the record for itself, the clock being read at
    every rendering: on a runtime whose JSON text shows the timestamp,
    one [error] call leaves two different lines in the two files. *)
Lemma error_lines_carry_their_own_timestamps :
  let rt :=
    {| uuid4 := uuid4 demo_runtime;
       clock := clock demo_runtime;
       nesting_spare := nesting_spare demo_runtime;
       isoformat := fun q => pretty (Qnum q);
       strftime := strftime demo_runtime;
       format_2f := format_2f demo_runtime;
       repr_text := repr_text demo_runtime;
       json_text := fun j =>
         match j with
         | JObj (("timestamp", JStr s) :: _) => s
         | _ => "?"
         end;
       percent_format := percent_format demo_runtime;
       rollover_skips_empty := false;
       thread_ident := thread_ident demo_runtime;
       thread_name := thread_name demo_runtime;
       process_name := process_name demo_runtime;
       process_id := process_id demo_runtime;
       start_time := start_time demo_runtime |} in
  let w' := (error rt demo_logger "x" (VExc demo_error) [] demo_world).1 in
  fs w' !! "logs/app.log" = Some ("2Z" ++ NL) /\
  fs w' !! "logs/app_errors.log" = Some ("4Z" ++ NL).
Proof. vm_compute. repeat split. Qed.

(** ** Witnesses *)

Lemma caller_fields_attached_verbatim_witness :
  NoDup ["port"] /\
  Forall (fun k => ordinary_name k = true) ["port"] /\
  getattr (record_of demo_runtime demo_logger INFO "x" VNone [("port", VInt 8080)] demo_world)
    "port" = Ok (VInt 8080) /\
  exists log_entry,
    StructuredFormatter_log_entry demo_runtime 0
      (record_of demo_runtime demo_logger INFO "x" VNone [("port", VInt 8080)] demo_world)
      = Ok log_entry /\
    dict_get "level" log_entry = Some (VStr "INFO") /\
    dict_get "port" log_entry = Some (VInt 8080).
Proof.
  assert (Hnd : NoDup ["port"]) by compute_done.
  assert (Hord : Forall (fun k => ordinary_name k = true) ["port"])
    by (repeat constructor).
  split; [exact Hnd|]. split; [exact Hord|].
  destruct (caller_fields_attached_verbatim demo_runtime demo_logger INFO "x"
              [("port", VInt 8080)] demo_world Hnd Hord) as (_ & Hattr & Hentry).
  split; [apply Hattr; left|].
  assert (Hplain : Forall plain_key [("port", VInt 8080)].*1)
    by (repeat constructor; by apply plain_key_literal).
  destruct (Hentry Hplain 0%Q) as (log_entry & Hfmt & Hres & Hfield).
  exists log_entry. split; [exact Hfmt|]. split.
  - rewrite Hres by compute_done. reflexivity.
  - apply Hfield. left.
Defined.

Lemma rotating_sink_rolls_once_and_retains_witness :
  (Formatter_format demo_runtime StructuredFormatter demo_record demo_world_filled).2
    = Ok "{json}" /\
  fs demo_world_filled !! "logs/app.log" = Some "12345678" /\
  0 < 10 /\
  10 < Z.of_nat (String.length "12345678") + Z.of_nat (String.length ("{json}" ++ NL)) /\
  let w' := (RotatingFileHandler_emit demo_runtime StructuredFormatter "logs/app.log"
               10 2 demo_record demo_world_filled).1 in
  exists s',
    fs w' !! "logs/app.log" = Some (s' ++ NL) /\
    fs w' !! backup_name "logs/app.log" 1 = Some "12345678".
Proof.
  assert (H1 : (Formatter_format demo_runtime StructuredFormatter demo_record
                  demo_world_filled).2 = Ok "{json}") by reflexivity.
  assert (H2 : fs demo_world_filled !! "logs/app.log" = Some "12345678") by reflexivity.
  assert (H3 : 0 < 10) by lia.
  assert (H4 : 10 < Z.of_nat (String.length "12345678")
                    + Z.of_nat (String.length ("{json}" ++ NL))) by (vm_compute; reflexivity).
  split; [exact H1|]. split; [exact H2|]. split; [exact H3|]. split; [exact H4|].
  assert (H5 : rollover_skips_empty demo_runtime = true -> "12345678" <> "")
    by (intros Hskip; discriminate Hskip).
  assert (H6 : 0 < 2) by lia.
  destruct (rotating_sink_rolls_once_and_retains demo_runtime StructuredFormatter
              "logs/app.log" 10 2 demo_record demo_world_filled "{json}" "12345678"
              H1 H2 H3 H5 H4) as (s' & _ & _ & Hroll & _).
  destruct (Hroll H6) as (Hb & H1' & _). exists s'. split; [exact Hb|exact H1'].
Defined.


Lemma context_yields_active_id_witness :
  Inj (=) (=) (uuid4 demo_runtime) /\
  exists (new_context : LogContext) (w1 : World),
    context demo_runtime demo_logger {["user_id" := "u1"]} (fun cid => ret cid) demo_world
      = try_finally (ret (correlation_id new_context)) (restore demo_logger None) w1 /\
    (get_context demo_logger w1).2 = Ok (Some new_context) /\
    correlation_id new_context = "uuid-0".
Proof.
  split; [exact demo_uuid4_inj|].
  assert (Hdom : forall k, k ∈ dom ({["user_id" := "u1"]} : gmap string string) ->
                   k ∈ LogContext_fields).
  { intros k Hk. rewrite dom_singleton_L in Hk. apply elem_of_singleton in Hk.
    subst k. compute_done. }
  destruct (@context_yields_active_id demo_runtime string demo_logger
              {["user_id" := "u1"]} (fun cid => ret cid) demo_world demo_uuid4_inj Hdom)
    as (c & w1 & Hrun & Hctx & Hid).
  exists c, w1. split; [exact Hrun|]. split; [exact Hctx|].
  change (({["user_id" := "u1"]} : gmap string string) !! "correlation_id")
    with (@None string) in Hid.
  by destruct Hid as (-> & _).
Defined.


Lemma context_rejects_unknown_field_witness :
  ("tenant" ∈ dom ({["tenant" := "t1"]} : gmap string string)) /\
  ("tenant" ∉ LogContext_fields) /\
  exists (w' : World) (msg : string),
    context demo_runtime demo_logger {["tenant" := "t1"]} (fun cid => ret cid) demo_world
      = (w', Raise (TypeError msg)) /\
    (get_context demo_logger w').2 = (get_context demo_logger demo_world).2.
Proof.
  assert (H1 : "tenant" ∈ dom ({["tenant" := "t1"]} : gmap string string)).
  { rewrite dom_singleton_L. by apply elem_of_singleton. }
  assert (H2 : "tenant" ∉ LogContext_fields) by compute_done.
  split; [exact H1|]. split; [exact H2|].
  destruct (@context_rejects_unknown_field demo_runtime string demo_logger
              {["tenant" := "t1"]} (fun cid => ret cid) demo_world "tenant" H1 H2)
    as (w' & msg & Hrun & _ & Hctx).
  exists w', msg. split; [exact Hrun|exact Hctx].
Defined.

Lemma get_logger_caches_by_name_witness :
  bind_init_kwargs [("log_level", VStr "DEBUG")] = Ok ("DEBUG", "logs", 10485760, 5) /\
  logging_level (upper "DEBUG") = Ok 10 /\
  exists l w',
    get_logger "demo" [("log_level", VStr "DEBUG")] empty_world = (w', Ok l) /\
    name l = "demo" /\ self_id l = 0%nat /\ log_level l = 10 /\
    _default_logger w' = Some l.
Proof.
  assert (H1 : bind_init_kwargs [("log_level", VStr "DEBUG")]
                 = Ok ("DEBUG", "logs", 10485760, 5)) by reflexivity.
  assert (H2 : logging_level (upper "DEBUG") = Ok 10) by reflexivity.
  split; [exact H1|]. split; [exact H2|].
  destruct (get_logger_caches_by_name "demo" [("log_level", VStr "DEBUG")] empty_world)
    as (_ & Hmiss & _).
  assert (H0 : forall l, _default_logger empty_world = Some l -> name l <> "demo")
    by (intros l Hl; discriminate Hl).
  destruct (Hmiss "DEBUG" "logs" 10485760 5 10 H0 H1 H2)
    as (l & w' & Hget & Hn & Hid & _ & Hl & _ & Hc).
  exists l, w'. split; [exact Hget|]. split; [exact Hn|]. split; [exact Hid|].
  split; [exact Hl|exact Hc].
Defined.

(** ** Counterexamples to the claims as stated *)

(** C2 as stated fails: [info("x", timestamp="evil")] attaches a field whose
    name is reserved, and the structured output takes its [timestamp] from
    that field, not from the clock. A field that is named after an
    attribute of the record does as much without bearing a reserved name:
    with [levelname="LOUD"] the [level] entry is the caller's text. *)
Lemma reserved_field_overrides_slot :
  (let kwargs := [("timestamp", VStr "evil")] in
   let record := record_of demo_runtime demo_logger INFO "x" VNone kwargs demo_world in
   ("timestamp" ∈ reserved_names) /\
   info demo_runtime demo_logger "x" kwargs demo_world
     = Logger_handle demo_runtime (logger demo_logger) record (tick demo_world) /\
   getattr record "timestamp" = Ok (VStr "evil") /\
   dict_get "timestamp"
     (slot_entries demo_runtime demo_logger INFO "x" None None 0 demo_world)
     = Some (VStr "2024-01-01T00:00:00Z") /\
   exists log_entry,
     StructuredFormatter_log_entry demo_runtime 0 record = Ok log_entry /\
     dict_get "timestamp" log_entry = Some (VStr "evil")) /\
  (let kwargs := [("levelname", VStr "LOUD")] in
   let record := record_of demo_runtime demo_logger INFO "x" VNone kwargs demo_world in
   ("levelname" ∉ reserved_names) /\
   ("level" ∈ reserved_names) /\
   dict_get "level"
     (slot_entries demo_runtime demo_logger INFO "x" None None 0 demo_world)
     = Some (VStr "INFO") /\
   exists log_entry,
     StructuredFormatter_log_entry demo_runtime 0 record = Ok log_entry /\
     dict_get "level" log_entry = Some (VStr "LOUD")).
Proof.
  cbv zeta. split.
  - split; [compute_done|]. split.
    { apply _log_with_context_handles. repeat constructor. compute_done. }
    split; [reflexivity|].
    split; [reflexivity|]. eexists. split; reflexivity.
  - split; [compute_done|]. split; [compute_done|].
    split; [reflexivity|]. eexists. split; reflexivity.
Qed.

(** C4 as stated fails. With [max_file_size=0] the handler never rolls
    over: a 7-byte line on top of 8 bytes stays in the same file and no
    backup appears. On an interpreter that never rolls over an empty file,
    a 7-byte line for an empty file under [max_file_size=5] is written with
    no rollover either. *)
Lemma no_rollover_when_disabled_or_empty :
  (let w' := (RotatingFileHandler_emit demo_runtime StructuredFormatter "logs/app.log"
                0 2 demo_record demo_world_filled).1 in
   0 < Z.of_nat (String.length "12345678") + Z.of_nat (String.length ("{json}" ++ NL)) /\
   fs w' !! "logs/app.log" = Some ("12345678" ++ "{json}" ++ NL) /\
   fs w' !! backup_name "logs/app.log" 1 = None) /\
  (let w' := (RotatingFileHandler_emit demo_runtime_guarded StructuredFormatter
                "logs/app.log" 5 2 demo_record demo_world).1 in
   fs demo_world !! "logs/app.log" = Some "" /\
   5 < Z.of_nat (String.length "") + Z.of_nat (String.length ("{json}" ++ NL)) /\
   fs w' !! "logs/app.log" = Some ("{json}" ++ NL) /\
   fs w' !! backup_name "logs/app.log" 1 = None).
Proof. vm_compute. repeat split. Qed.

(** C5 as stated fails for an exception outside [Exception]: when the body
    raises KeyboardInterrupt, [timer] emits the "Starting" record only; the
    errors file stays empty and the interrupt passes through. *)
Lemma timer_lets_interrupt_through :
  let run := timer demo_runtime demo_logger "op" (raise demo_interrupt : M unit) demo_world in
  run.2 = Raise demo_interrupt /\
  fs run.1 !! "logs/app.log" = Some ("{json}" ++ NL) /\
  fs run.1 !! "logs/app_errors.log" = Some "".
Proof. vm_compute. repeat split. Qed.



(** * Further properties *)

Section StoreLaws.

(** X1. The context store of one instance: [get_context] reads back what
    [set_context] stored; after [clear_context] it reads [None];
    [clear_context] on an empty slot changes nothing; and neither
    operation is seen through another instance. *)
Theorem context_store_laws (self other : AdvancedLogger) (c : LogContext) (w : World) :
  (get_context self (set_context self c w).1).2 = Ok (Some c) /\
  (get_context self (clear_context self w).1).2 = Ok None /\
  (contexts w !! self_id self = None -> clear_context self w = (w, Ok tt)) /\
  (self_id other <> self_id self ->
     (get_context other (set_context self c w).1).2 = (get_context other w).2 /\
     (get_context other (clear_context self w).1).2 = (get_context other w).2).
Proof.
  unfold get_context, set_context, clear_context, modify, gets. cbn [fst snd].
  split; [|split; [|split]].
  - cbn. by rewrite lookup_insert_eq.
  - case_bool_decide as H; cbn.
    + by rewrite lookup_delete_eq.
    + f_equal. destruct (contexts w !! self_id self) eqn:E; [|done].
      exfalso. apply H. eauto.
  - intros H. rewrite bool_decide_eq_false_2; [done|]. rewrite H. by intros [? ?].
  - intros Hne. split.
    + cbn. by rewrite lookup_insert_ne.
    + case_bool_decide; cbn; [by rewrite lookup_delete_ne|done].
Qed.
End StoreLaws.

Section Scope.
Variable rt : Runtime.

Lemma LogContext_init_fields (kwargs : gmap string string) (cid : string) :
  (forall k, k ∈ dom kwargs -> k ∈ LogContext_fields) ->
  kwargs !! "correlation_id" = Some cid ->
  LogContext_init kwargs =
    Ok {| correlation_id := cid;
          user_id := kwargs !! "user_id";
          session_id := kwargs !! "session_id";
          request_id := kwargs !! "request_id";
          service_name := default "logging-service" (kwargs !! "service_name");
          version := default "1.0.0" (kwargs !! "version") |}.
Proof.
  intros Hdom Hcid. unfold LogContext_init.
  rewrite bool_decide_eq_true_2.
  - by rewrite Hcid.
  - apply Forall_forall. intros k Hk. apply Hdom. by apply elem_of_elements in Hk.
Qed.

Lemma restore_returns (self : AdvancedLogger) (old : option LogContext) (w : World) :
  restore self old w = ((restore self old w).1, Ok tt).
Proof.
  destruct (restore_slot self old w) as (w' & H & _).
  unfold restore. by rewrite H.
Qed.

(** X2. Entered with field names of [LogContext] only, the scope installs a
    context built from the keyword arguments alone: optional fields left
    out are [None], [service_name] and [version] take their defaults, and
    nothing is inherited from the context that was active before. The
    outcome of the [with] block, a value or an exception, is the outcome of
    its body, and the final state is the body's final state with the
    previous context put back. *)
Theorem context_scope_semantics {A} (self : AdvancedLogger)
    (kwargs : gmap string string) (body : string -> M A) (w : World) :
  (forall k, k ∈ dom kwargs -> k ∈ LogContext_fields) ->
  exists (c : LogContext) (w1 : World),
    contexts w1 = <[self_id self := c]> (contexts w) /\
    user_id c = kwargs !! "user_id" /\
    session_id c = kwargs !! "session_id" /\
    request_id c = kwargs !! "request_id" /\
    service_name c = default "logging-service" (kwargs !! "service_name") /\
    version c = default "1.0.0" (kwargs !! "version") /\
    context rt self kwargs body w =
      ((restore self (contexts w !! self_id self) (body (correlation_id c) w1).1).1,
       (body (correlation_id c) w1).2).
Proof.
  intros Hdom.
  assert (Hself : "self" ∉ dom kwargs).
  { intros Hs. apply Hdom in Hs. revert Hs.
    change ("self" ∉ LogContext_fields). by_eval. }
  assert (Hfin : forall (c : LogContext) (w1 : World),
    try_finally (set_context self c ;;; body (correlation_id c))
      (match contexts w !! self_id self with
       | Some c0 => set_context self c0
       | None => clear_context self
       end) w1 =
    ((restore self (contexts w !! self_id self)
        (body (correlation_id c) (set_contexts <[self_id self := c]> w1)).1).1,
     (body (correlation_id c) (set_contexts <[self_id self := c]> w1)).2)).
  { intros c w1. unfold try_finally, bind.
    change (set_context self c w1) with (set_contexts <[self_id self := c]> w1, Ok tt).
    cbv beta iota.
    destruct (body (correlation_id c) _) as [w2 r]. cbn [fst snd].
    fold (restore self (contexts w !! self_id self)).
    by rewrite (restore_returns self (contexts w !! self_id self) w2). }
  unfold context, bind, raise, ret, lift, uuid_uuid4, get_context, gets.
  rewrite bool_decide_eq_false_2 by done.
  destruct (kwargs !! "correlation_id") as [cid|] eqn:Hcid; cbv beta iota.
  - rewrite (LogContext_init_fields kwargs cid Hdom Hcid).
    match goal with
    | |- context [set_context self ?c0] =>
        exists c0, (set_contexts <[self_id self := c0]> w)
    end.
    do 6 (split; [reflexivity|]). apply Hfin.
  - rewrite (LogContext_init_fields
               (<["correlation_id" := uuid4 rt (uuids w)]> kwargs) (uuid4 rt (uuids w))).
    + match goal with
      | |- context [set_context self ?c0] =>
          exists c0, (set_contexts <[self_id self := c0]> (set_uuids (S (uuids w)) w))
      end.
      split; [reflexivity|].
      do 5 (split; [cbn; by rewrite lookup_insert_ne|]).
      apply Hfin.
    + intros k Hk. apply elem_of_dom in Hk.
      destruct (decide (k = "correlation_id")) as [->|Hne].
      * by_eval.
      * rewrite lookup_insert_ne in Hk by done. apply Hdom. by apply elem_of_dom.
    + apply lookup_insert_eq.
Qed.
End Scope.

Section Rendering.
Variable rt : Runtime.

Lemma to_json_py_opt (room : nat) (o : option string) :
  to_json rt room (py_opt o) = Ok (json_opt o).
Proof. by destruct o. Qed.

Lemma slot_entries_context (self : AdvancedLogger) (level : Z) (message : string)
    (exception : option Exc) (duration : option pyval) (now : Q) (w : World) :
  dict_get "context" (slot_entries rt self level message exception duration now w)
    = (fun c => VDict [(KStr "correlation_id", VStr (correlation_id c));
                       (KStr "user_id", py_opt (user_id c));
                       (KStr "session_id", py_opt (session_id c));
                       (KStr "request_id", py_opt (request_id c));
                       (KStr "service_name", VStr (service_name c));
                       (KStr "version", VStr (version c))])
        <$> (contexts w !! self_id self) /\
  dict_get "correlation_id" (slot_entries rt self level message exception duration now w)
    = (fun c => VStr (correlation_id c)) <$> (contexts w !! self_id self).
Proof.
  unfold slot_entries.
  destruct (contexts w !! self_id self), exception, duration; split; reflexivity.
Qed.

Lemma field_key_not_params (ks : list string) :
  Forall field_key ks -> Forall (fun k => k ∉ ["self"; "level"; "message"]) ks.
Proof.
  intros H. eapply Forall_impl; [exact H|]. intros k ((_ & _ & Hk) & _) Hin. apply Hk.
  revert Hin. rewrite !elem_of_cons.
  intros [->|[->|[->|H']]]; try compute_done. by apply elem_of_nil in H'.
Qed.

Lemma field_key_no_duration (ks : list string) :
  Forall field_key ks -> "duration" ∉ ks.
Proof.
  intros H. apply not_plain_notin with (2 := Forall_field_key_plain ks H).
  intros (Hr & _). apply Hr. compute_done.
Qed.

(** The members of the object printed for a record with plain, ordinary
    field names: the slot entries, with the caller's fields after them. *)
Lemma format_members_field (self : AdvancedLogger) (level : Z) (message : string)
    (exception : option Exc) (kwargs : list (string * pyval)) (w : World) (now : Q) :
  Forall field_key kwargs.*1 ->
  Forall (fun v => encodable rt v = true) kwargs.*2 ->
  let record := record_of rt self level message (exc_info_slot exception) kwargs w in
  exists members,
    to_json_members rt (members_room rt)
      (add_extra_fields record
         (slot_entries rt self level message exception None now w))
      = Ok members /\
    StructuredFormatter_format_at rt now record = Ok (json_text rt (JObj members)).
Proof.
  intros Hfield Henc record.
  destruct (format_members rt self level message exception kwargs w now
              (Forall_field_key_fresh _ Hfield) Henc) as (members & Hms & Hfmt).
  fold record in Hms, Hfmt.
  assert (Hd : dict_get "duration" record = None)
    by (by apply record_of_duration_None, field_key_no_duration).
  rewrite Hd in Hms. eauto.
Qed.

(** X3. A record logged while a context is active carries it: the structured
    line has a [correlation_id] entry with the id of the active context
    and a [context] object with its six fields in declaration order,
    absent optional fields as [null]. With no context active the line has
    neither entry. *)
Theorem record_carries_active_context (self : AdvancedLogger) (level : Z)
    (message : string) (kwargs : list (string * pyval)) (w : World) (now : Q) :
  Forall field_key kwargs.*1 ->
  Forall (fun v => encodable rt v = true) kwargs.*2 ->
  let record := record_of rt self level message VNone kwargs w in
  exists members,
    _log_with_context rt self level message kwargs w =
      Logger_handle rt (logger self) record (tick w) /\
    StructuredFormatter_format_at rt now record = Ok (json_text rt (JObj members)) /\
    dict_get "correlation_id" members =
      (fun c => JStr (correlation_id c)) <$> (contexts w !! self_id self) /\
    dict_get "context" members = context_object <$> (contexts w !! self_id self).
Proof.
  intros Hfield Henc record.
  destruct (format_members_field self level message None kwargs w now Hfield Henc)
    as (members & Hms & Hfmt).
  change (exc_info_slot None) with VNone in Hms, Hfmt. fold record in Hms, Hfmt.
  exists members. split; [|split; [exact Hfmt|]].
  { apply _log_with_context_handles. by apply field_key_not_params. }
  destruct (slot_entries_context self level message None None now w) as [Hctx Hcid].
  assert (Hget : forall k, k ∈ excluded_keys ->
            dict_get k (add_extra_fields record
                          (slot_entries rt self level message None None now w))
            = dict_get k (slot_entries rt self level message None None now w)).
  { intros k Hk. rewrite add_extra_fields_get by apply record_of_NoDup.
    by rewrite bool_decide_eq_true_2. }
  split.
  - destruct (contexts w !! self_id self) as [c|] eqn:Ec; cbn [fmap option_fmap option_map] in *.
    + edestruct (to_json_members_get rt) as (j & Hj & ->);
        [exact Hms|rewrite Hget by compute_done; exact Hcid|].
      cbn in Hj. by injection Hj as <-.
    + apply (to_json_members_get_None rt _ _ _ _ Hms).
      rewrite Hget by compute_done. exact Hcid.
  - destruct (contexts w !! self_id self) as [c|] eqn:Ec; cbn [fmap option_fmap option_map] in *.
    + edestruct (to_json_members_get rt) as (j & Hj & ->);
        [exact Hms|rewrite Hget by compute_done; exact Hctx|].
      unfold members_room in Hj.
      cbn [to_json json_key] in Hj. rewrite !to_json_py_opt in Hj.
      by injection Hj as <-.
    + apply (to_json_members_get_None rt _ _ _ _ Hms).
      rewrite Hget by compute_done. exact Hctx.
Qed.

(** X4. The console line of a record with plain, ordinary field names:
    the time of the record, the level name padded to eight columns, the
    logger name and the message, wrapped in the colour of the level and
    the reset code only when stdout is a terminal, followed by the first
    eight characters of the active correlation id when there is one.
    Neither the caller's fields nor an exception attached by [error]
    appear on the console. *)
Theorem console_line_shape (self : AdvancedLogger) (level : Z) (message : string)
    (exception : option Exc) (kwargs : list (string * pyval)) (w w0 : World) :
  Forall field_key kwargs.*1 ->
  let record := record_of rt self level message (exc_info_slot exception) kwargs w in
  let lvname := getLevelName level in
  let color := if isatty w0 then default "" (dict_get lvname COLORS) else "" in
  let reset := if isatty w0 then RESET else "" in
  let formatted :=
    color ++ "[" ++ strftime rt (clock rt (ticks w)) ++ "] "
          ++ (lvname ++ spaces (8 - String.length lvname)) ++ " "
          ++ lg_name (logger self) ++ ": " ++ message ++ reset in
  ConsoleFormatter_format rt w0 record =
    Ok match contexts w !! self_id self with
       | Some c => formatted ++ " [ID: " ++ String.substring 0 8 (correlation_id c) ++ "]"
       | None => formatted
       end.
Proof.
  intros Hfield.
  pose proof (Forall_field_key_fresh _ Hfield) as Hfresh.
  pose proof (field_key_no_duration _ Hfield) as Hdur.
  cbv zeta.
  unfold record_of, ConsoleFormatter_format, getMessage, hasattr, dict_has, getattr.
  rewrite (attach_fields_get_other _ _ "duration") by done.
  rewrite !attach_fields_get_other by (notin_fresh Hfresh).
  unfold ambient_record, makeRecord, attach_context, get_context, time_time,
    bind, gets, ret.
  cbv beta. cbn [tick contexts set_ticks].
  destruct (contexts w !! self_id self) as [c|], exception as [e|], (isatty w0);
    reflexivity.
Qed.

Lemma slot_entries_base (self : AdvancedLogger) (level : Z) (message : string)
    (exception : option Exc) (duration : option pyval) (now : Q) (w : World) :
  let slots := slot_entries rt self level message exception duration now w in
  dict_get "timestamp" slots = Some (VStr (isoformat rt now ++ "Z")) /\
  dict_get "logger" slots = Some (VStr (lg_name (logger self))) /\
  dict_get "message" slots = Some (VStr message) /\
  dict_get "module" slots = Some (VStr "") /\
  dict_get "function" slots = Some VNone /\
  dict_get "line" slots = Some (VInt 0).
Proof.
  unfold slot_entries.
  destruct (contexts w !! self_id self), exception, duration; repeat split; reflexivity.
Qed.

(** X5. The seven entries every structured line starts with, for a record
    with plain, ordinary field names and encodable values: the time of
    formatting followed by [Z], the name of the level, the name of the
    logger and the message exactly as passed (per cent signs are not
    interpreted, since no arguments go with it). The call site is not
    recorded: [module] is always the empty string, [function] always
    [null] and [line] always 0. *)
Theorem base_entries_of_record (self : AdvancedLogger) (level : Z)
    (message : string) (exception : option Exc)
    (kwargs : list (string * pyval)) (w : World) (now : Q) :
  Forall field_key kwargs.*1 ->
  Forall (fun v => encodable rt v = true) kwargs.*2 ->
  let record := record_of rt self level message (exc_info_slot exception) kwargs w in
  exists members,
    StructuredFormatter_format_at rt now record = Ok (json_text rt (JObj members)) /\
    dict_get "timestamp" members = Some (JStr (isoformat rt now ++ "Z")) /\
    dict_get "level" members = Some (JStr (getLevelName level)) /\
    dict_get "logger" members = Some (JStr (lg_name (logger self))) /\
    dict_get "message" members = Some (JStr message) /\
    dict_get "module" members = Some (JStr "") /\
    dict_get "function" members = Some JNull /\
    dict_get "line" members = Some (JInt 0).
Proof.
  intros Hfield Henc record.
  pose proof (Forall_field_key_plain _ Hfield) as Hplain.
  destruct (format_members_field self level message exception kwargs w now Hfield Henc)
    as (members & Hms & Hfmt).
  fold record in Hms, Hfmt.
  exists members. split; [exact Hfmt|].
  destruct (slot_entries_base self level message exception None now w)
    as (Hts & Hlg & Hmsg & Hmod & Hfun & Hline).
  pose proof (slot_entries_level rt self level message exception None now w) as Hlv.
  assert (Hget : forall k v, ~ plain_key k ->
            dict_get k (slot_entries rt self level message exception None now w) = Some v ->
            exists j, to_json rt (members_room rt) v = Ok j /\ dict_get k members = Some j).
  { intros k v Hk Hslot. apply (to_json_members_get rt _ _ _ k v Hms).
    rewrite add_extra_fields_get by apply record_of_NoDup.
    case_bool_decide as Hex; [exact Hslot|].
    unfold record, record_of.
    rewrite attach_fields_get_other by (by apply not_plain_notin with (2 := Hplain)).
    by rewrite ambient_record_get_unreserved. }
  split; [|split; [|split; [|split; [|split; [|split]]]]].
  - destruct (Hget "timestamp" _ ltac:(not_plain) Hts) as (j & Hj & ->). by injection Hj as <-.
  - destruct (Hget "level" _ ltac:(not_plain) Hlv) as (j & Hj & ->). by injection Hj as <-.
  - destruct (Hget "logger" _ ltac:(not_plain) Hlg) as (j & Hj & ->). by injection Hj as <-.
  - destruct (Hget "message" _ ltac:(not_plain) Hmsg) as (j & Hj & ->). by injection Hj as <-.
  - destruct (Hget "module" _ ltac:(not_plain) Hmod) as (j & Hj & ->). by injection Hj as <-.
  - destruct (Hget "function" _ ltac:(not_plain) Hfun) as (j & Hj & ->). by injection Hj as <-.
  - destruct (Hget "line" _ ltac:(not_plain) Hline) as (j & Hj & ->).
    cbn in Hj. rewrite int_repr_fits in Hj by apply int_fits_0. by injection Hj as <-.
Qed.
End Rendering.

Section Dispatch.
Variable rt : Runtime.

(** With plain, ordinary field names the console formatter returns a
    line, the same whenever it is called. *)
Lemma console_renders_field (self : AdvancedLogger) (level : Z) (message : string)
    (exception : option Exc) (kwargs : list (string * pyval)) (w w0 : World) :
  Forall field_key kwargs.*1 ->
  isatty w0 = isatty w ->
  exists s,
    ConsoleFormatter_format rt w
      (record_of rt self level message (exc_info_slot exception) kwargs w) = Ok s /\
    ConsoleFormatter_format rt w0
      (record_of rt self level message (exc_info_slot exception) kwargs w) = Ok s.
Proof.
  intros Hfield Htty.
  pose proof (Forall_field_key_fresh _ Hfield) as Hfresh.
  pose proof (field_key_no_duration _ Hfield) as Hdur.
  unfold record_of, ConsoleFormatter_format, getMessage, hasattr, dict_has, getattr.
  rewrite (attach_fields_get_other _ _ "duration") by done.
  rewrite !attach_fields_get_other by (notin_fresh Hfresh).
  unfold ambient_record, makeRecord, attach_context, get_context, time_time,
    bind, gets, ret.
  cbv beta. cbn [tick contexts set_ticks]. rewrite Htty.
  destruct (contexts w !! self_id self) as [c|], exception as [e|], (isatty w);
    eexists; split; reflexivity.
Qed.

(** X6. A record with plain, ordinary field names and encodable values,
    on a logger with the handlers of [_setup_handlers], goes to each sink
    by that sink's own threshold: the console prints its line when the
    level is at least the level the logger was built with; the all-levels
    file receives a structured rendering of the record as its last line
    when the level is at least DEBUG, and so does the errors file when the
    level is at least ERROR, each handler rendering the record for itself
    at a reading of the clock of its own; a file whose handler does not
    admit the level is untouched. Nothing is reported on stderr. *)
Theorem dispatch_by_handler_level (self : AdvancedLogger)
    (name' : string) (lv : Z) (dir : string) (max bc : Z)
    (level : Z) (message : string) (kwargs : list (string * pyval)) (w : World) :
  lg_handlers (logger self) = handlers_of name' lv dir max bc ->
  Forall field_key kwargs.*1 ->
  Forall (fun v => encodable rt v = true) kwargs.*2 ->
  let record := record_of rt self level message VNone kwargs w in
  let all := os_path_join dir (name' ++ ".log") in
  let err := os_path_join dir (name' ++ "_errors.log") in
  exists cline w',
    ConsoleFormatter_format rt w record = Ok cline /\
    _log_with_context rt self level message kwargs w = (w', Ok tt) /\
    stdout w' = (if lv <=? level then stdout w ++ [(cline ++ NL)%string] else stdout w)%list /\
    (if DEBUG <=? level
     then exists c n line,
            (ticks w < n < ticks w')%nat /\
            StructuredFormatter_format_at rt (clock rt n) record = Ok line /\
            fs w' !! all = Some (c ++ line ++ NL)
     else fs w' !! all = fs w !! all) /\
    (if ERROR <=? level
     then exists c n line,
            (ticks w < n < ticks w')%nat /\
            StructuredFormatter_format_at rt (clock rt n) record = Ok line /\
            fs w' !! err = Some (c ++ line ++ NL)
     else fs w' !! err = fs w !! err) /\
    stderr w' = stderr w.
Proof.
  intros Hh Hfield Henc record all err.
  pose proof (Forall_field_key_fresh _ Hfield) as Hfresh.
  assert (Hr : forall now, exists s, StructuredFormatter_format_at rt now record = Ok s).
  { intros now.
    destruct (format_members_field rt self level message None kwargs w now Hfield Henc)
      as (members & _ & Hfmt). eauto. }
  destruct (console_renders_field self level message None kwargs w (tick w) Hfield eq_refl)
    as (cline & Hcon & Hcon').
  change (exc_info_slot None) with VNone in Hcon, Hcon'. fold record in Hcon, Hcon'.
  assert (Hlv : getattr record "levelno" = Ok (VInt level))
    by (by apply record_levelno_fresh).
  destruct (log_paths_distinct dir name') as (Hne & Hab & Hba).
  fold all err in Hne, Hab, Hba.
  exists cline. rewrite _log_with_context_handles by (by apply field_key_not_params).
  fold record. unfold Logger_handle. rewrite Hh.
  rewrite (callHandlers_handlers_of rt name' lv dir max bc record level Hlv).
  fold all err.
  unfold bind at 1. rewrite console_step, Hcon'.
  set (w1 := if lv <=? level
             then set_stdout (fun l => (l ++ [(cline ++ NL)%string])%list) (tick w)
             else tick w).
  assert (H1 : (if lv <=? level
                then (set_stdout (fun l => (l ++ [(cline ++ NL)%string])%list) (tick w),
                      Ok tt)
                else (tick w, Ok tt)) = (w1, @Ok unit tt))
    by (subst w1; by destruct (lv <=? level)).
  rewrite H1.
  assert (Hw1 : ticks w1 = S (ticks w) /\ fs w1 = fs w /\ stderr w1 = stderr w /\
                stdout w1 = (if lv <=? level then stdout w ++ [(cline ++ NL)%string]
                             else stdout w)%list)
    by (subst w1; by destruct (lv <=? level)).
  destruct Hw1 as (Ht1 & Hfs1 & Herr1 & Hout1).
  unfold bind at 1.
  destruct (file_step_renders rt DEBUG all max bc level record w1 Hr)
    as (w2 & -> & Henv2 & Hout2 & Herr2 & Hall & Hoth2).
  unfold bind at 1.
  destruct (file_step_renders rt ERROR err max bc level record w2 Hr)
    as (w3 & -> & Henv3 & Hout3 & Herr3 & Herrf & Hoth3).
  assert (Ht2 : (ticks w1 <= ticks w2)%nat) by apply Henv2.
  assert (Ht3 : (ticks w2 <= ticks w3)%nat) by apply Henv3.
  exists w3. split; [done|]. split; [reflexivity|].
  split; [by rewrite Hout3, Hout2|].
  split; [|split; [|by rewrite Herr3, Herr2]].
  - rewrite (Hoth3 all) by (done || apply Hab).
    destruct (DEBUG <=? level).
    + destruct Hall as (c & n & line & Hn & Hl & Hf).
      exists c, n, line. split; [lia|done].
    + subst w2. by rewrite Hfs1.
  - destruct (ERROR <=? level).
    + destruct Herrf as (c & n & line & Hn & Hl & Hf).
      exists c, n, line. split; [lia|done].
    + subst w3. rewrite (Hoth2 err) by (done || apply Hba). by rewrite Hfs1.
Qed.

(** X7. When the JSON rendering of a record raises an instance of
    [Exception], the failure stays inside the file handlers: the call
    returns, no file changes, each file handler that admits the level
    reports the exception once on stderr, and the console line is printed
    as usual. *)
Theorem render_failure_is_isolated (self : AdvancedLogger)
    (name' : string) (lv : Z) (dir : string) (max bc : Z)
    (level : Z) (message : string) (kwargs : list (string * pyval))
    (e : Exc) (w : World) (now : Q) :
  lg_handlers (logger self) = handlers_of name' lv dir max bc ->
  Forall field_key kwargs.*1 ->
  let record := record_of rt self level message VNone kwargs w in
  StructuredFormatter_format_at rt now record = Raise e ->
  exc_is_Exception e = true ->
  exists cline w',
    ConsoleFormatter_format rt w record = Ok cline /\
    _log_with_context rt self level message kwargs w = (w', Ok tt) /\
    fs w' = fs w /\
    stdout w' = (if lv <=? level then stdout w ++ [(cline ++ NL)%string] else stdout w)%list /\
    stderr w' = (stderr w ++ (if DEBUG <=? level then [e] else [])
                          ++ (if ERROR <=? level then [e] else []))%list.
Proof.
  intros Hh Hfield record Hfmt He.
  pose proof (Forall_field_key_fresh _ Hfield) as Hfresh.
  destruct (console_renders_field self level message None kwargs w (tick w) Hfield eq_refl)
    as (cline & Hcon & Hcon').
  change (exc_info_slot None) with VNone in Hcon, Hcon'. fold record in Hcon, Hcon'.
  assert (Hlv : getattr record "levelno" = Ok (VInt level))
    by (by apply record_levelno_fresh).
  exists cline. rewrite _log_with_context_handles by (by apply field_key_not_params).
  fold record. unfold Logger_handle. rewrite Hh.
  rewrite (callHandlers_handlers_of rt name' lv dir max bc record level Hlv).
  unfold bind at 1. rewrite console_step, Hcon'.
  set (w1 := if lv <=? level
             then set_stdout (fun l => (l ++ [(cline ++ NL)%string])%list) (tick w)
             else tick w).
  assert (H1 : (if lv <=? level
                then (set_stdout (fun l => (l ++ [(cline ++ NL)%string])%list) (tick w),
                      Ok tt)
                else (tick w, Ok tt)) = (w1, @Ok unit tt))
    by (subst w1; by destruct (lv <=? level)).
  rewrite H1.
  assert (Hw1 : fs w1 = fs w /\ stderr w1 = stderr w /\
                stdout w1 = (if lv <=? level then stdout w ++ [(cline ++ NL)%string]
                             else stdout w)%list)
    by (subst w1; by destruct (lv <=? level)).
  destruct Hw1 as (Hfs1 & Herr1 & Hout1).
  unfold bind at 1.
  destruct (file_step_fails rt DEBUG (os_path_join dir (name' ++ ".log")) max bc level
              record w1 e now Hfmt He) as (w2 & -> & _ & Hfs2 & Hout2 & Herr2).
  unfold bind at 1.
  destruct (file_step_fails rt ERROR (os_path_join dir (name' ++ "_errors.log")) max bc
              level record w2 e now Hfmt He) as (w3 & -> & _ & Hfs3 & Hout3 & Herr3).
  exists w3. split; [done|]. split; [reflexivity|].
  split; [by rewrite Hfs3, Hfs2|]. split; [by rewrite Hout3, Hout2|].
  by rewrite Herr3, Herr2, Herr1, <- app_assoc.
Qed.

(** X8. A keyword argument named [levelno] replaces the level the handlers
    compare against. When its value is a string, the comparison in
    [Logger.callHandlers], which no handler guards, raises [TypeError] to
    the caller of the logging method before any handler has run: the
    clock has been read for the record and nothing else has happened. *)
Theorem text_levelno_raises_to_caller (self : AdvancedLogger) (level : Z)
    (message : string) (kwargs : list (string * pyval)) (s : string) (w : World) :
  Forall (fun k => k ∉ ["self"; "level"; "message"]) kwargs.*1 ->
  Forall (fun k => ordinary_name k = true) kwargs.*1 ->
  NoDup kwargs.*1 ->
  ("levelno", VStr s) ∈ kwargs ->
  lg_handlers (logger self) <> [] ->
  exists msg,
    _log_with_context rt self level message kwargs w = (tick w, Raise (TypeError msg)).
Proof.
  intros Hb _ Hnd Hin Hh.
  rewrite _log_with_context_handles by done.
  unfold Logger_handle. destruct (lg_handlers (logger self)) as [|hdlr rest]; [done|].
  cbn [callHandlers]. unfold bind, lift, getattr, record_of.
  rewrite (attach_fields_get _ _ "levelno" (VStr s)) by done.
  cbn. by eexists.
Qed.

(** X9. The [exception] argument of [error] has to be an exception object or
    a false value: a false primitive or empty container is taken for no
    exception at all, while a true one makes the call raise [AttributeError], it
    having no [__traceback__], before any record is built. *)
Theorem error_needs_an_exception_object (self : AdvancedLogger) (message : string)
    (exception : pyval) (kwargs : list (string * pyval)) (w : World) :
  Forall (fun k => k ∉ ["self"; "message"; "exception"]) kwargs.*1 ->
  primitive exception || container exception = true ->
  if py_truthy exception
  then exists msg,
         error rt self message exception kwargs w = (w, Raise (AttributeError msg))
  else error rt self message exception kwargs w = error rt self message VNone kwargs w.
Proof.
  intros Hb Hv. unfold error, bind_kwargs, dict_keys.
  rewrite bool_decide_eq_false_2.
  2:{ intros HE. apply Exists_exists in HE as (k & Hk & Hk').
      rewrite Forall_forall in Hb. by apply (Hb k). }
  unfold bind, ret, lift. cbv beta iota.
  destruct (py_truthy exception) eqn:Ht.
  - destruct exception; try discriminate Hv; cbn [exc_info_of]; by eexists.
  - reflexivity.
Qed.
End Dispatch.

Section FileSets.
Variable rt : Runtime.

Lemma string_length_app (s t : string) :
  String.length (s ++ t) = (String.length s + String.length t)%nat.
Proof.
  induction s as [|c s IH]; [done|].
  change (S (String.length (s ++ t)) = S (String.length s + String.length t)).
  by rewrite IH.
Qed.

Lemma string_length_0 (s : string) : String.length s = 0%nat -> s = "".
Proof. by destruct s. Qed.

(** With at least one backup allowed, a rollover leaves an empty current
    file behind, whether or not there was one before. *)
Lemma doRollover_current_empty (base : string) (bc : Z) (f : gmap string string) :
  0 < bc -> doRollover base bc f !! base = Some "".
Proof.
  intros Hbc. destruct (f !! base) as [c0|] eqn:Eb.
  - by destruct (doRollover_lookup base bc f c0 Hbc Eb) as (H & _).
  - unfold doRollover. rewrite (proj2 (Z.ltb_lt 0 bc)) by done.
    rewrite range_down_to_nat.
    destruct (shift_loop_lookup base (Z.to_nat (bc - 1)) f) as (_ & _ & Hc).
    set (f1 := foldl (shift_backup base) f _) in *.
    assert (H1 : f1 !! base = None).
    { rewrite Hc; [done|]. intros j _ E. by apply (backup_name_ne_base base j). }
    change (base ++ ".1") with (backup_name base 1).
    set (f2 := if os_path_exists (backup_name base 1) f1
               then os_remove (backup_name base 1) f1 else f1).
    assert (H2 : f2 !! base = None).
    { subst f2. destruct (os_path_exists _ f1); [|done].
      unfold os_remove. rewrite lookup_delete_ne; [done|].
      apply backup_name_ne_base. }
    rewrite (os_path_exists_None base f2 H2).
    unfold _open. rewrite H2. apply lookup_insert_eq.
Qed.

(** The world in which a rotating handler renders the line it writes:
    after the measurement, if there is one. *)
Lemma rotating_emit_written (fmt : Formatter) (base : string) (maxBytes backupCount : Z)
    (record : LogRecord) (w : World) (s : string) :
  (Formatter_format rt fmt record w).2 = Ok s ->
  exists w1 s' (rollover : bool),
    same_env w w1 /\ fs w1 = fs w /\
    (Formatter_format rt fmt record w1).2 = Ok s' /\
    (rollover = true ->
     0 < maxBytes /\
     maxBytes <= stream_tell base (fs w) + Z.of_nat (String.length (s ++ NL)) /\
     (rollover_skips_empty rt = true -> stream_tell base (fs w) <> 0)) /\
    (rollover = false ->
     maxBytes <= 0 \/
     stream_tell base (fs w) + Z.of_nat (String.length (s ++ NL)) < maxBytes \/
     stream_tell base (fs w) = 0) /\
    fs (RotatingFileHandler_emit rt fmt base maxBytes backupCount record w).1 =
      stream_write base (s' ++ NL)
        (if rollover then doRollover base backupCount (fs w) else fs w).
Proof.
  intros Hs.
  destruct (rotating_emit_Ok rt fmt base maxBytes backupCount record w s Hs)
    as (s' & Hs' & Hemit).
  set (pos := stream_tell base (fs w)) in *.
  set (measured := (0 <? maxBytes) && negb (rollover_skips_empty rt && (pos =? 0))) in *.
  set (w1 := if measured then (Formatter_format rt fmt record w).1 else w) in *.
  assert (Hw1 : same_env w w1 /\ fs w1 = fs w).
  { subst w1. destruct measured; [|split; [apply same_env_refl|done]].
    split; [apply Formatter_format_env|apply Formatter_format_streams]. }
  destruct Hw1 as [Henv1 Hfs1].
  exists w1, s', (measured && (maxBytes <=? pos + Z.of_nat (String.length (s ++ NL)))).
  split; [done|]. split; [done|]. split; [done|]. split; [|split].
  - intros H. apply andb_true_iff in H as [Hm Hle]. subst measured.
    apply andb_true_iff in Hm as [H0 Hskip].
    apply Z.ltb_lt in H0. apply Z.leb_le in Hle. split; [done|]. split; [done|].
    intros Hr. rewrite Hr in Hskip. cbn in Hskip.
    apply negb_true_iff, Z.eqb_neq in Hskip. done.
  - intros H. apply andb_false_iff in H as [Hm|Hle].
    + subst measured. apply andb_false_iff in Hm as [H0|Hskip].
      * left. by apply Z.ltb_ge in H0.
      * right. right. apply negb_false_iff, andb_true_iff in Hskip as [_ Hz].
        by apply Z.eqb_eq in Hz.
    + right. left. by apply Z.leb_gt in Hle.
  - rewrite Hemit. cbn [fst fs set_fs].
    destruct (Formatter_format_streams rt fmt record w1) as (-> & _).
    by rewrite Hfs1.
Qed.

(** X10. With a positive size limit and at least one backup allowed, the
    current file after a write either holds the written line alone, or
    holds its previous contents followed by that line, the previous
    contents and the line as it was measured staying below the limit. The
    line is rendered once to be measured and once more to be written, so
    the file stays below [max_file_size] whenever the two renderings have
    the same length; otherwise it can exceed it by their difference, or by
    a single line that is itself too long. *)
Theorem current_file_stays_below_limit (fmt : Formatter) (base : string)
    (maxBytes backupCount : Z) (record : LogRecord) (w : World) (s c0 : string) :
  (Formatter_format rt fmt record w).2 = Ok s ->
  fs w !! base = Some c0 ->
  0 < maxBytes -> 0 < backupCount ->
  exists w1 s' c',
    same_env w w1 /\
    (Formatter_format rt fmt record w1).2 = Ok s' /\
    fs (RotatingFileHandler_emit rt fmt base maxBytes backupCount record w).1 !! base
      = Some c' /\
    (c' = s' ++ NL \/
     (c' = c0 ++ s' ++ NL /\
      Z.of_nat (String.length c0) + Z.of_nat (String.length (s ++ NL)) < maxBytes /\
      (String.length s' = String.length s ->
       Z.of_nat (String.length c') < maxBytes))).
Proof.
  intros Hfmt Hbase Hmax Hbc.
  destruct (rotating_emit_written fmt base maxBytes backupCount record w s Hfmt)
    as (w1 & s' & rollover & Henv & _ & Hs' & _ & Hno & Hfs).
  assert (Hpos : stream_tell base (fs w) = Z.of_nat (String.length c0)).
  { unfold stream_tell. by rewrite Hbase. }
  exists w1, s'. rewrite Hfs. unfold stream_write. rewrite lookup_insert_eq.
  eexists. split; [done|]. split; [done|]. split; [reflexivity|].
  destruct rollover.
  - left. by rewrite doRollover_current_empty.
  - rewrite Hbase. change (default "" (Some c0)) with c0.
    destruct (Hno eq_refl) as [H|[H|H]]; [lia| |].
    + right. split; [done|]. rewrite Hpos in H. split; [done|].
      intros Hlen. rewrite !string_length_app in *. lia.
    + left. rewrite Hpos in H. by rewrite (string_length_0 c0) by lia.
Qed.

(** X11. With [backup_count] zero (or negative) nothing is ever rotated
    away: whatever the size limit, every record that renders is appended
    to the current file, which only grows. *)
Theorem zero_backups_never_rotate (fmt : Formatter) (base : string)
    (maxBytes backupCount : Z) (record : LogRecord) (w : World) (s c0 : string) :
  (Formatter_format rt fmt record w).2 = Ok s ->
  fs w !! base = Some c0 ->
  backupCount <= 0 ->
  exists w1 s',
    same_env w w1 /\
    (Formatter_format rt fmt record w1).2 = Ok s' /\
    fs (RotatingFileHandler_emit rt fmt base maxBytes backupCount record w).1 =
      <[base := c0 ++ s' ++ NL]> (fs w).
Proof.
  intros Hfmt Hbase Hbc.
  destruct (rotating_emit_written fmt base maxBytes backupCount record w s Hfmt)
    as (w1 & s' & rollover & Henv & _ & Hs' & _ & _ & Hfs).
  exists w1, s'. split; [done|]. split; [done|]. rewrite Hfs.
  unfold stream_write. destruct rollover.
  - rewrite doRollover_nonpositive by done. unfold _open. by rewrite !Hbase.
  - by rewrite Hbase.
Qed.

(** Whatever a rotating handler does with a record, it touches its own
    current file and numbered backups only. *)
Lemma rotating_emit_other (fmt : Formatter) (base : string) (maxBytes bc : Z)
    (record : LogRecord) (w : World) (p : string) :
  p <> base -> (forall j, p <> backup_name base j) ->
  fs (RotatingFileHandler_emit rt fmt base maxBytes bc record w).1 !! p = fs w !! p.
Proof.
  intros Hp Hslots.
  destruct ((Formatter_format rt fmt record w).2) as [s|e] eqn:E.
  - destruct (rotating_emit_written fmt base maxBytes bc record w s E)
      as (w1 & s' & rollover & _ & _ & _ & _ & _ & ->).
    unfold stream_write. rewrite lookup_insert_ne by done.
    destruct rollover; [by apply doRollover_other|done].
  - destruct (rotating_emit_Raise rt fmt base maxBytes bc record w e E)
      as (w0 & _ & Hfs & _ & _ & ->).
    destruct (exc_is_Exception e); cbn; by rewrite Hfs.
Qed.

Lemma backup_paths_distinct (dir name' : string) (i j : Z) :
  backup_name (os_path_join dir (name' ++ ".log")) i <>
  backup_name (os_path_join dir (name' ++ "_errors.log")) j.
Proof.
  unfold backup_name. intros H.
  rewrite !os_path_join_app in H.
  - apply os_path_join_inj in H.
    + rewrite !string_app_assoc in H.
      apply (inj (String.append name')) in H. discriminate H.
    + rewrite !string_app_assoc. by apply starts_with_slash_app.
  - rewrite string_app_assoc. by apply starts_with_slash_app.
  - rewrite string_app_assoc. by apply starts_with_slash_app.
Qed.

(** X12. The two file handlers of one logger never write into each other's
    files: whatever the record, the all-levels handler leaves the errors
    file and every backup of it unchanged, and the errors handler leaves
    the all-levels file and every backup of it unchanged. *)
Theorem file_handlers_do_not_interfere (fmt : Formatter) (dir name' : string)
    (maxBytes backupCount : Z) (record : LogRecord) (w : World) :
  let all := os_path_join dir (name' ++ ".log") in
  let err := os_path_join dir (name' ++ "_errors.log") in
  let wa := (RotatingFileHandler_emit rt fmt all maxBytes backupCount record w).1 in
  let we := (RotatingFileHandler_emit rt fmt err maxBytes backupCount record w).1 in
  (fs wa !! err = fs w !! err /\
   forall j, fs wa !! backup_name err j = fs w !! backup_name err j) /\
  (fs we !! all = fs w !! all /\
   forall j, fs we !! backup_name all j = fs w !! backup_name all j).
Proof.
  intros all err wa we.
  destruct (log_paths_distinct dir name') as (Hne & Hab & Hba).
  fold all err in Hne, Hab, Hba.
  split; split.
  - apply rotating_emit_other; [done|apply Hba].
  - intros j. apply rotating_emit_other.
    + intros E. by apply (Hab j).
    + intros i E. by apply (backup_paths_distinct dir name' i j).
  - apply rotating_emit_other; [done|apply Hab].
  - intros j. apply rotating_emit_other.
    + intros E. by apply (Hba j).
    + intros i E. by apply (backup_paths_distinct dir name' j i).
Qed.
End FileSets.

Section Construction.



Lemma ascii_upper_idem (c : ascii) : ascii_upper (ascii_upper c) = ascii_upper c.
Proof. destruct c as [[] [] [] [] [] [] [] []]; reflexivity. Qed.

Lemma upper_idem (s : string) : upper (upper s) = upper s.
Proof.
  induction s as [|c s IH]; [done|]. cbn [upper]. by rewrite ascii_upper_idem, IH.
Qed.

(** X14. The level is named without regard to case: every spelling of DEBUG,
    INFO, WARNING, ERROR or CRITICAL is accepted, the threshold of the
    logger is the level of that name, and the spelling itself may be
    replaced by its upper-case form. *)
Theorem level_names_accepted_in_any_case (name' s log_dir' : string)
    (max_file_size backup_count : Z) (w : World) :
  AdvancedLogger_init name' (upper s) log_dir' max_file_size backup_count w =
    AdvancedLogger_init name' s log_dir' max_file_size backup_count w /\
  (upper s ∈ ["DEBUG"; "INFO"; "WARNING"; "ERROR"; "CRITICAL"] ->
   exists l w',
     AdvancedLogger_init name' s log_dir' max_file_size backup_count w = (w', Ok l) /\
     getLevelName (log_level l) = upper s /\
     lg_level (logger l) = log_level l).
Proof.
  split.
  { unfold AdvancedLogger_init. by rewrite upper_idem. }
  intros Hs.
  unfold AdvancedLogger_init, _setup_handlers, bind, gets, modify, lift, ret.
  revert Hs. rewrite !elem_of_cons.
  intros [->|[->|[->|[->|[->|H]]]]]; try (eexists _, _; split; [reflexivity|done]).
  by apply elem_of_nil in H.
Qed.

(** X15. A call of [get_logger] that has to construct a logger and cannot
    leaves everything as it was. An unknown keyword argument is a
    [TypeError] and changes nothing at all; a level name that is no
    upper-case attribute of [logging] is an [AttributeError], raised
    before any file is opened, and the cached logger stays the cached
    logger. *)
Theorem failed_construction_changes_nothing (name' : string)
    (kwargs : list (string * pyval)) (w : World) :
  (forall l, _default_logger w = Some l -> name l <> name') ->
  ((exists k, k ∈ kwargs.*1 /\ k ∉ init_params) ->
     exists msg, get_logger name' kwargs w = (w, Raise (TypeError msg))) /\
  (forall log_level' log_dir' max_file_size backup_count,
     bind_init_kwargs kwargs = Ok (log_level', log_dir', max_file_size, backup_count) ->
     ascii_only log_level' = true ->
     upper log_level' ∉ logging_upper_names ->
     exists w' msg,
       get_logger name' kwargs w = (w', Raise (AttributeError msg)) /\
       _default_logger w' = _default_logger w /\ fs w' = fs w /\
       stdout w' = stdout w /\ contexts w' = contexts w).
Proof.
  intros Hmiss.
  assert (Hnew : forall w1 (e : Exc),
    AdvancedLogger_new name' kwargs w = (w1, Raise e) ->
    get_logger name' kwargs w = (w1, Raise e)).
  { intros w1 e H. unfold get_logger, bind, gets.
    destruct (_default_logger w) as [l0|] eqn:Hc.
    - rewrite decide_False by (by apply Hmiss). by rewrite H.
    - by rewrite H. }
  split.
  - intros (k & Hk & Hout). eexists. apply Hnew.
    unfold AdvancedLogger_new, bind, lift, bind_init_kwargs, dict_keys.
    rewrite bool_decide_eq_false_2; [reflexivity|].
    intros HF. rewrite Forall_forall in HF. by apply Hout, HF.
  - intros ll d m b Hbind _ Hlevel.
    assert (Hl : logging_level (upper ll) =
              Raise (AttributeError
                       ("module 'logging' has no attribute '" ++ upper ll ++ "'"))).
    { unfold logging_level.
      repeat (rewrite decide_False;
              [|intros E; apply Hlevel; rewrite E; compute_done]).
      done. }
    eexists _, _. split.
    + apply Hnew. unfold AdvancedLogger_new, bind, lift. rewrite Hbind.
      unfold AdvancedLogger_init, bind, gets, modify, lift. rewrite Hl. reflexivity.
    + done.
Qed.
End Construction.

Section Robustness.
Variable rt : Runtime.

Lemma int_repr_tame (z : Z) : tame (fun _ => True) (int_repr z).
Proof. unfold int_repr. by destruct (int_fits z). Qed.


Lemma py_str_tame (v : pyval) : calm v = true -> tame (fun _ => True) (py_str rt v).
Proof.
  destruct v as [| [] | z | | | | | | | | | [s|e]]; cbn; try done.
  intros _. apply int_repr_tame.
Qed.






End Robustness.

Section Entries.
Variable rt : Runtime.

Lemma bind_Ok_inv {A B} (r : result A) (f : A -> result B) (b : B) :
  r ≫= f = Ok b -> exists a, r = Ok a /\ f a = Ok b.
Proof. destruct r as [a|e]; [|done]. intros H. by exists a. Qed.

Lemma dict_set_keys_in {V} (d : list (string * V)) (k : string) (v : V) (k' : string) :
  k' ∈ (dict_set k v d).*1 -> k' = k \/ k' ∈ d.*1.
Proof.
  rewrite dict_set_keys. case_bool_decide; [by right|].
  intros Hin. apply elem_of_app in Hin as [Hin|Hin]; [by right|].
  left. by apply list_elem_of_singleton in Hin.
Qed.

Lemma add_extra_fields_keys (record : LogRecord) (log_entry : list (string * pyval))
    (k : string) :
  k ∈ (add_extra_fields record log_entry).*1 ->
  k ∈ log_entry.*1 \/ (k ∈ record.*1 /\ k ∉ excluded_keys).
Proof.
  revert log_entry. induction record as [|[k0 v0] record IH]; intros log_entry Hin;
    [by left|].
  unfold add_extra_fields in *. cbn [foldl fst snd] in Hin.
  apply IH in Hin as [Hin|[Hin Hex]].
  - case_bool_decide as Hx; [by left|].
    apply dict_set_keys_in in Hin as [->|Hin]; [|by left].
    right. split; [cbn; left|done].
  - right. split; [cbn; by right|done].
Qed.

(** X18. The structured entry of any record holds nothing but the eleven
    entries the formatter writes on its own account and the attributes of
    the record that are outside its exclusion list: the bookkeeping
    attributes of a [LogRecord] ([pathname], [thread], [process], [args],
    ...) are never written. Conversely every attribute outside the
    exclusion list is written under its own name with its own value. *)
Theorem structured_entry_keys (now : Q) (record : LogRecord)
    (log_entry : list (string * pyval)) :
  StructuredFormatter_log_entry rt now record = Ok log_entry ->
  (forall k, k ∈ log_entry.*1 ->
     k ∈ entry_slots \/ (k ∈ record.*1 /\ k ∉ excluded_keys)) /\
  (NoDup record.*1 ->
   forall k v, dict_get k record = Some v -> k ∉ excluded_keys ->
     dict_get k log_entry = Some v).
Proof.
  intros H. unfold StructuredFormatter_log_entry in H.
  apply bind_Ok_inv in H as (levelname & _ & H).
  apply bind_Ok_inv in H as (name' & _ & H).
  apply bind_Ok_inv in H as (message & _ & H).
  apply bind_Ok_inv in H as (module & _ & H).
  apply bind_Ok_inv in H as (funcName & _ & H).
  apply bind_Ok_inv in H as (lineno & _ & H).
  cbv zeta in H.
  apply bind_Ok_inv in H as (le1 & H1 & H).
  apply bind_Ok_inv in H as (le2 & H2 & H).
  apply bind_Ok_inv in H as (le3 & H3 & H).
  apply bind_Ok_inv in H as (exc_info & _ & H).
  apply bind_Ok_inv in H as (le4 & H4 & H).
  injection H as <-.
  assert (K1 : forall k, k ∈ le1.*1 -> k ∈ entry_slots).
  { destruct (hasattr record "context").
    - apply bind_Ok_inv in H1 as (c & _ & H1).
      apply bind_Ok_inv in H1 as (d & _ & H1). injection H1 as <-.
      intros k. cbn. rewrite !elem_of_cons. intros Hk.
      repeat destruct Hk as [->|Hk]; try compute_done. by apply elem_of_nil in Hk.
    - injection H1 as <-.
      intros k. cbn. rewrite !elem_of_cons. intros Hk.
      repeat destruct Hk as [->|Hk]; try compute_done. by apply elem_of_nil in Hk. }
  assert (K2 : forall k, k ∈ le2.*1 -> k ∈ entry_slots).
  { destruct (hasattr record "correlation_id").
    - apply bind_Ok_inv in H2 as (c & _ & H2). injection H2 as <-.
      intros k Hk. apply dict_set_keys_in in Hk as [->|Hk]; [compute_done|by apply K1].
    - by injection H2 as <-. }
  assert (K3 : forall k, k ∈ le3.*1 -> k ∈ entry_slots).
  { destruct (hasattr record "duration").
    - apply bind_Ok_inv in H3 as (c & _ & H3). injection H3 as <-.
      intros k Hk. apply dict_set_keys_in in Hk as [->|Hk]; [compute_done|by apply K2].
    - by injection H3 as <-. }
  assert (K4 : forall k, k ∈ le4.*1 -> k ∈ entry_slots).
  { destruct (py_truthy exc_info).
    - apply bind_Ok_inv in H4 as (ty & _ & H4).
      apply bind_Ok_inv in H4 as (ty' & _ & H4).
      apply bind_Ok_inv in H4 as (ev & _ & H4).
      apply bind_Ok_inv in H4 as (msg & _ & H4).
      apply bind_Ok_inv in H4 as (tb & _ & H4). injection H4 as <-.
      intros k Hk. apply dict_set_keys_in in Hk as [->|Hk]; [compute_done|by apply K3].
    - by injection H4 as <-. }
  split.
  - intros k Hk. apply add_extra_fields_keys in Hk as [Hk|Hk]; [left; by apply K4|by right].
  - intros Hnd k v Hget Hex. rewrite add_extra_fields_get by done.
    rewrite bool_decide_eq_false_2 by done. by rewrite Hget.
Qed.


End Entries.

(** ** Concrete runs of the further properties *)

Lemma field_key_literal (k : string) :
  (bool_decide (k ∉ reserved_names) && bool_decide (k ∉ record_attributes)
     && bool_decide (k ∉ ["self"; "level"; "message"; "exception"]))
    && ordinary_name k = true ->
  field_key k.
Proof.
  intros H. apply andb_true_iff in H as [H1 H2].
  split; [by apply plain_key_literal|done].
Qed.

Lemma context_store_laws_witness :
  contexts demo_world !! self_id demo_logger = None /\
  self_id demo_other <> self_id demo_logger /\
  clear_context demo_logger demo_world = (demo_world, Ok tt) /\
  (get_context demo_other (set_context demo_logger demo_context demo_world).1).2
    = (get_context demo_other demo_world).2.
Proof.
  assert (H1 : contexts demo_world !! self_id demo_logger = None) by reflexivity.
  assert (H2 : self_id demo_other <> self_id demo_logger) by (intros E; discriminate E).
  destruct (context_store_laws demo_logger demo_other demo_context demo_world)
    as (_ & _ & Hclear & Hother).
  split; [exact H1|]. split; [exact H2|]. split; [exact (Hclear H1)|].
  exact (proj1 (Hother H2)).
Defined.

Lemma context_scope_semantics_witness :
  exists (c : LogContext) (w1 : World),
    user_id c = None /\ session_id c = Some "sess456" /\
    service_name c = "logging-service" /\
    context demo_runtime demo_logger {["session_id" := "sess456"]}
      (fun cid => ret cid) demo_world_scoped
      = ((restore demo_logger (Some demo_context) w1).1, Ok (correlation_id c)).
Proof.
  assert (Hdom : forall k, k ∈ dom ({["session_id" := "sess456"]} : gmap string string) ->
                   k ∈ LogContext_fields).
  { intros k Hk. rewrite dom_singleton_L in Hk. apply elem_of_singleton in Hk.
    subst k. compute_done. }
  destruct (@context_scope_semantics demo_runtime string demo_logger
              {["session_id" := "sess456"]} (fun cid => ret cid) demo_world_scoped Hdom)
    as (c & w1 & _ & Hu & Hs & _ & Hsn & _ & Hrun).
  exists c, w1. split; [exact Hu|]. split; [exact Hs|]. split; [exact Hsn|].
  exact Hrun.
Defined.

Lemma record_carries_active_context_witness :
  exists members,
    StructuredFormatter_format_at demo_runtime 0
      (record_of demo_runtime demo_logger INFO "User logged in" VNone
         [("action", VStr "login")] demo_world_scoped)
      = Ok (json_text demo_runtime (JObj members)) /\
    dict_get "correlation_id" members = Some (JStr "req-0001-abcdef") /\
    dict_get "context" members = Some (context_object demo_context).
Proof.
  assert (Hfield : Forall field_key [("action", VStr "login")].*1)
    by (repeat constructor; by apply field_key_literal).
  assert (Henc : Forall (fun v => encodable demo_runtime v = true)
                   [("action", VStr "login")].*2)
    by (repeat constructor).
  destruct (record_carries_active_context demo_runtime demo_logger INFO "User logged in"
              [("action", VStr "login")] demo_world_scoped 0%Q Hfield Henc)
    as (members & _ & Hfmt & Hcid & Hctx).
  exists members. split; [exact Hfmt|]. split; [exact Hcid|exact Hctx].
Defined.

Lemma console_line_shape_witness :
  ConsoleFormatter_format demo_runtime demo_world_scoped
    (record_of demo_runtime demo_logger ERROR "Operation failed"
       (exc_info_slot (Some demo_error))
       [("user_action", VStr "data_processing")] demo_world_scoped)
    = Ok "[2024-01-01 00:00:00] ERROR    app: Operation failed [ID: req-0001]".
Proof.
  assert (Hfield : Forall field_key [("user_action", VStr "data_processing")].*1)
    by (repeat constructor; by apply field_key_literal).
  exact (console_line_shape demo_runtime demo_logger ERROR "Operation failed"
           (Some demo_error) [("user_action", VStr "data_processing")]
           demo_world_scoped demo_world_scoped Hfield).
Defined.

Lemma base_entries_of_record_witness :
  exists members,
    StructuredFormatter_format_at demo_runtime 0
      (record_of demo_runtime demo_logger INFO "100% done" VNone
         [("port", VInt 8080)] demo_world)
      = Ok (json_text demo_runtime (JObj members)) /\
    dict_get "level" members = Some (JStr "INFO") /\
    dict_get "message" members = Some (JStr "100% done") /\
    dict_get "module" members = Some (JStr "") /\
    dict_get "function" members = Some JNull /\
    dict_get "line" members = Some (JInt 0).
Proof.
  assert (Hfield : Forall field_key [("port", VInt 8080)].*1)
    by (repeat constructor; by apply field_key_literal).
  assert (Henc : Forall (fun v => encodable demo_runtime v = true) [("port", VInt 8080)].*2)
    by (repeat constructor).
  destruct (base_entries_of_record demo_runtime demo_logger INFO "100% done" None
              [("port", VInt 8080)] demo_world 0%Q Hfield Henc)
    as (members & Hfmt & _ & Hlv & _ & Hmsg & Hmod & Hfun & Hline).
  exists members. split; [exact Hfmt|]. split; [exact Hlv|]. split; [exact Hmsg|].
  split; [exact Hmod|]. split; [exact Hfun|exact Hline].
Defined.

Lemma dispatch_by_handler_level_witness :
  lg_handlers (logger demo_logger) = handlers_of "app" 20 "logs" 100 2 /\
  exists cline w',
    debug demo_runtime demo_logger "Debug information"
      [("component", VStr "startup")] demo_world = (w', Ok tt) /\
    ConsoleFormatter_format demo_runtime demo_world
      (record_of demo_runtime demo_logger DEBUG "Debug information" VNone
         [("component", VStr "startup")] demo_world) = Ok cline /\
    stdout w' = stdout demo_world /\
    (exists c n line,
       StructuredFormatter_format_at demo_runtime (clock demo_runtime n)
         (record_of demo_runtime demo_logger DEBUG "Debug information" VNone
            [("component", VStr "startup")] demo_world) = Ok line /\
       fs w' !! "logs/app.log" = Some (c ++ line ++ NL)) /\
    fs w' !! "logs/app_errors.log" = fs demo_world !! "logs/app_errors.log".
Proof.
  assert (Hh : lg_handlers (logger demo_logger) = handlers_of "app" 20 "logs" 100 2)
    by reflexivity.
  split; [exact Hh|].
  assert (Hfield : Forall field_key [("component", VStr "startup")].*1)
    by (repeat constructor; by apply field_key_literal).
  assert (Henc : Forall (fun v => encodable demo_runtime v = true)
                   [("component", VStr "startup")].*2)
    by (repeat constructor).
  destruct (dispatch_by_handler_level demo_runtime demo_logger "app" 20 "logs" 100 2
              DEBUG "Debug information" [("component", VStr "startup")] demo_world
              Hh Hfield Henc)
    as (cline & w' & Hcon & Hrun & Hout & Hall & Herr & _).
  exists cline, w'. split; [exact Hrun|]. split; [exact Hcon|].
  split; [exact Hout|]. split; [|exact Herr].
  destruct Hall as (c & n & line & _ & Hl & Hf). exists c, n, line. by split.
Defined.

Lemma render_failure_is_isolated_witness :
  StructuredFormatter_format_at demo_runtime 0
    (record_of demo_runtime demo_logger INFO "x" VNone
       [("counts", VDict [(KOther, VInt 3)])] demo_world)
    = Raise (TypeError "keys must be str, int, float, bool or None") /\
  exists cline w',
    info demo_runtime demo_logger "x" [("counts", VDict [(KOther, VInt 3)])] demo_world
      = (w', Ok tt) /\
    fs w' = fs demo_world /\
    stdout w' = [(cline ++ NL)%string] /\
    stderr w' = [TypeError "keys must be str, int, float, bool or None"].
Proof.
  assert (Hh : lg_handlers (logger demo_logger) = handlers_of "app" 20 "logs" 100 2)
    by reflexivity.
  assert (Hfield : Forall field_key [("counts", VDict [(KOther, VInt 3)])].*1)
    by (repeat constructor; by apply field_key_literal).
  assert (Hfmt : StructuredFormatter_format_at demo_runtime 0
            (record_of demo_runtime demo_logger INFO "x" VNone
               [("counts", VDict [(KOther, VInt 3)])] demo_world)
            = Raise (TypeError "keys must be str, int, float, bool or None"))
    by reflexivity.
  assert (He : exc_is_Exception (TypeError "keys must be str, int, float, bool or None")
               = true) by reflexivity.
  split; [exact Hfmt|].
  destruct (render_failure_is_isolated demo_runtime demo_logger "app" 20 "logs" 100 2
              INFO "x" [("counts", VDict [(KOther, VInt 3)])]
              (TypeError "keys must be str, int, float, bool or None") demo_world 0%Q
              Hh Hfield Hfmt He)
    as (cline & w' & _ & Hrun & Hfs & Hout & Herr).
  exists cline, w'. split; [exact Hrun|]. split; [exact Hfs|].
  split; [exact Hout|exact Herr].
Defined.

Lemma text_levelno_raises_to_caller_witness :
  exists msg,
    info demo_runtime demo_logger "x" [("levelno", VStr "high")] demo_world
      = (tick demo_world, Raise (TypeError msg)).
Proof.
  assert (Hb : Forall (fun k => k ∉ ["self"; "level"; "message"])
                 [("levelno", VStr "high")].*1)
    by (repeat constructor; compute_done).
  assert (Hord : Forall (fun k => ordinary_name k = true) [("levelno", VStr "high")].*1)
    by (repeat constructor).
  assert (Hnd : NoDup [("levelno", VStr "high")].*1) by compute_done.
  assert (Hin : ("levelno", VStr "high") ∈ [("levelno", VStr "high")]) by left.
  assert (Hh : lg_handlers (logger demo_logger) <> []) by (intros E; discriminate E).
  exact (text_levelno_raises_to_caller demo_runtime demo_logger INFO "x"
           [("levelno", VStr "high")] "high" demo_world Hb Hord Hnd Hin Hh).
Defined.

Lemma error_needs_an_exception_object_witness :
  (exists msg,
     error demo_runtime demo_logger "failed" (VStr "boom") [] demo_world
       = (demo_world, Raise (AttributeError msg))) /\
  error demo_runtime demo_logger "failed" (VStr "") [] demo_world
    = error demo_runtime demo_logger "failed" VNone [] demo_world.
Proof.
  assert (Hb : Forall (fun k => k ∉ ["self"; "message"; "exception"])
                 ([] : list (string * pyval)).*1) by constructor.
  split.
  - exact (error_needs_an_exception_object demo_runtime demo_logger "failed"
             (VStr "boom") [] demo_world Hb eq_refl).
  - exact (error_needs_an_exception_object demo_runtime demo_logger "failed"
             (VStr "") [] demo_world Hb eq_refl).
Defined.

Lemma current_file_stays_below_limit_witness :
  (Formatter_format demo_runtime StructuredFormatter demo_record demo_world_filled).2
    = Ok "{json}" /\
  fs demo_world_filled !! "logs/app.log" = Some "12345678" /\
  exists s' c',
    fs (RotatingFileHandler_emit demo_runtime StructuredFormatter "logs/app.log"
          10 2 demo_record demo_world_filled).1 !! "logs/app.log" = Some c' /\
    (c' = s' ++ NL \/
     (c' = "12345678" ++ s' ++ NL /\
      Z.of_nat (String.length "12345678") + Z.of_nat (String.length ("{json}" ++ NL)) < 10)).
Proof.
  assert (H1 : (Formatter_format demo_runtime StructuredFormatter demo_record
                  demo_world_filled).2 = Ok "{json}") by reflexivity.
  assert (H0 : fs demo_world_filled !! "logs/app.log" = Some "12345678") by reflexivity.
  assert (H2 : 0 < 10) by lia.
  assert (H3 : 0 < 2) by lia.
  split; [exact H1|]. split; [exact H0|].
  destruct (current_file_stays_below_limit demo_runtime StructuredFormatter "logs/app.log"
              10 2 demo_record demo_world_filled "{json}" "12345678" H1 H0 H2 H3)
    as (w1 & s' & c' & _ & _ & Hfs & Hc).
  exists s', c'. split; [exact Hfs|].
  destruct Hc as [Hc|(Hc & Hlt & _)]; [by left|right; by split].
Defined.

Lemma zero_backups_never_rotate_witness :
  (Formatter_format demo_runtime StructuredFormatter demo_record demo_world_filled).2
    = Ok "{json}" /\
  exists s',
    fs (RotatingFileHandler_emit demo_runtime StructuredFormatter "logs/app.log"
          10 0 demo_record demo_world_filled).1
      = <["logs/app.log" := "12345678" ++ s' ++ NL]> (fs demo_world_filled).
Proof.
  assert (H1 : (Formatter_format demo_runtime StructuredFormatter demo_record
                  demo_world_filled).2 = Ok "{json}") by reflexivity.
  assert (H0 : fs demo_world_filled !! "logs/app.log" = Some "12345678") by reflexivity.
  assert (H2 : 0 <= 0) by lia.
  split; [exact H1|].
  destruct (zero_backups_never_rotate demo_runtime StructuredFormatter "logs/app.log"
              10 0 demo_record demo_world_filled "{json}" "12345678" H1 H0 H2)
    as (w1 & s' & _ & _ & Hfs).
  exists s'. exact Hfs.
Defined.


Lemma level_names_accepted_in_any_case_witness :
  upper "Warning" ∈ ["DEBUG"; "INFO"; "WARNING"; "ERROR"; "CRITICAL"] /\
  exists l w',
    AdvancedLogger_init "app" "Warning" "logs" 100 2 empty_world = (w', Ok l) /\
    getLevelName (log_level l) = "WARNING".
Proof.
  assert (H1 : upper "Warning" ∈ ["DEBUG"; "INFO"; "WARNING"; "ERROR"; "CRITICAL"])
    by compute_done.
  split; [exact H1|].
  destruct (level_names_accepted_in_any_case "app" "Warning" "logs" 100 2 empty_world)
    as [_ Hok].
  destruct (Hok H1) as (l & w' & Hrun & Hname & _).
  exists l, w'. split; [exact Hrun|exact Hname].
Defined.

Lemma failed_construction_changes_nothing_witness :
  (exists msg,
     get_logger "demo" [("colour", VBool true)] empty_world
       = (empty_world, Raise (TypeError msg))) /\
  (exists w' msg,
     get_logger "demo" [("log_level", VStr "verbose")] empty_world
       = (w', Raise (AttributeError msg)) /\
     _default_logger w' = None /\ fs w' = fs empty_world).
Proof.
  assert (H0 : forall l, _default_logger empty_world = Some l -> name l <> "demo")
    by (intros l Hl; discriminate Hl).
  split.
  - destruct (failed_construction_changes_nothing "demo" [("colour", VBool true)]
                empty_world H0) as [Hkw _].
    apply Hkw. exists "colour". split; [left|compute_done].
  - destruct (failed_construction_changes_nothing "demo" [("log_level", VStr "verbose")]
                empty_world H0) as [_ Hlv].
    assert (Hb : bind_init_kwargs [("log_level", VStr "verbose")]
                   = Ok ("verbose", "logs", 10485760, 5)) by reflexivity.
    assert (Ha : ascii_only "verbose" = true) by reflexivity.
    assert (Hn : upper "verbose" ∉ logging_upper_names) by compute_done.
    destruct (Hlv "verbose" "logs" 10485760 5 Hb Ha Hn)
      as (w' & msg & Hrun & Hc & Hfs & _).
    exists w', msg. split; [exact Hrun|]. split; [exact Hc|exact Hfs].
Defined.


Lemma structured_entry_keys_witness :
  exists log_entry,
    StructuredFormatter_log_entry demo_runtime 0 demo_record = Ok log_entry /\
    ("pathname" ∉ log_entry.*1) /\ ("thread" ∉ log_entry.*1).
Proof.
  assert (Hle : exists log_entry,
            StructuredFormatter_log_entry demo_runtime 0 demo_record
              = Ok log_entry) by (eexists; reflexivity).
  destruct Hle as [log_entry Hle].
  destruct (structured_entry_keys demo_runtime 0 demo_record log_entry Hle) as [Hkeys _].
  exists log_entry. split; [exact Hle|].
  split; intros Hin; destruct (Hkeys _ Hin) as [Hs|[_ Hex]];
    first [revert Hs; compute_done | apply Hex; compute_done].
Defined.

